(** * document_parsing: parser selection, PDF page classification and chunking

    A shallow embedding of [parsers.py] (class [DocumentParser]) and of the
    chunking half of [app.py] ([_stable_id], [_clean_text], [chunk_text],
    [build_rag_json]) and of the page grid of [visualizer.py], followed by
    the properties of the specification that were checked against it and by
    further properties of the code.

    Conventions.
    - A Python [str] is a [string]; the model covers texts whose code points
      are below 256, and [encode("utf-8")] is written out for that range.
    - A Python [int] is a [Z].
    - The libraries the program calls (fitz, pdfplumber, docling, pptx, ...)
      and the file system are the fields of a record [World]; a call that can
      raise returns a [result].
    - Methods that raise, catch or log run in the monad [M], which threads the
      list of emitted events and keeps it when an exception is raised. *)

From Stdlib Require Import ZArith List String Ascii Bool Lia DecimalString.
From Stdlib Require Import Floats Uint63 Permutation.
Import ListNotations.
Local Open Scope string_scope.
Local Open Scope Z_scope.

(* ====================================================================== *)
(** ** Python string primitives *)
(* ====================================================================== *)

Module PyStr.

Definition LF : ascii := "010"%char.
Definition CR : ascii := "013"%char.
Definition TAB : ascii := "009"%char.
Definition SP : ascii := " "%char.

(** ["\n"] and ["\n\n"]. *)
Definition nl : string := String LF "".
Definition nlnl : string := String LF (String LF "").

Definition len (s : string) : Z := Z.of_nat (String.length s).

(** Truth value of a string: only [""] is false. *)
Definition truthy (s : string) : bool :=
  match s with EmptyString => false | String _ _ => true end.

(** [str.isspace] on one character, for code points below 256:
    U+0009..U+000D, U+001C..U+0020, U+0085 and U+00A0. *)
Definition is_space (c : ascii) : bool :=
  let n := N_of_ascii c in
  (((9 <=? n) && (n <=? 13)) || ((28 <=? n) && (n <=? 32))
   || (n =? 133) || (n =? 160))%N.

Fixpoint lstrip (s : string) : string :=
  match s with
  | EmptyString => EmptyString
  | String c s' => if is_space c then lstrip s' else s
  end.

Fixpoint rstrip (s : string) : string :=
  match s with
  | EmptyString => EmptyString
  | String c s' =>
      match rstrip s' with
      | EmptyString => if is_space c then EmptyString else String c EmptyString
      | r => String c r
      end
  end.

(** [s.strip()] *)
Definition strip (s : string) : string := rstrip (lstrip s).

(** [s.lstrip(ch)] for a one-character argument. *)
Fixpoint lstrip_char (ch : ascii) (s : string) : string :=
  match s with
  | EmptyString => EmptyString
  | String c s' => if Ascii.eqb c ch then lstrip_char ch s' else s
  end.

(** [s.replace(a, b)] for one-character [a] and [b]. *)
Fixpoint replace_char (a b : ascii) (s : string) : string :=
  match s with
  | EmptyString => EmptyString
  | String c s' => String (if Ascii.eqb c a then b else c) (replace_char a b s')
  end.

(** What a maximal run of class characters becomes under
    [re.sub(r"[class]{k,}", repl, _)]: [repl] when the run has at least [k]
    characters, itself otherwise. *)
Definition emit_run (k : nat) (repl run : string) : string :=
  if (k <=? String.length run)%nat then repl else run.

(** [re.sub(r"[class]{k,}", repl, s)] for [k >= 1]: the regex engine matches
    leftmost and greedy, so the matches are the maximal runs of at least [k]
    class characters.  [run] holds the class characters read since the last
    other character. *)
Fixpoint re_sub_run (cls : ascii -> bool) (k : nat) (repl run s : string) : string :=
  match s with
  | EmptyString => emit_run k repl run
  | String c s' =>
      if cls c then re_sub_run cls k repl (run ++ String c "") s'
      else emit_run k repl run ++ String c (re_sub_run cls k repl "" s')
  end.

Definition re_sub_class (cls : ascii -> bool) (k : nat) (repl s : string) : string :=
  re_sub_run cls k repl "" s.

Definition is_newline (c : ascii) : bool := Ascii.eqb c LF.
Definition is_blank (c : ascii) : bool := Ascii.eqb c SP || Ascii.eqb c TAB.

Fixpoint drop (n : nat) (s : string) : string :=
  match n, s with
  | O, _ => s
  | S n', String _ s' => drop n' s'
  | S _, EmptyString => EmptyString
  end.

Fixpoint take (n : nat) (s : string) : string :=
  match n, s with
  | O, _ => EmptyString
  | S n', String c s' => String c (take n' s')
  | S _, EmptyString => EmptyString
  end.

(** How a slice bound is read: a negative bound counts from the end, and the
    result is clamped to [0 .. len s]. *)
Definition slice_bound (n i : Z) : Z :=
  let i' := if i <? 0 then i + n else i in
  Z.max 0 (Z.min n i').

(** [s[i:j]] *)
Definition slice (s : string) (i j : Z) : string :=
  let n := len s in
  let a := slice_bound n i in
  let b := slice_bound n j in
  take (Z.to_nat (b - a)) (drop (Z.to_nat a) s).

(** [s.rfind(sub)], scanning [s] whose first character has index [i]. *)
Fixpoint rfind_from (sub s : string) (i : Z) : Z :=
  match s with
  | EmptyString => if String.prefix sub s then i else -1
  | String _ s' =>
      let r := rfind_from sub s' (i + 1) in
      if 0 <=? r then r else if String.prefix sub s then i else -1
  end.

Definition rfind (s sub : string) : Z := rfind_from sub s 0.

(** [sep.join(parts)] *)
Fixpoint join (sep : string) (parts : list string) : string :=
  match parts with
  | [] => ""
  | [p] => p
  | p :: rest => p ++ sep ++ join sep rest
  end.

(** [str(n)] for an [int]. *)
Definition str_int (z : Z) : string := NilZero.string_of_int (Z.to_int z).

(** [s.startswith(p)] and [s.endswith(p)] *)
Definition startswith (s p : string) : bool := String.prefix p s.

Definition endswith (s p : string) : bool :=
  let n := String.length s in
  let m := String.length p in
  (m <=? n)%nat && String.eqb (drop (n - m) s) p.

(** [c.lower()] on one character, for code points below 256. *)
Definition lower_char (c : ascii) : ascii :=
  let n := N_of_ascii c in
  if (((65 <=? n) && (n <=? 90))
      || ((192 <=? n) && (n <=? 222) && negb (n =? 215)))%N
  then ascii_of_N (n + 32) else c.

Fixpoint lower (s : string) : string :=
  match s with
  | EmptyString => EmptyString
  | String c s' => String (lower_char c) (lower s')
  end.

(** [s.split(sep)] for a one-character separator. *)
Fixpoint split_char (sep : ascii) (s : string) : list string :=
  match s with
  | EmptyString => [""]
  | String c s' =>
      if Ascii.eqb c sep then "" :: split_char sep s'
      else match split_char sep s' with
           | [] => [String c ""]
           | p :: ps => String c p :: ps
           end
  end.

(** [x or ""] and [x if x is not None else ""] on an optional string. *)
Definition or_empty (x : option string) : string :=
  match x with Some s => s | None => "" end.

(** [s.rfind(ch)] as an optional index. *)
Fixpoint rindex_char (ch : ascii) (s : string) : option nat :=
  match s with
  | EmptyString => None
  | String c s' =>
      match rindex_char ch s' with
      | Some i => Some (S i)
      | None => if Ascii.eqb c ch then Some O else None
      end
  end.

End PyStr.

(* ====================================================================== *)
(** ** pathlib: the two properties of [Path] the program reads *)
(* ====================================================================== *)

Module PyPath.
Import PyStr.

(** The components of a POSIX path: empty components and ["."] are
    dropped when the path is parsed. *)
Definition parts (p : string) : list string :=
  filter (fun c => truthy c && negb (String.eqb c "."))
         (split_char "/" p).

(** [Path(p).name]: the last component, [""] when there is none. *)
Definition name (p : string) : string := last (parts p) "".

(** [Path(p).suffix]: from the last dot of the name, when that dot is
    neither its first nor its last character. *)
Definition suffix (p : string) : string :=
  let nm := name p in
  match rindex_char "." nm with
  | Some i =>
      if ((0 <? i) && (i <? String.length nm - 1))%nat
      then drop i nm else ""
  | None => ""
  end.

End PyPath.

(* ====================================================================== *)
(** ** hashlib.sha1 (FIPS 180-4) on byte strings *)
(* ====================================================================== *)

Module Sha1.

Definition w32 : Z := 2 ^ 32.
Definition mask32 : Z := w32 - 1.

Definition add32 (a b : Z) : Z := (a + b) mod w32.

Definition rotl (k x : Z) : Z :=
  Z.land (Z.lor (Z.shiftl x k) (Z.shiftr x (32 - k))) mask32.

Definition not32 (x : Z) : Z := Z.lxor x mask32.

(** [s.encode("utf-8")] for code points below 256, which is what the
    strings here are made of: one byte below 128, two from there on.
    Such a string always encodes; Python raises [UnicodeEncodeError] on a
    lone surrogate, which no string here holds. *)
Fixpoint utf8 (s : string) : list Z :=
  match s with
  | EmptyString => []
  | String c s' =>
      let n := Z.of_N (N_of_ascii c) in
      if n <? 128 then n :: utf8 s'
      else (192 + n / 64) :: (128 + n mod 64) :: utf8 s'
  end.

(** Big-endian bytes of [x], [k] of them. *)
Fixpoint be_bytes (k : nat) (x : Z) : list Z :=
  match k with
  | O => []
  | S k' => (be_bytes k' (x / 256) ++ [x mod 256])%list
  end.

(** Message padding: a 1 bit, zeros up to 56 modulo 64 bytes, then the bit
    length on 64 bits. *)
Definition pad (msg : list Z) : list Z :=
  let l := Z.of_nat (List.length msg) in
  let zeros := Z.to_nat ((55 - l) mod 64) in
  (msg ++ [128] ++ repeat 0 zeros ++ be_bytes 8 (8 * l))%list.

Fixpoint word_of (bs : list Z) (acc : Z) : Z :=
  match bs with
  | [] => acc
  | b :: bs' => word_of bs' (acc * 256 + b)
  end.

(** The 32-bit words of a byte list, four bytes at a time. *)
Fixpoint words (k : nat) (bs : list Z) : list Z :=
  match k with
  | O => []
  | S k' => word_of (firstn 4 bs) 0 :: words k' (skipn 4 bs)
  end.

(** Message schedule, newest word first: [rw] holds [w(t-1), w(t-2), ...]. *)
Fixpoint schedule (k : nat) (rw : list Z) : list Z :=
  match k with
  | O => rw
  | S k' =>
      let x := Z.lxor (Z.lxor (nth 2 rw 0) (nth 7 rw 0))
                      (Z.lxor (nth 13 rw 0) (nth 15 rw 0)) in
      schedule k' (rotl 1 x :: rw)
  end.

Definition state : Type := Z * Z * Z * Z * Z.

Definition round_fk (t : Z) (b c d : Z) : Z * Z :=
  if t <? 20 then (Z.lor (Z.land b c) (Z.land (not32 b) d), 0x5A827999)
  else if t <? 40 then (Z.lxor (Z.lxor b c) d, 0x6ED9EBA1)
  else if t <? 60 then
    (Z.lor (Z.lor (Z.land b c) (Z.land b d)) (Z.land c d), 0x8F1BBCDC)
  else (Z.lxor (Z.lxor b c) d, 0xCA62C1D6).

Fixpoint rounds (t : Z) (ws : list Z) (st : state) : state :=
  match ws with
  | [] => st
  | w :: ws' =>
      let '(a, b, c, d, e) := st in
      let '(f, k) := round_fk t b c d in
      let temp := add32 (add32 (add32 (add32 (rotl 5 a) f) e) k) w in
      rounds (t + 1) ws' (temp, a, rotl 30 b, c, d)
  end.

Definition compress (st : state) (block : list Z) : state :=
  let ws := rev (schedule 64 (rev (words 16 block))) in
  let '(a, b, c, d, e) := rounds 0 ws st in
  let '(h0, h1, h2, h3, h4) := st in
  (add32 h0 a, add32 h1 b, add32 h2 c, add32 h3 d, add32 h4 e).

Fixpoint blocks (k : nat) (bs : list Z) (st : state) : state :=
  match k with
  | O => st
  | S k' => blocks k' (skipn 64 bs) (compress st (firstn 64 bs))
  end.

Definition init : state :=
  (0x67452301, 0xEFCDAB89, 0x98BADCFE, 0x10325476, 0xC3D2E1F0).

Definition hex_digit (d : Z) : ascii :=
  if d <? 10 then ascii_of_N (Z.to_N (48 + d)) else ascii_of_N (Z.to_N (87 + d)).

Fixpoint hex_of (k : nat) (x : Z) (acc : string) : string :=
  match k with
  | O => acc
  | S k' => hex_of k' (x / 16) (String (hex_digit (x mod 16)) acc)
  end.

(** [hashlib.sha1(bytes).hexdigest()] *)
Definition hexdigest (msg : list Z) : string :=
  let p := pad msg in
  let '(h0, h1, h2, h3, h4) := blocks (List.length p / 64) p init in
  hex_of 8 h0 (hex_of 8 h1 (hex_of 8 h2 (hex_of 8 h3 (hex_of 8 h4 "")))).

End Sha1.

(* ====================================================================== *)
(** ** The dictionaries the program passes around *)
(* ====================================================================== *)

Module Model.

(** A value of the open [metadata] mappings. *)
Inductive MetaVal : Type :=
| MInt (z : Z)
| MNum (num den : Z)          (* a float reported by an engine, as a ratio *)
| MStr (s : string).

Definition Metadata : Type := list (string * MetaVal).

(** [{'type': 'text' | 'image', 'bbox': (x0, y0, x1, y1)}] *)
Record BBox : Type := mkBBox {
  bbox_type : string;
  bbox : MetaVal * MetaVal * MetaVal * MetaVal
}.

(** An entry of [pages].  [bboxes] and [metadata] are keys only some
    engines set. *)
Record Page : Type := mkPage {
  page_number : Z;
  page_content : string;
  bboxes : option (list BBox);
  page_metadata : option Metadata
}.

(** The dictionary returned by [_analyze_pdf]. *)
Record PdfAnalysis : Type := mkPdfAnalysis {
  pdf_type : string;
  total_pages : Z;
  scanned_pages : list Z;
  hybrid_pages : list Z;
  digital_pages : list Z;
  has_text : bool
}.

(** The shapes of the [pdf_analysis] entry: [{}] after an error, the full
    dictionary, or the two keys the OCR engines write. *)
Inductive AnalysisDict : Type :=
| EmptyAnalysis
| FullAnalysis (a : PdfAnalysis)
| OcrAnalysis (type : string) (total : Z).

(** An extracted image; the pixels stay with the imaging library. *)
Record ExtractedImage : Type := mkImage {
  image_page : Z;
  image_index : Z;
  image_ext : string;
  image_width : Z;
  image_height : Z;
  image_mode : string
}.

(** The dictionary an engine returns and [parse] completes.  [pdf_analysis]
    is [None] both when the key is [None] and when it is absent (every
    reader uses [.get]); [errors] and the three [file_*] keys are absent
    until written. *)
Record Document : Type := mkDocument {
  tool_used : string;
  content : string;
  pages : list Page;
  images : list ExtractedImage;
  metadata : Metadata;
  pdf_analysis : option AnalysisDict;
  errors : option (list string);
  file_name : option string;
  file_type : option string;
  file_size : option Z
}.

End Model.

(* ====================================================================== *)
(** ** Exceptions, logging and the monad of the methods *)
(* ====================================================================== *)

Module Py.

(** The exceptions the program raises or catches, all subclasses of
    [Exception]; [OtherError] stands for any other subclass. *)
Inductive exn : Type :=
| ImportError (msg : string)
| ValueError (msg : string)
| FileNotFoundError (msg : string)
| ZeroDivisionError (msg : string)
| OtherError (msg : string).

(** [str(e)] *)
Definition exn_str (e : exn) : string :=
  match e with
  | ImportError m | ValueError m | FileNotFoundError m
  | ZeroDivisionError m | OtherError m => m
  end.

Definition is_import_error (e : exn) : bool :=
  match e with ImportError _ => true | _ => false end.

Inductive result (A : Type) : Type :=
| Ok (a : A)
| Raise (e : exn).
Arguments Ok {A} a.
Arguments Raise {A} e.

(** What a run leaves behind: the records written to [logger], and an
    [Enter] mark each time one of the engine methods is entered. *)
Inductive event : Type :=
| Info (msg : string)
| Warning (msg : string)
| Error (msg : string)
| Enter (method path : string).

Definition M (A : Type) : Type := list event -> result A * list event.

Definition ret {A : Type} (a : A) : M A := fun s => (Ok a, s).

Definition bind {A B : Type} (c : M A) (k : A -> M B) : M B :=
  fun s => match c s with
           | (Ok a, s') => k a s'
           | (Raise e, s') => (Raise e, s')
           end.

Definition raise {A : Type} (e : exn) : M A := fun s => (Raise e, s).

Definition lift {A : Type} (r : result A) : M A := fun s => (r, s).

Definition emit (ev : event) : M unit := fun s => (Ok tt, (s ++ [ev])%list).

(** [try: c  except Exception as e: h e] *)
Definition try_except {A : Type} (c : M A) (h : exn -> M A) : M A :=
  fun s => match c s with
           | (Ok a, s') => (Ok a, s')
           | (Raise e, s') => h e s'
           end.

(** [try: c  except ImportError as e: h e] *)
Definition try_import {A : Type} (c : M A) (h : exn -> M A) : M A :=
  try_except c (fun e => if is_import_error e then h e else raise e).

Declare Scope py_scope.
Delimit Scope py_scope with py.
Notation "x <- c ;; k" := (bind c (fun x => k))
  (at level 61, c at next level, right associativity) : py_scope.
Notation "c ;; k" := (bind c (fun _ => k))
  (at level 61, right associativity) : py_scope.

Local Open Scope py_scope.

(** [for i, x in enumerate(l, start=i)] collecting what the body appends. *)
Fixpoint for_each {A B : Type} (body : Z -> A -> M B) (i : Z) (l : list A)
  : M (list B) :=
  match l with
  | [] => ret []
  | x :: l' =>
      y <- body i x ;;
      ys <- for_each body (i + 1) l' ;;
      ret (y :: ys)
  end.

End Py.

(* ====================================================================== *)
(** ** parsers.py: the libraries and files the parser reads *)
(* ====================================================================== *)

Module Env.
Import Py Model.

(** [Optional[str]] cells of a pdfplumber table, row by row. *)
Definition Table : Type := list (list (option string)).

(** A page of a document opened with fitz. *)
Record FitzPage : Type := mkFitzPage {
  get_text : result string;
  get_images : result (list Z);
  get_blocks : result (list (option Z * (MetaVal * MetaVal * MetaVal * MetaVal)));
  rect_width : MetaVal;
  rect_height : MetaVal
}.

Record PlumberPage : Type := mkPlumberPage {
  extract_text : result (option string);
  extract_tables : result (list Table);
  plumber_width : MetaVal;
  plumber_height : MetaVal
}.

(** A page image made by pdf2image. *)
Record PilImage : Type := mkPilImage {
  pil_id : Z;
  pil_width : Z;
  pil_height : Z
}.

Record DoclingDoc : Type := mkDoclingDoc {
  export_to_markdown : result string;
  num_pages : result Z;
  export_page_markdown : Z -> result string;
  export_to_text : result string
}.

(** [dl_status] is [str(result.status)] when the result has a status. *)
Record DoclingResult : Type := mkDoclingResult {
  dl_status : option string;
  dl_errors : list string;
  dl_document : DoclingDoc
}.

Record DocxDocument : Type := mkDocx {
  paragraphs : list string;
  tables : list (list (list string))
}.

(** A slide: for each shape its [text], when it has one. *)
Definition Slide : Type := list (option string).

(** A sheet: its name and rows of cell values, [str] already applied to
    the cells that are not [None]. *)
Definition Sheet : Type := (string * list (list (option string)))%type.

(** A decoded PIL image: all the method reads of it. *)
Record Picture : Type := mkPicture {
  pic_width : Z;
  pic_height : Z;
  pic_mode : string
}.

(** The imaging calls: the import of PIL, [doc.extract_image(xref)] as the
    pair of ["image"] and ["ext"], [Image.open] on the bytes, and
    [pil_image.convert(mode)]. *)
Record Imaging : Type := mkImaging {
  pil_available : bool;
  extract_image : Z -> result (string * string);
  image_open : string -> result Picture;
  convert : Picture -> string -> result Picture
}.

Record World : Type := mkWorld {
  path_exists : string -> bool;
  getsize : string -> Z;
  http_get : string -> result string;
  write_temp : string -> string -> result string;
  has_module : string -> bool;
  fitz_open : string -> result (list FitzPage);
  imaging : Imaging;
  to_markdown : string -> result string;
  pdfplumber_open : string -> result (list PlumberPage);
  convert_from_path : string -> result (list PilImage);
  image_to_string : PilImage -> string -> result string;
  easyocr_reader : string -> result unit;
  readtext : PilImage -> string -> result (list string);
  docling_convert : string -> result DoclingResult;
  partition : string -> result (list string);
  docx_document : string -> result DocxDocument;
  pptx_presentation : string -> result (list Slide);
  load_workbook : string -> result (list Sheet);
  read_text : string -> result string
}.

End Env.

(* ====================================================================== *)
(** ** parsers.py: the extraction of images *)
(* ====================================================================== *)

Module Images.
Import PyStr Py Model Env.
Local Open Scope py_scope.

(** [MIN_IMAGE_SIZE] *)
Definition MIN_IMAGE_SIZE : Z * Z := (50, 50).

(** The state of the two loops: [images] and [extracted_xrefs]. *)
Definition Extraction : Type := (list ExtractedImage * list Z)%type.

(** [xref in extracted_xrefs] *)
Definition seen_before (xref : Z) (xrefs : list Z) : bool :=
  existsb (Z.eqb xref) xrefs.

Section Extract.
Variable im : Imaging.

(** The conversions applied to a picture whose mode is neither RGB nor
    RGBA. *)
Definition to_displayable (pic : Picture) : result Picture :=
  let mode := pic_mode pic in
  if String.eqb mode "RGB" || String.eqb mode "RGBA" then Ok pic
  else if String.eqb mode "CMYK" then convert im pic "RGB"
  else if String.eqb mode "1" then convert im pic "L"
  else if String.eqb mode "P" then convert im pic "RGB"
  else Ok pic.

(** The inner [try] block up to the size test: the picture to keep, if
    any. *)
Definition decode (image_bytes : string) : result (option Picture) :=
  match image_open im image_bytes with
  | Raise e => Raise e
  | Ok opened =>
      match to_displayable opened with
      | Raise e => Raise e
      | Ok pic =>
          if (pic_width pic <? fst MIN_IMAGE_SIZE)
             || (pic_height pic <? snd MIN_IMAGE_SIZE)
          then Ok None
          else Ok (Some pic)
      end
  end.

(** The body of [for img_index, img in enumerate(image_list)], [xref]
    being [img[0]].  In the handler of the inner [try], the rendering of
    the page names [fitz], which the method never imports: that raises
    [NameError], which the bare [except] swallows, so the handler adds no
    image. *)
Definition extract_one (page_num img_index xref : Z) (st : Extraction)
  : M Extraction :=
  let '(images, extracted_xrefs) := st in
  if seen_before xref extracted_xrefs then ret st
  else
    let extracted_xrefs := (extracted_xrefs ++ [xref])%list in
    match extract_image im xref with
    | Raise e =>
        emit (Warning ("Failed to extract image on page "
                       ++ str_int (page_num + 1) ++ ": " ++ exn_str e)) ;;
        ret (images, extracted_xrefs)
    | Ok (image_bytes, image_ext) =>
        match decode image_bytes with
        | Raise img_error =>
            emit (Warning ("Failed to convert image to PIL format: "
                           ++ exn_str img_error)) ;;
            ret (images, extracted_xrefs)
        | Ok None => ret (images, extracted_xrefs)
        | Ok (Some pil_image) =>
            ret ((images ++ [ {| image_page := page_num + 1;
                                 image_index := img_index;
                                 image_ext := image_ext;
                                 image_width := pic_width pil_image;
                                 image_height := pic_height pil_image;
                                 image_mode := pic_mode pil_image |} ])%list,
                 extracted_xrefs)
        end
    end.

(** The inner loop, over the images of one page. *)
Fixpoint extract_page (page_num img_index : Z) (image_list : list Z)
         (st : Extraction) : M Extraction :=
  match image_list with
  | [] => ret st
  | xref :: rest =>
      st' <- extract_one page_num img_index xref st ;;
      extract_page page_num (img_index + 1) rest st'
  end.

(** The outer loop, over the pages. *)
Fixpoint extract_pages (page_num : Z) (doc : list FitzPage) (st : Extraction)
  : M Extraction :=
  match doc with
  | [] => ret st
  | page :: rest =>
      image_list <- lift (get_images page) ;;
      st' <- extract_page page_num 0 image_list st ;;
      extract_pages (page_num + 1) rest st'
  end.

(** [_extract_images_pymupdf(doc)] *)
Definition _extract_images_pymupdf (doc : list FitzPage) : M (list ExtractedImage) :=
  if pil_available im then
    st <- extract_pages 0 doc ([], []) ;;
    ret (fst st)
  else raise (ImportError "No module named 'PIL'").

End Extract.

End Images.

(* ====================================================================== *)
(** ** app.py: text cleaning and chunking *)
(* ====================================================================== *)

Module App.
Import PyStr.

(** [_clean_text]:
    {[ s = s.replace("\r", "\n")
       s = re.sub(r"\n{3,}", "\n\n", s)
       s = re.sub(r"[ \t]{2,}", " ", s)
       return s.strip() ]} *)
Definition _clean_text (s : string) : string :=
  let s := replace_char CR LF s in
  let s := re_sub_class is_newline 3 nlnl s in
  let s := re_sub_class is_blank 2 " " s in
  strip s.

(** One pass through the body of the [while] loop of [chunk_text], from
    [end = min(n, start + max_chars)] to the (possibly cut) [end] and
    [chunk].  [cut > max_chars * 0.5] compares an int with a float; Python
    compares the two exactly and halving is exact, so it is
    [max_chars < 2 * cut]. *)
Definition chunk_body (text : string) (max_chars start : Z) : Z * string :=
  let n := len text in
  let end_ := Z.min n (start + max_chars) in
  let chunk := slice text start end_ in
  if end_ <? n then
    let cut := rfind chunk nlnl in
    if max_chars <? 2 * cut
    then (start + cut, slice text start (start + cut))
    else (end_, chunk)
  else (end_, chunk).

(** The [while start < n] loop.  Python's loop need not terminate; [fuel]
    bounds the number of iterations and [None] means it ran out. *)
Fixpoint chunk_loop (fuel : nat) (text : string) (max_chars overlap : Z)
         (start : Z) (chunks : list string) : option (list string) :=
  match fuel with
  | O => None
  | S fuel' =>
      let n := len text in
      if start <? n then
        let '(end_, chunk) := chunk_body text max_chars start in
        let chunks := (chunks ++ [strip chunk])%list in
        if end_ =? n then Some chunks
        else chunk_loop fuel' text max_chars overlap
                        (Z.max 0 (end_ - overlap)) chunks
      else Some chunks
  end.

(** [chunk_text(text, max_chars=900, overlap=120)] *)
Definition chunk_text (fuel : nat) (text : string) (max_chars overlap : Z)
  : option (list string) :=
  let text := _clean_text text in
  if negb (truthy text) then Some []
  else
    match chunk_loop fuel text max_chars overlap 0 [] with
    | Some chunks => Some (filter truthy chunks)
    | None => None
    end.

Definition default_max_chars : Z := 900.
Definition default_overlap : Z := 120.

(** [_stable_id] on its argument tuple [parts]:
    {[ s = "|".join(parts)
       return hashlib.sha1(s.encode("utf-8")).hexdigest()[:16] ]} *)
Definition _stable_id (parts : list string) : string :=
  let s := join "|" parts in
  take 16 (Sha1.hexdigest (Sha1.utf8 s)).

(** The [metadata] of a chunk; [chunk_page] is the ["page"] key, which only
    page-by-page chunks carry. *)
Record ChunkMeta : Type := mkChunkMeta {
  chunk_file_name : string;
  chunk_file_type : string;
  chunk_tool_used : string;
  chunk_page : option Z;
  chunk_index : Z
}.

Record Chunk : Type := mkChunk {
  chunk_id : string;
  chunk_text_ : string;
  chunk_metadata : ChunkMeta
}.

Record RagDocument : Type := mkRagDocument {
  rag_file_name : string;
  rag_file_type : string;
  rag_tool_used : string;
  rag_file_size : option Z;
  rag_pdf_analysis : option Model.AnalysisDict
}.

Record Rag : Type := mkRag {
  rag_schema : string;
  rag_created_at : string;
  rag_document : RagDocument;
  rag_chunks : list Chunk
}.

(** [enumerate(l)], counting from [i]. *)
Fixpoint enumerate_from {A : Type} (i : Z) (l : list A) : list (Z * A) :=
  match l with
  | [] => []
  | x :: l' => (i, x) :: enumerate_from (i + 1) l'
  end.

(** The entries one page contributes: the body of [for p in pages]. *)
Definition page_entries (fuel : nat) (file_name file_type tool_used : string)
           (chunk_size overlap : Z) (p : Model.Page) : option (list Chunk) :=
  let page_num := Model.page_number p in
  let page_text := _clean_text (Model.page_content p) in
  if negb (truthy page_text) then Some []
  else
    match chunk_text fuel page_text chunk_size overlap with
    | None => None
    | Some page_chunks =>
        Some (map (fun '(i, ch) =>
                {| chunk_id :=
                     _stable_id [file_name; str_int page_num; str_int i; take 40 ch];
                   chunk_text_ := ch;
                   chunk_metadata :=
                     {| chunk_file_name := file_name;
                        chunk_file_type := file_type;
                        chunk_tool_used := tool_used;
                        chunk_page := Some page_num;
                        chunk_index := i |} |})
              (enumerate_from 0 page_chunks))
    end.

(** [for p in pages: ... rag["chunks"].append(...)] *)
Fixpoint pages_entries (fuel : nat) (file_name file_type tool_used : string)
         (chunk_size overlap : Z) (ps : list Model.Page) : option (list Chunk) :=
  match ps with
  | [] => Some []
  | p :: ps' =>
      match page_entries fuel file_name file_type tool_used chunk_size overlap p with
      | None => None
      | Some cs =>
          match pages_entries fuel file_name file_type tool_used
                              chunk_size overlap ps' with
          | None => None
          | Some rest => Some (cs ++ rest)%list
          end
      end
  end.

(** The [else] branch: the flattened content chunked once. *)
Definition doc_entries (fuel : nat) (file_name file_type tool_used : string)
           (chunk_size overlap : Z) (content : string) : option (list Chunk) :=
  let content := _clean_text content in
  match chunk_text fuel content chunk_size overlap with
  | None => None
  | Some chunks =>
      Some (map (fun '(i, ch) =>
              {| chunk_id := _stable_id [file_name; "doc"; str_int i; take 40 ch];
                 chunk_text_ := ch;
                 chunk_metadata :=
                   {| chunk_file_name := file_name;
                      chunk_file_type := file_type;
                      chunk_tool_used := tool_used;
                      chunk_page := None;
                      chunk_index := i |} |})
            (enumerate_from 0 chunks))
  end.

(** [x or y] on an optional string. *)
Definition or_else (x : option string) (y : string) : string :=
  match x with
  | Some s => if truthy s then s else y
  | None => y
  end.

(** [build_rag_json(results, document_path, chunk_size=900, overlap=120)].
    [now] is [datetime.utcnow().isoformat()]. *)
Definition build_rag_json (fuel : nat) (now : string) (results : Model.Document)
           (document_path : string) (chunk_size overlap : Z) : option Rag :=
  let file_name :=
    or_else (Model.file_name results)
            (if truthy document_path then PyPath.name document_path
             else "document") in
  let tool_used := Model.tool_used results in
  let file_type :=
    match Model.file_type results with Some t => t | None => "unknown" end in
  let doc :=
    {| rag_file_name := file_name;
       rag_file_type := file_type;
       rag_tool_used := tool_used;
       rag_file_size := Model.file_size results;
       rag_pdf_analysis := Model.pdf_analysis results |} in
  let entries :=
    match Model.pages results with
    | _ :: _ =>
        pages_entries fuel file_name file_type tool_used chunk_size overlap
                      (Model.pages results)
    | [] =>
        doc_entries fuel file_name file_type tool_used chunk_size overlap
                    (Model.content results)
    end in
  match entries with
  | None => None
  | Some chunks =>
      Some {| rag_schema := "rag_chunks_v1";
              rag_created_at := now ++ "Z";
              rag_document := doc;
              rag_chunks := chunks |}
  end.

End App.

(* ====================================================================== *)
(** ** parsers.py: class DocumentParser *)
(* ====================================================================== *)

Module Parsers.
Import PyStr Py Model Env.
Local Open Scope py_scope.

(** The attributes set by [__init__]. *)
Record DocumentParser : Type := mkParser {
  tool : option string;
  detect_scanned : bool;
  extract_images : bool;
  ocr_lang : string
}.

Definition SUPPORTED_EXTENSIONS : list (string * list string) :=
  [ ("pdf", ["pdf"]);
    ("word", ["docx"; "doc"]);
    ("powerpoint", ["pptx"; "ppt"]);
    ("excel", ["xlsx"; "xls"; "csv"]);
    ("text", ["txt"; "md"; "html"; "htm"]) ].

(** The parser methods, as the values [_get_parser_method] and
    [_auto_select_parser] return. *)
Inductive parser_method : Type :=
| M_pymupdf | M_pymupdf4llm | M_docling | M_unstructured | M_pdfplumber
| M_word | M_powerpoint | M_excel | M_tesseract | M_easyocr | M_text.

(** [parser_method.__name__] *)
Definition method_name (m : parser_method) : string :=
  match m with
  | M_pymupdf => "_parse_with_pymupdf"
  | M_pymupdf4llm => "_parse_with_pymupdf4llm"
  | M_docling => "_parse_with_docling"
  | M_unstructured => "_parse_with_unstructured"
  | M_pdfplumber => "_parse_with_pdfplumber"
  | M_word => "_parse_word"
  | M_powerpoint => "_parse_powerpoint"
  | M_excel => "_parse_excel"
  | M_tesseract => "_parse_with_tesseract"
  | M_easyocr => "_parse_with_easyocr"
  | M_text => "_parse_text"
  end.

(** The dictionary [method_map] of [_get_parser_method]. *)
Definition method_map : list (string * parser_method) :=
  [ ("pymupdf", M_pymupdf);
    ("pymupdf4llm", M_pymupdf4llm);
    ("docling", M_docling);
    ("unstructured", M_unstructured);
    ("pdfplumber", M_pdfplumber);
    ("python-docx", M_word);
    ("python-pptx", M_powerpoint);
    ("openpyxl", M_excel);
    ("tesseract_ocr", M_tesseract);
    ("easyocr", M_easyocr) ].

(** [d.get(k)] on a dictionary written as an association list. *)
Fixpoint dict_get {A : Type} (d : list (string * A)) (k : string) : option A :=
  match d with
  | [] => None
  | (k', v) :: d' => if String.eqb k' k then Some v else dict_get d' k
  end.

(** [x in l] on a list of strings. *)
Definition str_in (x : string) (l : list string) : bool :=
  existsb (String.eqb x) l.

(** [_get_document_type] *)
Fixpoint _get_document_type_in (items : list (string * list string))
         (extension : string) : string :=
  match items with
  | [] => "unknown"
  | (doc_type, exts) :: rest =>
      if str_in extension exts then doc_type
      else _get_document_type_in rest extension
  end.

Definition _get_document_type (extension : string) : string :=
  _get_document_type_in SUPPORTED_EXTENSIONS extension.

(** [_get_parser_method] *)
Definition _get_parser_method (tool_name : string) : result parser_method :=
  match dict_get method_map tool_name with
  | None => Raise (ValueError ("Unknown tool: " ++ tool_name))
  | Some m => Ok m
  end.

(** [float(z)], exact below 2^53. *)
Definition float_of_int (z : Z) : float :=
  if z <? 0 then PrimFloat.opp (PrimFloat.of_uint63 (Uint63.of_Z (- z)))
  else PrimFloat.of_uint63 (Uint63.of_Z z).

(** The literal [0.7]: the nearest binary64 value, 0.69999999999999996. *)
Definition point_seven : float := 0x1.6666666666666p-1%float.

(** [a / b] on two ints. *)
Definition true_div (a b : Z) : result float :=
  if b =? 0 then Raise (ZeroDivisionError "division by zero")
  else Ok (PrimFloat.div (float_of_int a) (float_of_int b)).

(** [f"## Page {n}\n\n{text}\n"] and its [Slide] twin. *)
Definition page_block (heading : string) (n : Z) (text : string) : string :=
  "## " ++ heading ++ " " ++ str_int n ++ nlnl ++ text ++ nl.

(** [str(cell)] of an [Optional[str]] cell. *)
Definition str_cell (c : option string) : string :=
  match c with Some s => s | None => "None" end.

(** Truth value of an [Optional[str]] cell. *)
Definition cell_truthy (c : option string) : bool :=
  match c with Some s => truthy s | None => false end.

(** ["| " + " | ".join(str(cell) for cell in table[0]) + " |\n"] *)
Definition header_row (row : list (option string)) : string :=
  "| " ++ join " | " (map str_cell row) ++ " |" ++ nl.

(** ["|" + "|".join(["---"] * len(table[0])) + "|\n"] *)
Definition separator_row (row : list (option string)) : string :=
  "|" ++ join "|" (repeat "---" (List.length row)) ++ "|" ++ nl.

(** ["| " + " | ".join(str(cell) if cell else "" for cell in row) + " |\n"] *)
Definition data_row (row : list (option string)) : string :=
  "| " ++ join " | " (map (fun c => if cell_truthy c then str_cell c else "") row)
       ++ " |" ++ nl.

(** What one table adds to [table_md]: the body of
    [for table_idx, table in enumerate(tables)]. *)
Definition table_markdown (table_idx : Z) (table : Table) : string :=
  match table with
  | [] => ""
  | header :: rows =>
      nl ++ "**Table " ++ str_int (table_idx + 1) ++ ":**" ++ nlnl
      ++ match header with
         | [] => ""
         | _ :: _ =>
             header_row header ++ separator_row header
             ++ String.concat "" (map data_row rows)
         end
      ++ nl
  end.

(** [table_md] after the loop over [tables]. *)
Fixpoint tables_markdown (table_idx : Z) (tables : list Table) : string :=
  match tables with
  | [] => ""
  | t :: ts => table_markdown table_idx t ++ tables_markdown (table_idx + 1) ts
  end.

(** The three lists [_analyze_pdf] fills. *)
Definition PageLists : Type := (list Z * list Z * list Z)%type.

(** The [if]/[elif] chain of [_analyze_pdf] for page index [page_num]. *)
Definition classify_page (text : string) (images : list Z) (page_num : Z)
           (acc : PageLists) : PageLists :=
  let '(scanned, hybrid, digital) := acc in
  let has_text := 50 <? len text in
  let has_images := 0 <? Z.of_nat (List.length images) in
  if negb has_text && has_images then
    ((scanned ++ [page_num + 1])%list, hybrid, digital)
  else if has_text && has_images then
    (scanned, (hybrid ++ [page_num + 1])%list, digital)
  else if has_text then
    (scanned, hybrid, (digital ++ [page_num + 1])%list)
  else acc.

Section Methods.
Variable w : World.

(** [import m] *)
Definition import_ (m : string) : M unit :=
  if has_module w m then ret tt
  else raise (ImportError ("No module named '" ++ m ++ "'")).

(** [_download_from_url] *)
Definition _download_from_url (url : string) : M string :=
  try_except
    (content <- lift (http_get w url) ;;
     let ext := let sfx := PyPath.suffix url in
                if truthy sfx then sfx else ".pdf" in
     lift (write_temp w ext content))
    (fun e => raise (OtherError ("Failed to download from URL: " ++ exn_str e))).

(** The loop of [_is_scanned_pdf] over the sampled pages. *)
Fixpoint count_without_text (sample : list FitzPage) (pages_without_text : Z)
  : M Z :=
  match sample with
  | [] => ret pages_without_text
  | page :: rest =>
      raw <- lift (get_text page) ;;
      let text := strip raw in
      if negb (truthy text) || (len text <? 50)
      then count_without_text rest (pages_without_text + 1)
      else count_without_text rest pages_without_text
  end.

(** The [try] block of [_is_scanned_pdf]. *)
Definition _is_scanned_pdf_try (pdf_path : string) : M bool :=
  import_ "fitz" ;;
  doc <- lift (fitz_open w pdf_path) ;;
  let total_pages := Z.of_nat (List.length doc) in
  let sample := firstn (Z.to_nat (Z.min 5 total_pages)) doc in
  pages_without_text <- count_without_text sample 0 ;;
  ratio <- lift (true_div pages_without_text (Z.min 5 total_pages)) ;;
  ret (PrimFloat.ltb point_seven ratio).

(** [_is_scanned_pdf] *)
Definition _is_scanned_pdf (pdf_path : string) : M bool :=
  try_except (_is_scanned_pdf_try pdf_path)
    (fun e =>
       emit (Warning ("Error detecting scanned PDF: " ++ exn_str e)) ;;
       ret false).

(** The loop of [_analyze_pdf]. *)
Fixpoint analyze_pages (doc : list FitzPage) (page_num : Z) (acc : PageLists)
  : M PageLists :=
  match doc with
  | [] => ret acc
  | page :: rest =>
      raw <- lift (get_text page) ;;
      let text := strip raw in
      images <- lift (get_images page) ;;
      analyze_pages rest (page_num + 1) (classify_page text images page_num acc)
  end.

(** The [try] block of [_analyze_pdf]. *)
Definition _analyze_pdf_try (pdf_path : string) : M AnalysisDict :=
  import_ "fitz" ;;
  doc <- lift (fitz_open w pdf_path) ;;
  let total_pages := Z.of_nat (List.length doc) in
  lists <- analyze_pages doc 0 ([], [], []) ;;
  let '(scanned_pages, hybrid_pages, digital_pages) := lists in
  let pdf_type :=
    if Z.of_nat (List.length scanned_pages) =? total_pages then "Scanned"
    else if Z.of_nat (List.length digital_pages) =? total_pages then "Digital"
    else "Hybrid" in
  ret (FullAnalysis
         {| pdf_type := pdf_type;
            total_pages := total_pages;
            scanned_pages := scanned_pages;
            hybrid_pages := hybrid_pages;
            digital_pages := digital_pages;
            has_text := (0 <? Z.of_nat (List.length digital_pages))
                        || (0 <? Z.of_nat (List.length hybrid_pages)) |}).

(** [_analyze_pdf] *)
Definition _analyze_pdf (pdf_path : string) : M AnalysisDict :=
  try_except (_analyze_pdf_try pdf_path)
    (fun e =>
       emit (Warning ("Error analyzing PDF: " ++ exn_str e)) ;;
       ret EmptyAnalysis).

Section WithSelf.
Variable self : DocumentParser.

(** [pdf_analysis = None; if self.detect_scanned: ...] *)
Definition analysis_if_requested (pdf_path : string)
  : M (option AnalysisDict) :=
  if detect_scanned self then
    a <- _analyze_pdf pdf_path ;; ret (Some a)
  else ret None.

(** [images = []; if self.extract_images: images = self._extract_images_pymupdf(doc)] *)
Definition images_if_requested (doc : list FitzPage)
  : M (list ExtractedImage) :=
  if extract_images self
  then Images._extract_images_pymupdf (imaging w) doc
  else ret [].

Definition size_metadata (width height : MetaVal) : Metadata :=
  [("width", width); ("height", height)].

(** [_parse_with_pymupdf] *)
Definition _parse_with_pymupdf (pdf_path : string) : M Document :=
  emit (Enter "_parse_with_pymupdf" pdf_path) ;;
  import_ "fitz" ;;
  doc <- lift (fitz_open w pdf_path) ;;
  items <- for_each
             (fun page_num page =>
                text <- lift (get_text page) ;;
                ret ({| page_number := page_num + 1;
                        page_content := text;
                        bboxes := None;
                        page_metadata :=
                          Some (size_metadata (rect_width page)
                                              (rect_height page)) |},
                     page_block "Page" (page_num + 1) text))
             0 doc ;;
  let pages := map fst items in
  let content := map snd items in
  images <- images_if_requested doc ;;
  pdf_analysis <- analysis_if_requested pdf_path ;;
  ret {| tool_used := "PyMuPDF";
         content := join nl content;
         pages := pages;
         images := images;
         metadata := [("page_count", MInt (Z.of_nat (List.length pages)))];
         pdf_analysis := pdf_analysis;
         errors := None;
         file_name := None; file_type := None; file_size := None |}.

(** The bounding boxes of one page: text blocks have type 0, image
    blocks type 1, others are skipped. *)
Fixpoint block_bboxes
         (blocks : list (option Z * (MetaVal * MetaVal * MetaVal * MetaVal)))
  : list BBox :=
  match blocks with
  | [] => []
  | (ty, box) :: rest =>
      match ty with
      | Some 0 => {| bbox_type := "text"; bbox := box |} :: block_bboxes rest
      | Some 1 => {| bbox_type := "image"; bbox := box |} :: block_bboxes rest
      | _ => block_bboxes rest
      end
  end.

(** [_parse_with_pymupdf4llm] *)
Definition _parse_with_pymupdf4llm (pdf_path : string) : M Document :=
  emit (Enter "_parse_with_pymupdf4llm" pdf_path) ;;
  try_import
    (import_ "pymupdf4llm" ;;
     md_text <- lift (to_markdown w pdf_path) ;;
     import_ "fitz" ;;
     doc <- lift (fitz_open w pdf_path) ;;
     pages <- for_each
                (fun page_num page =>
                   text <- lift (get_text page) ;;
                   blocks <- lift (get_blocks page) ;;
                   ret {| page_number := page_num + 1;
                          page_content := text;
                          bboxes := Some (block_bboxes blocks);
                          page_metadata :=
                            Some (size_metadata (rect_width page)
                                                (rect_height page)) |})
                0 doc ;;
     images <- images_if_requested doc ;;
     pdf_analysis <- analysis_if_requested pdf_path ;;
     ret {| tool_used := "PyMuPDF4LLM";
            content := md_text;
            pages := pages;
            images := images;
            metadata := [("page_count", MInt (Z.of_nat (List.length pages)))];
            pdf_analysis := pdf_analysis;
            errors := None;
            file_name := None; file_type := None; file_size := None |})
    (fun _ =>
       emit (Warning "pymupdf4llm not available, falling back to PyMuPDF") ;;
       _parse_with_pymupdf pdf_path).

(** [_parse_with_pdfplumber] *)
Definition _parse_with_pdfplumber (pdf_path : string) : M Document :=
  emit (Enter "_parse_with_pdfplumber" pdf_path) ;;
  try_import
    (import_ "pdfplumber" ;;
     pdf_pages <- lift (pdfplumber_open w pdf_path) ;;
     items <- for_each
                (fun page_num page =>
                   extracted <- lift (extract_text page) ;;
                   let text := or_empty extracted in
                   tables <- lift (extract_tables page) ;;
                   let table_md := tables_markdown 0 tables in
                   let page_content := text ++ nl ++ table_md in
                   ret ({| page_number := page_num + 1;
                           page_content := page_content;
                           bboxes := None;
                           page_metadata :=
                             Some [("width", plumber_width page);
                                   ("height", plumber_height page);
                                   ("tables_count",
                                    MInt (Z.of_nat (List.length tables)))] |},
                        page_block "Page" (page_num + 1) page_content))
                0 pdf_pages ;;
     let pages := map fst items in
     let content := map snd items in
     pdf_analysis <- analysis_if_requested pdf_path ;;
     ret {| tool_used := "pdfplumber";
            content := join nl content;
            pages := pages;
            images := [];
            metadata := [("page_count", MInt (Z.of_nat (List.length pages)))];
            pdf_analysis := pdf_analysis;
            errors := None;
            file_name := None; file_type := None; file_size := None |})
    (fun _ =>
       emit (Warning "pdfplumber not available, falling back to PyMuPDF") ;;
       _parse_with_pymupdf pdf_path).

(** [_parse_with_tesseract] *)
Definition _parse_with_tesseract (pdf_path : string) : M Document :=
  emit (Enter "_parse_with_tesseract" pdf_path) ;;
  try_import
    (import_ "pytesseract" ;;
     import_ "pdf2image" ;;
     page_images <- lift (convert_from_path w pdf_path) ;;
     items <- for_each
                (fun page_num image =>
                   text <- lift (image_to_string w image (ocr_lang self)) ;;
                   ret ({| page_number := page_num + 1;
                           page_content := text;
                           bboxes := None;
                           page_metadata :=
                             Some [("ocr_confidence", MStr "N/A");
                                   ("width", MInt (pil_width image));
                                   ("height", MInt (pil_height image))] |},
                        page_block "Page" (page_num + 1) text))
                0 page_images ;;
     let pages := map fst items in
     let content := map snd items in
     ret {| tool_used := "Tesseract OCR";
            content := join nl content;
            pages := pages;
            images := [];
            metadata := [("page_count", MInt (Z.of_nat (List.length pages)))];
            pdf_analysis :=
              Some (OcrAnalysis "Scanned" (Z.of_nat (List.length pages)));
            errors := None;
            file_name := None; file_type := None; file_size := None |})
    (fun e =>
       raise (ImportError ("Tesseract OCR dependencies not available: "
                           ++ exn_str e))).

(** [_parse_with_easyocr] *)
Definition _parse_with_easyocr (pdf_path : string) : M Document :=
  emit (Enter "_parse_with_easyocr" pdf_path) ;;
  try_import
    (import_ "easyocr" ;;
     import_ "pdf2image" ;;
     import_ "numpy" ;;
     lift (easyocr_reader w (ocr_lang self)) ;;
     page_images <- lift (convert_from_path w pdf_path) ;;
     items <- for_each
                (fun page_num image =>
                   results <- lift (readtext w image (ocr_lang self)) ;;
                   let text := join nl results in
                   ret ({| page_number := page_num + 1;
                           page_content := text;
                           bboxes := None;
                           page_metadata :=
                             Some [("detections",
                                    MInt (Z.of_nat (List.length results)));
                                   ("width", MInt (pil_width image));
                                   ("height", MInt (pil_height image))] |},
                        page_block "Page" (page_num + 1) text))
                0 page_images ;;
     let pages := map fst items in
     let content := map snd items in
     ret {| tool_used := "EasyOCR";
            content := join nl content;
            pages := pages;
            images := [];
            metadata := [("page_count", MInt (Z.of_nat (List.length pages)))];
            pdf_analysis :=
              Some (OcrAnalysis "Scanned" (Z.of_nat (List.length pages)));
            errors := None;
            file_name := None; file_type := None; file_size := None |})
    (fun e =>
       raise (ImportError ("EasyOCR dependencies not available: "
                           ++ exn_str e))).

(** The [try] block of [_parse_with_docling]. *)
Definition _parse_with_docling_try (pdf_path : string) : M Document :=
  import_ "docling" ;;
  result <- lift (docling_convert w pdf_path) ;;
  if match dl_status result with
     | Some st => endswith st "FAILURE"
     | None => false
     end
  then
    ret {| tool_used := "Docling";
           content := "";
           pages := [];
           images := [];
           metadata := [];
           pdf_analysis := None;
           errors := Some (dl_errors result);
           file_name := None; file_type := None; file_size := None |}
  else
    let doc := dl_document result in
    full_md <- lift (export_to_markdown doc) ;;
    page_count <- lift (num_pages doc) ;;
    pages <- for_each
               (fun i (_ : unit) =>
                  page_md <- lift (export_page_markdown doc i) ;;
                  ret {| page_number := i + 1;
                         page_content := page_md;
                         bboxes := None;
                         page_metadata := Some [] |})
               0 (repeat tt (Z.to_nat page_count)) ;;
    full_md <- (if negb (truthy (strip full_md))
                then lift (export_to_text doc) else ret full_md) ;;
    ret {| tool_used := "Docling";
           content := full_md;
           pages := pages;
           images := [];
           metadata := [("page_count", MInt page_count)];
           pdf_analysis := None;
           errors := None;
           file_name := None; file_type := None; file_size := None |}.

(** [_parse_with_docling]: both handlers end in the PyMuPDF engine. *)
Definition _parse_with_docling (pdf_path : string) : M Document :=
  emit (Enter "_parse_with_docling" pdf_path) ;;
  try_except (_parse_with_docling_try pdf_path)
    (fun e =>
       if is_import_error e then
         emit (Warning "Docling not available, falling back to PyMuPDF") ;;
         _parse_with_pymupdf pdf_path
       else
         emit (Error "Docling failed, falling back to PyMuPDF") ;;
         _parse_with_pymupdf pdf_path).

(** [_parse_with_unstructured] *)
Definition _parse_with_unstructured (pdf_path : string) : M Document :=
  emit (Enter "_parse_with_unstructured" pdf_path) ;;
  try_import
    (import_ "unstructured" ;;
     elements <- lift (partition w pdf_path) ;;
     ret {| tool_used := "Unstructured";
            content := join nlnl elements;
            pages := [];
            images := [];
            metadata :=
              [("elements_count", MInt (Z.of_nat (List.length elements)))];
            pdf_analysis := None;
            errors := None;
            file_name := None; file_type := None; file_size := None |})
    (fun _ =>
       emit (Warning "Unstructured not available, falling back to PyMuPDF") ;;
       _parse_with_pymupdf pdf_path).

(** [_parse_word] *)
Definition _parse_word (doc_path : string) : M Document :=
  emit (Enter "_parse_word" doc_path) ;;
  try_import
    (import_ "docx" ;;
     doc <- lift (docx_document w doc_path) ;;
     let paras := filter (fun t => truthy (strip t)) (paragraphs doc) in
     let tabs :=
       flat_map (fun table =>
                   (nl ++ "**Table:**" ++ nl) :: map (join " | ") table)
                (tables doc) in
     let full_content := join nlnl (paras ++ tabs)%list in
     ret {| tool_used := "python-docx";
            content := full_content;
            pages := [ {| page_number := 1;
                          page_content := full_content;
                          bboxes := None;
                          page_metadata := None |} ];
            images := [];
            metadata :=
              [("paragraphs", MInt (Z.of_nat (List.length (paragraphs doc))));
               ("tables", MInt (Z.of_nat (List.length (tables doc))))];
            pdf_analysis := None;
            errors := None;
            file_name := None; file_type := None; file_size := None |})
    (fun _ => raise (ImportError "python-docx not available")).

(** The texts of the shapes of a slide that have one. *)
Fixpoint shape_texts (shapes : Slide) : list string :=
  match shapes with
  | [] => []
  | Some t :: rest => t :: shape_texts rest
  | None :: rest => shape_texts rest
  end.

(** [_parse_powerpoint] *)
Definition _parse_powerpoint (ppt_path : string) : M Document :=
  emit (Enter "_parse_powerpoint" ppt_path) ;;
  try_import
    (import_ "pptx" ;;
     slides <- lift (pptx_presentation w ppt_path) ;;
     items <- for_each
                (fun slide_num slide =>
                   let slide_content := join nl (shape_texts slide) in
                   ret ({| page_number := slide_num + 1;
                           page_content := slide_content;
                           bboxes := None;
                           page_metadata := None |},
                        page_block "Slide" (slide_num + 1) slide_content))
                0 slides ;;
     let pages := map fst items in
     let content := map snd items in
     ret {| tool_used := "python-pptx";
            content := join nl content;
            pages := pages;
            images := [];
            metadata := [("slides", MInt (Z.of_nat (List.length slides)))];
            pdf_analysis := None;
            errors := None;
            file_name := None; file_type := None; file_size := None |})
    (fun _ => raise (ImportError "python-pptx not available")).

(** [_parse_excel] *)
Definition _parse_excel (excel_path : string) : M Document :=
  emit (Enter "_parse_excel" excel_path) ;;
  try_import
    (import_ "openpyxl" ;;
     sheets <- lift (load_workbook w excel_path) ;;
     let content :=
       flat_map
         (fun sheet : Sheet =>
            let title := "## Sheet: " ++ fst sheet ++ nl in
            let lines :=
              map (fun row => "| " ++ join " | " (map or_empty row) ++ " |")
                  (snd sheet) in
            (title :: lines ++ [nl])%list)
         sheets in
     ret {| tool_used := "openpyxl";
            content := join nl content;
            pages := [];
            images := [];
            metadata := [("sheets", MInt (Z.of_nat (List.length sheets)))];
            pdf_analysis := None;
            errors := None;
            file_name := None; file_type := None; file_size := None |})
    (fun _ => raise (ImportError "openpyxl not available")).

(** [_parse_text] *)
Definition _parse_text (text_path : string) : M Document :=
  emit (Enter "_parse_text" text_path) ;;
  content <- lift (read_text w text_path) ;;
  ret {| tool_used := "Built-in";
         content := content;
         pages := [ {| page_number := 1;
                       page_content := content;
                       bboxes := None;
                       page_metadata := None |} ];
         images := [];
         metadata :=
           [("lines", MInt (Z.of_nat (List.length (split_char LF content))))];
         pdf_analysis := None;
         errors := None;
         file_name := None; file_type := None; file_size := None |}.

(** Calling a parser method: [parser_method(document_path)]. *)
Definition invoke (m : parser_method) (document_path : string) : M Document :=
  match m with
  | M_pymupdf => _parse_with_pymupdf document_path
  | M_pymupdf4llm => _parse_with_pymupdf4llm document_path
  | M_docling => _parse_with_docling document_path
  | M_unstructured => _parse_with_unstructured document_path
  | M_pdfplumber => _parse_with_pdfplumber document_path
  | M_word => _parse_word document_path
  | M_powerpoint => _parse_powerpoint document_path
  | M_excel => _parse_excel document_path
  | M_tesseract => _parse_with_tesseract document_path
  | M_easyocr => _parse_with_easyocr document_path
  | M_text => _parse_text document_path
  end.

(** [_auto_select_parser] *)
Definition _auto_select_parser (doc_type path : string) : M parser_method :=
  if String.eqb doc_type "pdf" then
    if detect_scanned self then
      is_scanned <- _is_scanned_pdf path ;;
      if is_scanned then
        emit (Info "Detected scanned PDF, using OCR") ;;
        ret M_tesseract
      else ret M_pymupdf4llm
    else ret M_pymupdf4llm
  else if String.eqb doc_type "word" then ret M_word
  else if String.eqb doc_type "powerpoint" then ret M_powerpoint
  else if String.eqb doc_type "excel" then ret M_excel
  else if String.eqb doc_type "text" then ret M_text
  else raise (ValueError ("Unsupported document type: " ++ doc_type)).

(** The first two steps of [parse]: the download of a URL and the
    check that the file exists. *)
Definition locate (document_path : string) : M string :=
  document_path <-
    (if startswith document_path "http://"
        || startswith document_path "https://"
     then _download_from_url document_path
     else ret document_path) ;;
  if negb (path_exists w document_path)
  then raise (FileNotFoundError ("Document not found: " ++ document_path))
  else ret document_path.

(** [if self.tool: ... else: ...] *)
Definition select_parser (doc_type document_path : string) : M parser_method :=
  match tool self with
  | Some t =>
      if truthy t then lift (_get_parser_method t)
      else _auto_select_parser doc_type document_path
  | None => _auto_select_parser doc_type document_path
  end.

(** The last step of [parse]: the three [file_*] keys. *)
Definition add_file_metadata (document_path doc_type : string)
           (results : Document) : Document :=
  {| tool_used := tool_used results;
     content := content results;
     pages := pages results;
     images := images results;
     metadata := metadata results;
     pdf_analysis := pdf_analysis results;
     errors := errors results;
     file_name := Some (PyPath.name document_path);
     file_type := Some doc_type;
     file_size := Some (getsize w document_path) |}.

(** [parse] *)
Definition parse (document_path : string) : M Document :=
  document_path <- locate document_path ;;
  let file_ext := lstrip_char "." (lower (PyPath.suffix document_path)) in
  let doc_type := _get_document_type file_ext in
  parser_method <- select_parser doc_type document_path ;;
  emit (Info ("Parsing " ++ document_path ++ " using "
              ++ method_name parser_method)) ;;
  results <- invoke parser_method document_path ;;
  ret (add_file_metadata document_path doc_type results).

End WithSelf.
End Methods.

End Parsers.

(* ====================================================================== *)
(** ** Notions used to state the properties *)
(* ====================================================================== *)

Module Notions.
Import PyStr Model.

(** The windows [(start, end)] the loop of [chunk_text] goes through, in
    order; each chunk is the window's slice, trimmed. *)
Fixpoint chunk_windows (fuel : nat) (text : string) (max_chars overlap : Z)
         (start : Z) : option (list (Z * Z)) :=
  match fuel with
  | O => None
  | S fuel' =>
      if start <? len text then
        let end_ := fst (App.chunk_body text max_chars start) in
        if end_ =? len text then Some [(start, end_)]
        else option_map (cons (start, end_))
               (chunk_windows fuel' text max_chars overlap
                              (Z.max 0 (end_ - overlap)))
      else Some []
  end.

(** The trimmed slice of a window. *)
Definition window_chunk (text : string) (win : Z * Z) : string :=
  strip (slice text (fst win) (snd win)).

(** The windows laid end to end: each window's slice without the
    characters before [prev], the end of its predecessor. *)
Fixpoint stitch (text : string) (prev : Z) (wins : list (Z * Z)) : string :=
  match wins with
  | [] => ""
  | (a, b) :: rest =>
      drop (Z.to_nat (prev - a)) (slice text a b) ++ stitch text b rest
  end.

(** Each window starts [overlap] characters before the end [prev] of its
    predecessor and ends after it. *)
Fixpoint chained (overlap prev : Z) (wins : list (Z * Z)) : Prop :=
  match wins with
  | [] => True
  | (a, b) :: rest => a = prev - overlap /\ prev < b /\ chained overlap b rest
  end.

(** The chunks put back together after [ks] characters are removed from
    the front of each: [ks] lists how many for the first, second, ...
    chunk (none when the list is too short). *)
Fixpoint reassemble (ks : list nat) (chunks : list string) : string :=
  match chunks with
  | [] => ""
  | c :: rest =>
      match ks with
      | [] => c ++ reassemble [] rest
      | k :: ks' => drop k c ++ reassemble ks' rest
      end
  end.

(** [n] copies of a string. *)
Fixpoint times (n : nat) (s : string) : string :=
  match n with
  | O => ""
  | S n' => s ++ times n' s
  end.

(** The block a page contributes to [content] under a heading word. *)
Definition rendered (heading : string) (p : Page) : string :=
  Parsers.page_block heading (page_number p) (page_content p).

(** Pages numbered [i], [i + 1], ... in order. *)
Fixpoint numbered_from (i : Z) (ps : list Page) : Prop :=
  match ps with
  | [] => True
  | p :: rest => page_number p = i /\ numbered_from (i + 1) rest
  end.

(** A document laid out page by page under a heading word. *)
Definition paged (heading : string) (d : Document) : Prop :=
  numbered_from 1 (pages d)
  /\ content d = join nl (map (rendered heading) (pages d)).

(** The second part of a chunk id: the page number, or ["doc"]. *)
Definition page_or_doc (page : option Z) : string :=
  match page with Some n => str_int n | None => "doc" end.

(** The document type [parse] derives from a path. *)
Definition doc_type_of (path : string) : string :=
  Parsers._get_document_type (lstrip_char "." (lower (PyPath.suffix path))).

(** What [parse] makes of the outcome of the engine it called on [path]:
    a document gets the three [file_*] keys, an exception goes on. *)
Definition completed (w : Env.World) (path : string)
           (r : Py.result Document * list Py.event)
  : Py.result Document * list Py.event :=
  match r with
  | (Py.Ok d, l) =>
      (Py.Ok (Parsers.add_file_metadata w path (doc_type_of path) d), l)
  | (Py.Raise e, l) => (Py.Raise e, l)
  end.

(** How many strings of a list satisfy a test. *)
Definition count_if (f : string -> bool) (l : list string) : Z :=
  Z.of_nat (List.length (filter f l)).

(** A page text that counts as without text in the quick detection: fewer
    than 50 characters once trimmed. *)
Definition textless (raw : string) : bool := len (strip raw) <? 50.

(** The four values a chunk id is made from. *)
Definition chunk_key (c : App.Chunk) : string * option Z * Z * string :=
  let m := App.chunk_metadata c in
  (App.chunk_file_name m, App.chunk_page m, App.chunk_index m,
   take 40 (App.chunk_text_ c)).

(** The first 16 hexadecimal digits of the SHA-1 of the four values joined
    by a vertical bar. *)
Definition id_of_key (k : string * option Z * Z * string) : string :=
  let '(file_name, page, index, head) := k in
  take 16 (Sha1.hexdigest
             (Sha1.utf8 (join "|" [file_name; page_or_doc page;
                                   str_int index; head]))).

(** A string that does not begin with white space. *)
Definition clean_head (s : string) : Prop :=
  match s with
  | EmptyString => True
  | String c _ => is_space c = false
  end.

(** What a loop body that appends a page and its block guarantees. *)
Definition page_and_block (heading : string) (i : Z) (y : Page * string) : Prop :=
  page_number (fst y) = i + 1 /\ snd y = rendered heading (fst y).

(** A document whose only page holds the whole content, with no heading. *)
Definition single_page (d : Document) : Prop :=
  exists p, pages d = [p] /\ page_number p = 1 /\ page_content p = content d.

(** A property of the [i]-th, [i+1]-th, ... results of a loop. *)
Fixpoint indexed {B : Type} (P : Z -> B -> Prop) (i : Z) (ys : list B) : Prop :=
  match ys with
  | [] => True
  | y :: rest => P i y /\ indexed P (i + 1) rest
  end.

(** What holds of every entry [build_rag_json] writes for the file
    [file_name]. *)
Definition well_keyed (file_name : string) (c : App.Chunk) : Prop :=
  App.chunk_id c = id_of_key (chunk_key c)
  /\ App.chunk_file_name (App.chunk_metadata c) = file_name.

(** The loop of [_analyze_pdf] on pages already read: trimmed text and
    images of each. *)
Fixpoint classify_all (i : Z) (reads : list (string * list Z))
         (acc : Parsers.PageLists) : Parsers.PageLists :=
  match reads with
  | [] => acc
  | r :: rest =>
      classify_all (i + 1) rest
                   (Parsers.classify_page (strip (fst r)) (snd r) i acc)
  end.

(** A page that one of the three lists takes: more than 50 characters of
    trimmed text, or an image. *)
Definition listed (r : string * list Z) : bool :=
  (50 <? len (strip (fst r))) || (0 <? Z.of_nat (List.length (snd r))).

(** The 1-based numbers of the listed pages, the first page read having
    index [i]. *)
Fixpoint listed_numbers (i : Z) (reads : list (string * list Z)) : list Z :=
  match reads with
  | [] => []
  | r :: rest =>
      if listed r then (i + 1) :: listed_numbers (i + 1) rest
      else listed_numbers (i + 1) rest
  end.

(** The three lists, one after the other. *)
Definition all_lists (acc : Parsers.PageLists) : list Z :=
  let '(scanned, hybrid, digital) := acc in
  (scanned ++ hybrid ++ digital)%list.

End Notions.

(* ====================================================================== *)
(** ** Sample worlds and documents *)
(* ====================================================================== *)

Module Samples.
Import PyStr Py Model Env Parsers.

Definition unavailable {A : Type} : result A := Raise (OtherError "unavailable").

(** No imaging library. *)
Definition no_imaging : Imaging :=
  {| pil_available := false;
     extract_image := fun _ => unavailable;
     image_open := fun _ => unavailable;
     convert := fun _ _ => unavailable |}.

Definition fitz_page (text : string) (images : list Z) : FitzPage :=
  {| get_text := Ok text;
     get_images := Ok images;
     get_blocks := Ok [];
     rect_width := MInt 612;
     rect_height := MInt 792 |}.

(** A machine on which every file exists, fitz opens any path as [doc],
    pdfplumber sees [plumbed], python-pptx sees [slides], any file reads as
    [text], and no other library is installed. *)
Definition world_with (doc : list FitzPage) (plumbed : list PlumberPage)
           (slides : list Slide) (text : string) : World :=
  {| path_exists := fun _ => true;
     getsize := fun _ => 1024;
     http_get := fun _ => unavailable;
     write_temp := fun _ _ => unavailable;
     has_module := fun m => str_in m ["fitz"; "pdfplumber"; "pptx"];
     fitz_open := fun _ => Ok doc;
     imaging := no_imaging;
     to_markdown := fun _ => unavailable;
     pdfplumber_open := fun _ => Ok plumbed;
     convert_from_path := fun _ => unavailable;
     image_to_string := fun _ _ => unavailable;
     easyocr_reader := fun _ => unavailable;
     readtext := fun _ _ => unavailable;
     docling_convert := fun _ => unavailable;
     partition := fun _ => unavailable;
     docx_document := fun _ => unavailable;
     pptx_presentation := fun _ => Ok slides;
     load_workbook := fun _ => unavailable;
     read_text := fun _ => Ok text |}.

(** A one-page PDF whose page has no text and no image. *)
Definition blank_pdf : World := world_with [fitz_page "" []] [] [] "".

(** A two-page PDF of short texts, the second page with one image. *)
Definition short_pdf : World :=
  world_with [fitz_page "hello" []; fitz_page "world" [7]] [] [] "".

(** A table whose header row has an empty first cell. *)
Definition gap_table : Table := [[None; Some "Name"]; [Some "1"; None]].

(** A one-page PDF on which pdfplumber finds [gap_table]. *)
Definition table_pdf : World :=
  world_with [fitz_page "Totals" []]
             [ {| extract_text := Ok (Some "Totals");
                  extract_tables := Ok [gap_table];
                  plumber_width := MInt 612;
                  plumber_height := MInt 792 |} ]
             [] "".

(** A deck of one slide with one text shape, and a text file. *)
Definition deck : World := world_with [] [] [[Some "Hi"]] "Hi".

Definition parser_with (t : option string) (detect : bool) : DocumentParser :=
  {| tool := t; detect_scanned := detect; extract_images := false;
     ocr_lang := "eng" |}.

(** An engine result of two pages, as [parse] completes it. *)
Definition two_pages : Document :=
  {| tool_used := "PyMuPDF";
     content := "";
     pages := [ {| page_number := 1; page_content := "first page";
                   bboxes := None; page_metadata := None |};
                {| page_number := 2; page_content := "second page";
                   bboxes := None; page_metadata := None |} ];
     images := [];
     metadata := [];
     pdf_analysis := None;
     errors := None;
     file_name := Some "report.pdf";
     file_type := Some "pdf";
     file_size := Some 1024 |}.


(** 780 letters, 100 Notions.times a space and a newline, 500 letters. *)
Definition spaced_text : string :=
  Notions.times 780 "a" ++ Notions.times 100 (" " ++ nl) ++ Notions.times 500 "b".

End Samples.

(* ====================================================================== *)
(** ** Notions used to state further properties *)
(* ====================================================================== *)

Module TextNotions.
Import PyStr.

(** Every character of a string passes a test. *)
Fixpoint str_all (P : ascii -> bool) (s : string) : bool :=
  match s with
  | EmptyString => true
  | String c s' => P c && str_all P s'
  end.

(** After [run] characters of a class, the string [s] never brings a run
    of that class to [k] characters. *)
Fixpoint runs_below (cls : ascii -> bool) (k run : nat) (s : string) : Prop :=
  match s with
  | EmptyString => (run < k)%nat
  | String c s' =>
      if cls c then runs_below cls k (S run) s'
      else (run < k)%nat /\ runs_below cls k 0 s'
  end.

(** A string that is empty or starts outside the class, with runs below
    [k] after that. *)
Definition fresh_start (cls : ascii -> bool) (k : nat) (s : string) : Prop :=
  match s with
  | EmptyString => True
  | String c s' => cls c = false /\ runs_below cls k 0 s'
  end.

Definition not_cr (c : ascii) : bool := negb (Ascii.eqb c CR).

(** A decimal digit or a letter from a to f. *)
Definition is_hex_lower (c : ascii) : bool :=
  let n := N_of_ascii c in
  (((48 <=? n) && (n <=? 57)) || ((97 <=? n) && (n <=? 102)))%N.

(** What a chunk of the export says of its place: page, index, text. *)
Definition chunk_view (c : App.Chunk) : option Z * Z * string :=
  (App.chunk_page (App.chunk_metadata c), App.chunk_index (App.chunk_metadata c),
   App.chunk_text_ c).

(** The places of the chunks [chs] of one source, numbered from 0. *)
Definition views_of (page : option Z) (chs : list string)
  : list (option Z * Z * string) :=
  map (fun ic : Z * string => (page, fst ic, snd ic)) (App.enumerate_from 0 chs).

(** The places of the chunks of the pages [ps], whose chunk lists are
    [per_page], page after page. *)
Fixpoint pages_views (ps : list Model.Page) (per_page : list (list string))
  : list (option Z * Z * string) :=
  match ps, per_page with
  | p :: ps', chs :: rest =>
      (views_of (Some (Model.page_number p)) chs ++ pages_views ps' rest)%list
  | _, _ => []
  end.

End TextNotions.

Module ParserNotions.
Import PyStr Py Model Env Parsers.

(** A path [parse] downloads first. *)
Definition is_url (path : string) : bool :=
  startswith path "http://" || startswith path "https://".

(** The suffix [_download_from_url] gives the temporary file. *)
Definition temp_suffix (url : string) : string :=
  if truthy (PyPath.suffix url) then PyPath.suffix url else ".pdf".

(** The document types [SUPPORTED_EXTENSIONS] names. *)
Definition known_types : list string :=
  ["pdf"; "word"; "powerpoint"; "excel"; "text"].

(** The [tool_used] each method writes when it does the work itself. *)
Definition own_tool_name (m : parser_method) : string :=
  match m with
  | M_pymupdf => "PyMuPDF"
  | M_pymupdf4llm => "PyMuPDF4LLM"
  | M_docling => "Docling"
  | M_unstructured => "Unstructured"
  | M_pdfplumber => "pdfplumber"
  | M_word => "python-docx"
  | M_powerpoint => "python-pptx"
  | M_excel => "openpyxl"
  | M_tesseract => "Tesseract OCR"
  | M_easyocr => "EasyOCR"
  | M_text => "Built-in"
  end.

(** The methods that hand over to [_parse_with_pymupdf]. *)
Definition falls_back (m : parser_method) : bool :=
  match m with
  | M_pymupdf4llm | M_docling | M_unstructured | M_pdfplumber => true
  | _ => false
  end.

(** The three kinds of a page read as (text, images). *)
Definition with_text (r : string * list Z) : bool := 50 <? len (strip (fst r)).
Definition with_images (r : string * list Z) : bool :=
  0 <? Z.of_nat (List.length (snd r)).
Definition scanned_kind (r : string * list Z) : bool :=
  negb (with_text r) && with_images r.
Definition hybrid_kind (r : string * list Z) : bool := with_text r && with_images r.
Definition digital_kind (r : string * list Z) : bool :=
  with_text r && negb (with_images r).

(** The 1-based numbers of the pages of a kind, the first page read having
    index [i]. *)
Fixpoint numbers_where (kind : string * list Z -> bool) (i : Z)
         (reads : list (string * list Z)) : list Z :=
  match reads with
  | [] => []
  | r :: rest =>
      if kind r then (i + 1) :: numbers_where kind (i + 1) rest
      else numbers_where kind (i + 1) rest
  end.

(** The pages of a list carry the numbers [i], [i + 1], ... *)
Definition page_numbered (i : Z) (p : Page) : Prop := page_number p = i + 1.

(** The eleven parser methods. *)
Definition all_methods : list parser_method :=
  [M_pymupdf; M_pymupdf4llm; M_docling; M_unstructured; M_pdfplumber;
   M_word; M_powerpoint; M_excel; M_tesseract; M_easyocr; M_text].

(** What the document of a method looks like: written under the method's
    own name, or under PyMuPDF's by a method that hands over to it, with
    pages numbered from 1. *)
Definition shaped (m : parser_method) (d : Document) : Prop :=
  (tool_used d = own_tool_name m
   \/ (falls_back m = true /\ tool_used d = "PyMuPDF"))
  /\ Notions.numbered_from 1 (pages d).

End ParserNotions.

Module MoreSamples.
Import PyStr Py Model Env Parsers.

(** A machine with no file, no network and no library. *)
Definition nowhere : World :=
  {| path_exists := fun _ => false;
     getsize := fun _ => 0;
     http_get := fun _ => Raise (OtherError "connection refused");
     write_temp := fun _ _ => Samples.unavailable;
     has_module := fun _ => false;
     fitz_open := fun _ => Samples.unavailable;
     imaging := Samples.no_imaging;
     to_markdown := fun _ => Samples.unavailable;
     pdfplumber_open := fun _ => Samples.unavailable;
     convert_from_path := fun _ => Samples.unavailable;
     image_to_string := fun _ _ => Samples.unavailable;
     easyocr_reader := fun _ => Samples.unavailable;
     readtext := fun _ _ => Samples.unavailable;
     docling_convert := fun _ => Samples.unavailable;
     partition := fun _ => Samples.unavailable;
     docx_document := fun _ => Samples.unavailable;
     pptx_presentation := fun _ => Samples.unavailable;
     load_workbook := fun _ => Samples.unavailable;
     read_text := fun _ => Samples.unavailable |}.

(** A machine with fitz and docling, on which docling reports that the
    conversion failed. *)
Definition failing_docling : World :=
  {| path_exists := fun _ => true;
     getsize := fun _ => 1024;
     http_get := fun _ => Samples.unavailable;
     write_temp := fun _ _ => Samples.unavailable;
     has_module := fun m => str_in m ["fitz"; "docling"];
     fitz_open := fun _ => Ok [Samples.fitz_page "hello" []];
     imaging := Samples.no_imaging;
     to_markdown := fun _ => Samples.unavailable;
     pdfplumber_open := fun _ => Samples.unavailable;
     convert_from_path := fun _ => Samples.unavailable;
     image_to_string := fun _ _ => Samples.unavailable;
     easyocr_reader := fun _ => Samples.unavailable;
     readtext := fun _ _ => Samples.unavailable;
     docling_convert :=
       fun _ => Ok {| dl_status := Some "ConversionStatus.FAILURE";
                      dl_errors := ["bad xref table"];
                      dl_document :=
                        {| export_to_markdown := Samples.unavailable;
                           num_pages := Samples.unavailable;
                           export_page_markdown := fun _ => Samples.unavailable;
                           export_to_text := Samples.unavailable |} |};
     partition := fun _ => Samples.unavailable;
     docx_document := fun _ => Samples.unavailable;
     pptx_presentation := fun _ => Samples.unavailable;
     load_workbook := fun _ => Samples.unavailable;
     read_text := fun _ => Samples.unavailable |}.

(** A machine with fitz and docling, on which the conversion by docling
    raises and fitz makes [opened] of any path. *)
Definition crashing_docling (opened : result (list FitzPage)) : World :=
  {| path_exists := fun _ => true;
     getsize := fun _ => 1024;
     http_get := fun _ => Samples.unavailable;
     write_temp := fun _ _ => Samples.unavailable;
     has_module := fun m => str_in m ["fitz"; "docling"];
     fitz_open := fun _ => opened;
     imaging := Samples.no_imaging;
     to_markdown := fun _ => Samples.unavailable;
     pdfplumber_open := fun _ => Samples.unavailable;
     convert_from_path := fun _ => Samples.unavailable;
     image_to_string := fun _ _ => Samples.unavailable;
     easyocr_reader := fun _ => Samples.unavailable;
     readtext := fun _ _ => Samples.unavailable;
     docling_convert := fun _ => Raise (OtherError "tensor padding error");
     partition := fun _ => Samples.unavailable;
     docx_document := fun _ => Samples.unavailable;
     pptx_presentation := fun _ => Samples.unavailable;
     load_workbook := fun _ => Samples.unavailable;
     read_text := fun _ => Samples.unavailable |}.

End MoreSamples.

(* ====================================================================== *)
(** ** Notions and samples for the extraction of images *)
(* ====================================================================== *)

Module ImageNotions.
Import PyStr Py Model Env Images.




End ImageNotions.

(* ====================================================================== *)
(** ** visualizer.py: the grid of page images *)
(* ====================================================================== *)

Module Visualizer.
Import PyStr Py Model Env.
Local Open Scope py_scope.

(** An image pasted into the grid: where, and how large it is. *)
Record Pasted : Type := mkPasted {
  at_x : Z;
  at_y : Z;
  img_width : Z;
  img_height : Z
}.

(** The grid image: its size and what was pasted into it, in order. *)
Record Grid : Type := mkGrid {
  grid_width : Z;
  grid_height : Z;
  pasted : list Pasted
}.

(** [max(xs)] of a non-empty sequence whose first element is [x]. *)
Fixpoint max_of (x : Z) (xs : list Z) : Z :=
  match xs with
  | [] => x
  | y :: rest => max_of (Z.max x y) rest
  end.

(** [Image.new('RGB', (width, height), 'white')], which refuses a negative
    size. *)
Definition image_new (width height : Z) : result unit :=
  if (width <? 0) || (height <? 0)
  then Raise (ValueError "Width and height must be >= 0")
  else Ok tt.

(** [bboxes_per_page.get(page_num, [])] *)
Fixpoint boxes_of (bboxes_per_page : list (Z * list BBox)) (page_num : Z)
  : list BBox :=
  match bboxes_per_page with
  | [] => []
  | (k, boxes) :: rest =>
      if k =? page_num then boxes else boxes_of rest page_num
  end.

Section Grid.
Variable w : World.

(** What [draw_bboxes] does between [page = doc[page_num]] and
    [doc.close()]: the page is rendered, the boxes are drawn on an overlay
    and the two are composed; the size of the image that comes out. *)
Variable render : string -> Z -> list BBox -> result (Z * Z).

(** [draw_bboxes(pdf_path, page_num, bboxes)], an image being known by its
    size.  It returns [None] in two ways, and logs an error in both. *)
Definition draw_bboxes (pdf_path : string) (page_num : Z) (bboxes : list BBox)
  : M (option (Z * Z)) :=
  try_except
    (Parsers.import_ w "fitz" ;;
     doc <- lift (fitz_open w pdf_path) ;;
     if Z.of_nat (List.length doc) <=? page_num then
       emit (Error ("Page " ++ str_int page_num ++ " out of range")) ;;
       ret None
     else
       img <- lift (render pdf_path page_num bboxes) ;;
       ret (Some img))
    (fun e =>
       emit (Error ("Error drawing bounding boxes: " ++ exn_str e)) ;;
       ret None).

(** The first loop, [images] being the list it appends to. *)
Fixpoint drawn_images (pdf_path : string)
         (bboxes_per_page : list (Z * list BBox)) (pages : list Z)
         (images : list (Z * Z)) : M (list (Z * Z)) :=
  match pages with
  | [] => ret images
  | page_num :: rest =>
      img <- draw_bboxes pdf_path page_num (boxes_of bboxes_per_page page_num) ;;
      drawn_images pdf_path bboxes_per_page rest
        (match img with
         | Some img => (images ++ [img])%list
         | None => images
         end)
  end.

(** The last loop: image [idx] goes to column [idx % cols] of row
    [idx // cols]. *)
Fixpoint paste_all (cols max_width max_height idx : Z) (images : list (Z * Z))
  : list Pasted :=
  match images with
  | [] => []
  | img :: rest =>
      let row := idx / cols in
      let col := idx mod cols in
      {| at_x := col * max_width; at_y := row * max_height;
         img_width := fst img; img_height := snd img |}
        :: paste_all cols max_width max_height (idx + 1) rest
  end.

(** The [try] block after its first loop, from [if not images] to
    [return grid]. *)
Definition lay_out (images : list (Z * Z)) (cols : Z) : result (option Grid) :=
  match images with
  | [] => Ok None
  | first :: others =>
      if cols =? 0
      then Raise (ZeroDivisionError "integer division or modulo by zero")
      else
        let rows := (Z.of_nat (List.length images) + cols - 1) / cols in
        let max_width := max_of (fst first) (map fst others) in
        let max_height := max_of (snd first) (map snd others) in
        let grid_width := max_width * cols in
        let grid_height := max_height * rows in
        match image_new grid_width grid_height with
        | Raise e => Raise e
        | Ok _ =>
            Ok (Some {| grid_width := grid_width;
                        grid_height := grid_height;
                        pasted := paste_all cols max_width max_height 0 images |})
        end
  end.

(** [create_visualization_grid(pdf_path, pages, bboxes_per_page, cols=2)] *)
Definition create_visualization_grid (pdf_path : string) (pages : list Z)
           (bboxes_per_page : list (Z * list BBox)) (cols : Z)
  : M (option Grid) :=
  try_except
    (images <- drawn_images pdf_path bboxes_per_page pages [] ;;
     lift (lay_out images cols))
    (fun e =>
       emit (Error ("Error creating visualization grid: " ++ exn_str e)) ;;
       ret None).

End Grid.

(** Inside the grid. *)
Definition inside (g : Grid) (p : Pasted) : Prop :=
  0 <= at_x p /\ at_x p + img_width p <= grid_width g
  /\ 0 <= at_y p /\ at_y p + img_height p <= grid_height g.

(** Two pasted images that share no pixel. *)
Definition apart (p q : Pasted) : Prop :=
  at_x p + img_width p <= at_x q \/ at_x q + img_width q <= at_x p
  \/ at_y p + img_height p <= at_y q \/ at_y q + img_height q <= at_y p.

(** An error record of the log. *)
Definition is_error (e : event) : Prop := exists msg, e = Error msg.

(** A PDF of three pages. *)
Definition sample_world : World :=
  Samples.world_with
    [Samples.fitz_page "a" []; Samples.fitz_page "b" []; Samples.fitz_page "c" []]
    [] [] "".

(** Page 0 draws as 600 by 800 and page 2 as 500 by 900; page 1 cannot be
    rendered. *)
Definition sample_render (pdf_path : string) (page_num : Z) (bboxes : list BBox)
  : result (Z * Z) :=
  if page_num =? 0 then Ok (600, 800)
  else if page_num =? 2 then Ok (500, 900)
  else Raise (OtherError "cannot render page").

End Visualizer.

(* ====================================================================== *)
(** ** Facts about the string primitives *)
(* ====================================================================== *)

Module PyStrFacts.
Import PyStr Notions.

Lemma length_append (a b : string) :
  String.length (a ++ b) = (String.length a + String.length b)%nat.
Proof. induction a as [|c a IH]; simpl; [reflexivity | now rewrite IH]. Qed.

Lemma append_empty_r (a : string) : a ++ "" = a.
Proof. induction a as [|c a IH]; simpl; [reflexivity | now rewrite IH]. Qed.

Lemma append_assoc (a b c : string) : (a ++ b) ++ c = a ++ (b ++ c).
Proof. induction a as [|x a IH]; simpl; [reflexivity | now rewrite IH]. Qed.

Lemma length_take (n : nat) (s : string) :
  String.length (take n s) = Nat.min n (String.length s).
Proof.
  revert s; induction n as [|n IH]; intros [|c s]; simpl; try reflexivity.
  now rewrite IH.
Qed.

Lemma length_drop (n : nat) (s : string) :
  String.length (drop n s) = (String.length s - n)%nat.
Proof.
  revert s; induction n as [|n IH]; intros [|c s]; simpl; try reflexivity.
  apply IH.
Qed.

Lemma take_all (n : nat) (s : string) :
  (String.length s <= n)%nat -> take n s = s.
Proof.
  revert s; induction n as [|n IH]; intros [|c s] H; simpl in *;
    try reflexivity; try lia.
  f_equal; apply IH; lia.
Qed.

Lemma drop_all (n : nat) (s : string) :
  (String.length s <= n)%nat -> drop n s = "".
Proof.
  revert s; induction n as [|n IH]; intros [|c s] H; simpl in *;
    try reflexivity; try lia.
  apply IH; lia.
Qed.

Lemma take_drop (n : nat) (s : string) : take n s ++ drop n s = s.
Proof.
  revert s; induction n as [|n IH]; intros [|c s]; simpl; try reflexivity.
  now rewrite IH.
Qed.

Lemma drop_drop (a b : nat) (s : string) : drop a (drop b s) = drop (b + a) s.
Proof.
  revert s; induction b as [|b IH]; intros s; simpl; [reflexivity|].
  destruct s as [|c s]; [now destruct a | apply IH].
Qed.

Lemma drop_take (k m : nat) (s : string) :
  drop k (take m s) = take (m - k) (drop k s).
Proof.
  revert m s; induction k as [|k IH]; intros m s; simpl.
  - now rewrite Nat.sub_0_r.
  - destruct m as [|m]; destruct s as [|c s]; simpl; try reflexivity.
    + now destruct (m - k)%nat.
    + apply IH.
Qed.

Lemma take_take_drop (a b : nat) (s : string) :
  take a s ++ take b (drop a s) = take (a + b) s.
Proof.
  revert s; induction a as [|a IH]; intros s; simpl; [reflexivity|].
  destruct s as [|c s]; simpl.
  - now destruct b.
  - now rewrite IH.
Qed.


(** A slice whose bounds lie in the text, in order. *)
Lemma slice_inside (s : string) (a b : Z) :
  0 <= a <= b -> b <= len s ->
  slice s a b = take (Z.to_nat (b - a)) (drop (Z.to_nat a) s).
Proof.
  intros Hab Hb. unfold slice, slice_bound.
  destruct (a <? 0) eqn:Ha; [apply Z.ltb_lt in Ha; lia|].
  destruct (b <? 0) eqn:Hb0; [apply Z.ltb_lt in Hb0; lia|].
  rewrite (Z.min_r (len s) a), (Z.min_r (len s) b) by lia.
  rewrite !Z.max_r by lia. reflexivity.
Qed.

Lemma len_slice (s : string) (a b : Z) :
  0 <= a <= b -> b <= len s -> len (slice s a b) = b - a.
Proof.
  intros Hab Hb. rewrite slice_inside by assumption.
  unfold len in *. rewrite length_take, length_drop. lia.
Qed.


Lemma slice_to_end (s : string) (a : Z) :
  0 <= a <= len s -> slice s a (len s) = drop (Z.to_nat a) s.
Proof.
  intros Ha. rewrite slice_inside by lia.
  apply take_all. rewrite length_drop. unfold len in *. lia.
Qed.

(** Dropping the part of a slice that lies before [p]. *)
Lemma drop_slice (s : string) (a p b : Z) :
  0 <= a <= p -> p <= b -> b <= len s ->
  drop (Z.to_nat (p - a)) (slice s a b) = slice s p b.
Proof.
  intros Hap Hpb Hb. rewrite !slice_inside by lia.
  rewrite drop_take, drop_drop. f_equal; [lia | f_equal; lia].
Qed.

Lemma take_then_slice (s : string) (p b : Z) :
  0 <= p <= b -> b <= len s ->
  take (Z.to_nat p) s ++ slice s p b = take (Z.to_nat b) s.
Proof.
  intros Hp Hb. rewrite slice_inside by lia.
  rewrite take_take_drop. f_equal. lia.
Qed.

(** [rfind] never points past the end of the string. *)
Lemma rfind_from_le (sub s : string) (i : Z) :
  0 <= i -> rfind_from sub s i <= i + len s.
Proof.
  revert i; induction s as [|c s IH]; intros i Hi; cbn [rfind_from].
  - unfold len; cbn [String.length].
    destruct (String.prefix sub ""); lia.
  - specialize (IH (i + 1) ltac:(lia)). unfold len in *. cbn [String.length].
    destruct (0 <=? rfind_from sub s (i + 1)); [lia|].
    destruct (String.prefix sub (String c s)); lia.
Qed.

Lemma rfind_le (s sub : string) : rfind s sub <= len s.
Proof. unfold rfind. pose proof (rfind_from_le sub s 0). lia. Qed.

(** *** Trimming *)

Lemma lstrip_clean_head (s : string) : clean_head (lstrip s).
Proof.
  induction s as [|c s IH]; simpl; [exact I|].
  destruct (is_space c) eqn:E; [exact IH | exact E].
Qed.

Lemma lstrip_fixed (s : string) : clean_head s -> lstrip s = s.
Proof. destruct s as [|c s]; simpl; intros H; [reflexivity | now rewrite H]. Qed.

Lemma rstrip_clean_head (s : string) : clean_head s -> clean_head (rstrip s).
Proof.
  destruct s as [|c s]; simpl; intros H; [exact I|].
  destruct (rstrip s); [rewrite H|]; exact H.
Qed.

Lemma rstrip_idempotent (s : string) : rstrip (rstrip s) = rstrip s.
Proof.
  induction s as [|c s IH]; simpl; [reflexivity|].
  destruct (rstrip s) as [|d r] eqn:E.
  - destruct (is_space c) eqn:Ec; simpl; [reflexivity | now rewrite Ec].
  - change (rstrip (String c (String d r))) with
      (match rstrip (String d r) with
       | EmptyString => if is_space c then EmptyString else String c EmptyString
       | r' => String c r'
       end).
    now rewrite IH.
Qed.

Lemma strip_idempotent (s : string) : strip (strip s) = strip s.
Proof.
  unfold strip.
  rewrite (lstrip_fixed (rstrip (lstrip s)))
    by (apply rstrip_clean_head, lstrip_clean_head).
  apply rstrip_idempotent.
Qed.

Lemma length_lstrip (s : string) : (String.length (lstrip s) <= String.length s)%nat.
Proof.
  induction s as [|c s IH]; simpl; [lia|].
  destruct (is_space c); simpl; lia.
Qed.

Lemma length_rstrip (s : string) : (String.length (rstrip s) <= String.length s)%nat.
Proof.
  induction s as [|c s IH]; simpl; [lia|].
  destruct (rstrip s); [destruct (is_space c)|]; simpl in *; lia.
Qed.

Lemma length_strip (s : string) : (String.length (strip s) <= String.length s)%nat.
Proof.
  unfold strip. pose proof (length_rstrip (lstrip s)).
  pose proof (length_lstrip s). lia.
Qed.

(** *** Substitutions *)





Lemma truthy_false (s : string) : truthy s = false <-> s = "".
Proof. destruct s; simpl; split; congruence. Qed.

Lemma truthy_true (s : string) : truthy s = true <-> s <> "".
Proof. destruct s; simpl; split; congruence. Qed.

End PyStrFacts.

(* ====================================================================== *)
(** ** The chunker *)
(* ====================================================================== *)

Module ChunkerProps.
Import PyStr PyStrFacts App Notions.



(** The chunk of a pass is the slice up to the end the pass settles on. *)
Lemma chunk_body_slice (t : string) (mc start : Z) :
  snd (chunk_body t mc start) = slice t start (fst (chunk_body t mc start)).
Proof.
  unfold chunk_body.
  destruct (Z.min (len t) (start + mc) <? len t); [|reflexivity].
  destruct (mc <? 2 * rfind (slice t start (Z.min (len t) (start + mc))) nlnl);
    reflexivity.
Qed.

(** Where a pass ends: past its start, inside the text, and, unless it
    reaches the end of the text, more than half of [max_chars] further. *)
Lemma chunk_body_end (t : string) (mc start : Z) :
  0 <= start < len t -> 0 < mc ->
  start < fst (chunk_body t mc start) <= len t
  /\ (fst (chunk_body t mc start) = len t
      \/ mc < 2 * (fst (chunk_body t mc start) - start)).
Proof.
  intros Hs Hmc. unfold chunk_body.
  destruct (Z.min (len t) (start + mc) <? len t) eqn:E.
  - apply Z.ltb_lt in E.
    assert (Hend : Z.min (len t) (start + mc) = start + mc) by lia.
    rewrite Hend in *.
    pose proof (rfind_le (slice t start (start + mc)) nlnl) as Hcut.
    rewrite len_slice in Hcut by lia.
    destruct (mc <? 2 * rfind (slice t start (start + mc)) nlnl) eqn:C;
      cbn [fst].
    + apply Z.ltb_lt in C. lia.
    + lia.
  - apply Z.ltb_ge in E. cbn [fst]. lia.
Qed.

(** The loop and its list of windows go together. *)
Lemma chunk_loop_windows (t : string) (mc ov : Z) (fuel : nat) :
  forall start acc,
    chunk_loop fuel t mc ov start acc
    = option_map (fun wins => (acc ++ map (window_chunk t) wins)%list)
                 (chunk_windows fuel t mc ov start).
Proof.
  induction fuel as [|fuel IH]; intros start acc; [reflexivity|].
  cbn [chunk_loop chunk_windows].
  destruct (start <? len t); [|cbn; now rewrite app_nil_r].
  pose proof (chunk_body_slice t mc start) as Hs.
  destruct (chunk_body t mc start) as [e c]. cbn [fst snd] in *. subst c.
  destruct (e =? len t); [reflexivity|].
  rewrite IH.
  destruct (chunk_windows fuel t mc ov (Z.max 0 (e - ov))) as [wins|];
    [|reflexivity].
  cbn. now rewrite <- app_assoc.
Qed.

(** With [0 <= overlap < max_chars / 2] the loop, entered at [start] when
    the text is covered up to [prev], finishes within [len t - prev] passes
    and its windows cover the rest of the text. *)
Lemma windows_cover (t : string) (mc ov : Z) :
  0 <= ov -> 2 * ov < mc ->
  forall (fuel : nat) (start prev : Z),
    0 <= start <= prev -> prev - start <= ov -> prev < len t ->
    len t - prev < Z.of_nat fuel + 1 ->
    exists e rest,
      chunk_windows fuel t mc ov start = Some ((start, e) :: rest)
      /\ prev < e
      /\ chained ov e rest
      /\ take (Z.to_nat prev) t ++ stitch t prev ((start, e) :: rest) = t.
Proof.
  intros Hov Hmc.
  induction fuel as [|fuel IH]; intros start prev Hsp Hgap Hprev Hfuel; [lia|].
  cbn [chunk_windows].
  assert (Hlt : (start <? len t) = true) by (apply Z.ltb_lt; lia).
  rewrite Hlt.
  destruct (chunk_body_end t mc start ltac:(lia) ltac:(lia)) as [[He1 He2] He3].
  set (e := fst (chunk_body t mc start)) in *.
  assert (Hpe : prev < e) by (destruct He3; lia).
  destruct (e =? len t) eqn:En.
  - apply Z.eqb_eq in En. exists e, []. repeat split; try assumption.
    cbn [stitch]. rewrite append_empty_r, drop_slice by lia.
    rewrite En, slice_to_end by lia. apply take_drop.
  - apply Z.eqb_neq in En.
    assert (Hhalf : mc < 2 * (e - start)) by (destruct He3; [contradiction | assumption]).
    assert (Hnext : Z.max 0 (e - ov) = e - ov) by lia.
    rewrite Hnext.
    destruct (IH (e - ov) e ltac:(lia) ltac:(lia) ltac:(lia) ltac:(lia))
      as (e' & rest' & Hw & Hee' & Hch & Hst).
    rewrite Hw. exists e, ((e - ov, e') :: rest'). cbn [option_map].
    repeat split; try assumption.
    cbn [stitch] in *. rewrite drop_slice by lia.
    rewrite <- append_assoc, take_then_slice by lia. exact Hst.
Qed.

Lemma length_reassemble (ks : list nat) (chunks : list string) :
  (String.length (reassemble ks chunks)
   <= list_sum (map String.length chunks))%nat.
Proof.
  revert ks; induction chunks as [|c rest IH]; intros ks; [simpl; lia|].
  change (list_sum (map String.length (c :: rest)))
    with (String.length c + list_sum (map String.length rest))%nat.
  destruct ks as [|k ks]; cbn [reassemble]; rewrite length_append.
  - specialize (IH []). lia.
  - specialize (IH ks). rewrite length_drop. lia.
Qed.

(** With [0 <= overlap < max_chars / 2], [chunk_text] returns once it is
    allowed more passes than the normalized text has characters. *)
Lemma chunk_text_returns (text : string) (mc ov : Z) (fuel : nat) :
  0 <= ov -> 2 * ov < mc ->
  (String.length (_clean_text text) < fuel)%nat ->
  exists chunks, chunk_text fuel text mc ov = Some chunks.
Proof.
  intros Hov Hmc Hfuel. unfold chunk_text.
  destruct (truthy (_clean_text text)) eqn:T; cbn [negb]; [|now eexists].
  apply truthy_true in T.
  assert (Hlen : 0 < len (_clean_text text)).
  { unfold len. destruct (_clean_text text); [congruence | simpl; lia]. }
  destruct (windows_cover (_clean_text text) mc ov Hov Hmc fuel 0 0
              ltac:(lia) ltac:(lia) Hlen ltac:(unfold len; lia))
    as (e & rest & Hw & _).
  rewrite chunk_loop_windows, Hw. now eexists.
Qed.

(** **** C6, the claim as stated, at a blank text *)




(** **** C7 *)

(** C7 (counterexample).  With the default parameters the text
    [Samples.spaced_text], which normalization leaves as it is (1480 characters),
    is cut into two chunks, its 780 letters [a] and its 500 letters [b];
    whatever number of characters is removed from the front of each chunk,
    what remains is at most 1280 characters long and cannot be the
    normalized text. *)
Lemma roundtrip_loses_boundary_whitespace :
  _clean_text Samples.spaced_text = Samples.spaced_text
  /\ chunk_text 3 Samples.spaced_text 900 120 = Some [times 780 "a"; times 500 "b"]
  /\ forall ks,
       reassemble ks [times 780 "a"; times 500 "b"] <> _clean_text Samples.spaced_text.
Proof.
  split; [vm_compute; reflexivity|]. split; [vm_compute; reflexivity|].
  intros ks H. apply (f_equal String.length) in H.
  pose proof (length_reassemble ks [times 780 "a"; times 500 "b"]) as L.
  rewrite H in L.
  assert (E1 : String.length (_clean_text Samples.spaced_text) = 1480%nat)
    by (vm_compute; reflexivity).
  assert (E2 : list_sum (map String.length [times 780 "a"; times 500 "b"])
               = 1280%nat) by (vm_compute; reflexivity).
  rewrite E1, E2 in L. lia.
Qed.

(** C7 (amended).  For [0 <= overlap < max_chars / 2] and enough passes,
    the chunks [chunk_text] returns are the non-empty ones among the
    trimmed slices of a list of windows of the normalized text; the first
    window starts at 0, each next one starts [overlap] characters before
    the end of its predecessor, and the untrimmed slices, each without the
    characters it repeats from its predecessor, concatenate to the
    normalized text.  So nothing but white space at the ends of a window
    is lost. *)
Theorem chunks_are_trimmed_windows (text : string) (mc ov : Z) (fuel : nat) :
  0 <= ov -> 2 * ov < mc ->
  (String.length (_clean_text text) < fuel)%nat ->
  exists wins,
    chunk_text fuel text mc ov
    = Some (filter truthy (map (window_chunk (_clean_text text)) wins))
    /\ stitch (_clean_text text) 0 wins = _clean_text text
    /\ match wins with
       | [] => _clean_text text = ""
       | (a, b) :: rest => a = 0 /\ chained ov b rest
       end.
Proof.
  intros Hov Hmc Hfuel. unfold chunk_text.
  destruct (truthy (_clean_text text)) eqn:T; cbn [negb].
  - apply truthy_true in T.
    assert (Hlen : 0 < len (_clean_text text)).
    { unfold len. destruct (_clean_text text); [congruence | simpl; lia]. }
    destruct (windows_cover (_clean_text text) mc ov Hov Hmc fuel 0 0
                ltac:(lia) ltac:(lia) Hlen ltac:(unfold len; lia))
      as (e & rest & Hw & _ & Hch & Hst).
    rewrite chunk_loop_windows, Hw. cbn [option_map app].
    exists ((0, e) :: rest). repeat split; try assumption.
  - apply truthy_false in T. exists []. rewrite T. repeat split.
Qed.

(** The theorem at a short text and small parameters. *)
Lemma chunks_are_trimmed_windows_witness :
  exists wins,
    chunk_text 20 "hello world foo bar" 10 2
    = Some (filter truthy
              (map (window_chunk (_clean_text "hello world foo bar")) wins))
    /\ stitch (_clean_text "hello world foo bar") 0 wins
       = _clean_text "hello world foo bar"
    /\ match wins with
       | [] => _clean_text "hello world foo bar" = ""
       | (a, b) :: rest => a = 0 /\ chained 2 b rest
       end.
Proof.
  apply (chunks_are_trimmed_windows "hello world foo bar" 10 2 20);
    [lia | lia | vm_compute; lia].
Defined.

(** **** C10 *)

(** C10.  For [0 <= overlap < max_chars / 2]: a pass of the loop of
    [chunk_text] that does not reach the end of the text moves [start]
    forward, by at least [max_chars / 2 - overlap] characters; and
    [chunk_text] returns once it is allowed more passes than the
    normalized text has characters.  The defaults 900 and 120 are such
    parameters. *)
Theorem chunk_text_advances_and_terminates :
  (forall (text : string) (mc ov : Z),
      0 <= ov -> 2 * ov < mc ->
      (forall start,
          0 <= start < len (_clean_text text) ->
          fst (chunk_body (_clean_text text) mc start) <> len (_clean_text text) ->
          start < Z.max 0 (fst (chunk_body (_clean_text text) mc start) - ov)
          /\ mc - 2 * ov
             <= 2 * (Z.max 0 (fst (chunk_body (_clean_text text) mc start) - ov)
                     - start))
      /\ (forall fuel,
             (String.length (_clean_text text) < fuel)%nat ->
             exists chunks, chunk_text fuel text mc ov = Some chunks))
  /\ (forall (text : string) (fuel : nat),
         (String.length (_clean_text text) < fuel)%nat ->
         exists chunks,
           chunk_text fuel text default_max_chars default_overlap = Some chunks).
Proof.
  assert (main : forall (text : string) (mc ov : Z),
             0 <= ov -> 2 * ov < mc ->
             forall fuel,
               (String.length (_clean_text text) < fuel)%nat ->
               exists chunks, chunk_text fuel text mc ov = Some chunks).
  { intros text mc ov Hov Hmc fuel Hfuel. now apply chunk_text_returns. }
  split.
  - intros text mc ov Hov Hmc. split; [|apply main; assumption].
    intros start Hs He.
    destruct (chunk_body_end (_clean_text text) mc start Hs ltac:(lia))
      as [_ [Hend | Hhalf]]; [contradiction | lia].
  - intros text fuel Hfuel.
    apply main; unfold default_max_chars, default_overlap; [lia | lia | assumption].
Qed.

(** The theorem on a text of 19 characters cut at 10 with an overlap of 2,
    which takes three passes: the first, from 0, ends at 10 and the
    second, from 8, ends at 18, neither at the end of the text; each moves
    [start] forward by at least 3; and the call returns. *)
Lemma chunk_text_advances_and_terminates_witness :
  (0 < Z.max 0 (fst (chunk_body (_clean_text "hello world foo bar") 10 0) - 2)
   /\ 10 - 2 * 2
      <= 2 * (Z.max 0 (fst (chunk_body (_clean_text "hello world foo bar") 10 0) - 2)
              - 0))
  /\ (8 < Z.max 0 (fst (chunk_body (_clean_text "hello world foo bar") 10 8) - 2)
      /\ 10 - 2 * 2
         <= 2 * (Z.max 0 (fst (chunk_body (_clean_text "hello world foo bar") 10 8) - 2)
                 - 8))
  /\ exists chunks,
      chunk_text 20 "hello world foo bar" 10 2 = Some chunks
      /\ List.length chunks = 3%nat.
Proof.
  destruct (proj1 chunk_text_advances_and_terminates
                  "hello world foo bar" 10 2 ltac:(lia) ltac:(lia))
    as [Hadv Hret].
  split; [|split].
  - apply (Hadv 0); vm_compute; [split; [discriminate | reflexivity] | discriminate].
  - apply (Hadv 8); vm_compute; [split; [discriminate | reflexivity] | discriminate].
  - destruct (Hret 20%nat ltac:(vm_compute; lia)) as [chunks H].
    exists chunks. split; [exact H|].
    vm_compute in H. injection H as <-. reflexivity.
Defined.

End ChunkerProps.

(* ====================================================================== *)
(** ** Chunk identifiers *)
(* ====================================================================== *)

Module RagProps.
Import PyStr PyStrFacts App Notions Model.

Lemma length_hex_of (k : nat) (x : Z) (acc : string) :
  String.length (Sha1.hex_of k x acc) = (k + String.length acc)%nat.
Proof.
  revert x acc; induction k as [|k IH]; intros x acc; simpl; [reflexivity|].
  rewrite IH. simpl. lia.
Qed.

Lemma length_hexdigest (msg : list Z) :
  String.length (Sha1.hexdigest msg) = 40%nat.
Proof.
  unfold Sha1.hexdigest.
  destruct (Sha1.blocks _ _ _) as [[[[h0 h1] h2] h3] h4].
  rewrite !length_hex_of. reflexivity.
Qed.

Lemma length_stable_id (parts : list string) :
  String.length (_stable_id parts) = 16%nat.
Proof.
  unfold _stable_id. rewrite length_take, length_hexdigest. reflexivity.
Qed.

Lemma page_entries_keyed (fuel : nat) (fn ft tu : string) (cs ov : Z)
      (p : Page) (entries : list Chunk) :
  page_entries fuel fn ft tu cs ov p = Some entries ->
  Forall (well_keyed fn) entries.
Proof.
  unfold page_entries.
  destruct (negb (truthy (_clean_text (page_content p)))).
  - intros H; injection H as <-. constructor.
  - destruct (chunk_text fuel _ cs ov) as [chunks|]; [|discriminate].
    intros H; injection H as <-.
    apply Forall_forall. intros c Hc. apply in_map_iff in Hc.
    destruct Hc as ([i ch] & <- & _). split; reflexivity.
Qed.

Lemma pages_entries_keyed (fuel : nat) (fn ft tu : string) (cs ov : Z)
      (ps : list Page) :
  forall entries,
    pages_entries fuel fn ft tu cs ov ps = Some entries ->
    Forall (well_keyed fn) entries.
Proof.
  induction ps as [|p ps IH]; intros entries; cbn [pages_entries].
  - intros H; injection H as <-. constructor.
  - destruct (page_entries fuel fn ft tu cs ov p) as [here|] eqn:E; [|discriminate].
    destruct (pages_entries fuel fn ft tu cs ov ps) as [rest|]; [|discriminate].
    intros H; injection H as <-.
    apply Forall_app. split; [eapply page_entries_keyed; eassumption | now apply IH].
Qed.

Lemma doc_entries_keyed (fuel : nat) (fn ft tu : string) (cs ov : Z)
      (body : string) (entries : list Chunk) :
  doc_entries fuel fn ft tu cs ov body = Some entries ->
  Forall (well_keyed fn) entries.
Proof.
  unfold doc_entries.
  destruct (chunk_text fuel _ cs ov) as [chunks|]; [|discriminate].
  intros H; injection H as <-.
  apply Forall_forall. intros c Hc. apply in_map_iff in Hc.
  destruct Hc as ([i ch] & <- & _). split; reflexivity.
Qed.

(** C8.  Every chunk [build_rag_json] produces has for id the first 16
    hexadecimal digits of the SHA-1 of its file name, its page number (or
    ["doc"] when it has none), its index and the first 40 characters of
    its text, joined by vertical bars; the id has 16 characters.  Hence two
    chunks with the same four values, from whatever documents, paths,
    parameters and times, have the same id. *)
Theorem chunk_ids_are_stable :
  (forall fuel now results path cs ov rag,
      build_rag_json fuel now results path cs ov = Some rag ->
      forall c, In c (rag_chunks rag) ->
                chunk_id c = id_of_key (chunk_key c)
                /\ String.length (chunk_id c) = 16%nat
                /\ chunk_file_name (chunk_metadata c)
                   = rag_file_name (rag_document rag))
  /\ (forall fuel1 now1 results1 path1 cs1 ov1 rag1
             fuel2 now2 results2 path2 cs2 ov2 rag2 c1 c2,
         build_rag_json fuel1 now1 results1 path1 cs1 ov1 = Some rag1 ->
         build_rag_json fuel2 now2 results2 path2 cs2 ov2 = Some rag2 ->
         In c1 (rag_chunks rag1) -> In c2 (rag_chunks rag2) ->
         chunk_key c1 = chunk_key c2 ->
         chunk_id c1 = chunk_id c2).
Proof.
  assert (main : forall fuel now results path cs ov rag,
             build_rag_json fuel now results path cs ov = Some rag ->
             Forall (well_keyed (rag_file_name (rag_document rag)))
                    (rag_chunks rag)).
  { intros fuel now results path cs ov rag. unfold build_rag_json.
    set (fn := or_else _ _). set (ft := match Model.file_type results with
                                        | Some t => t | None => _ end).
    destruct (Model.pages results) as [|p ps] eqn:P.
    - destruct (doc_entries fuel fn ft _ cs ov _) as [entries|] eqn:E;
        [|discriminate].
      intros H; injection H as <-. cbn.
      eapply doc_entries_keyed; eassumption.
    - destruct (pages_entries fuel fn ft _ cs ov _) as [entries|] eqn:E;
        [|discriminate].
      intros H; injection H as <-. cbn.
      eapply pages_entries_keyed; eassumption. }
  split.
  - intros fuel now results path cs ov rag H c Hc.
    pose proof (proj1 (Forall_forall _ _) (main _ _ _ _ _ _ _ H) c Hc) as [Hid Hfn].
    repeat split; try assumption.
    rewrite Hid. unfold id_of_key. destruct (chunk_key c) as [[[a b] i] h].
    rewrite length_take, length_hexdigest. reflexivity.
  - intros fuel1 now1 results1 path1 cs1 ov1 rag1
           fuel2 now2 results2 path2 cs2 ov2 rag2 c1 c2 H1 H2 Hc1 Hc2 K.
    pose proof (proj1 (Forall_forall _ _) (main _ _ _ _ _ _ _ H1) c1 Hc1) as [Hid1 _].
    pose proof (proj1 (Forall_forall _ _) (main _ _ _ _ _ _ _ H2) c2 Hc2) as [Hid2 _].
    now rewrite Hid1, Hid2, K.
Qed.

(** The theorem at the first chunk of a two-page document. *)
Lemma chunk_ids_are_stable_witness :
  exists rag c,
    build_rag_json 5 "2024-05-01T10:00:00" Samples.two_pages "" 900 120 = Some rag
    /\ In c (rag_chunks rag)
    /\ chunk_key c = ("report.pdf", Some 1, 0, "first page")
    /\ chunk_id c = id_of_key ("report.pdf", Some 1, 0, "first page").
Proof.
  destruct (build_rag_json 5 "2024-05-01T10:00:00" Samples.two_pages "" 900 120)
    as [rag|] eqn:E; [|vm_compute in E; discriminate].
  pose proof (proj1 chunk_ids_are_stable _ _ _ _ _ _ _ E) as H.
  vm_compute in E. injection E as <-.
  eexists. eexists. split; [reflexivity|].
  split; [left; reflexivity|]. split; [reflexivity|].
  exact (proj1 (H _ (or_introl eq_refl))).
Defined.

End RagProps.

(* ====================================================================== *)
(** ** The parser: runs of the monad *)
(* ====================================================================== *)

Module RunFacts.
Import Py Notions.
Local Open Scope py_scope.

Lemma bind_ok {A B : Type} (c : M A) (k : A -> M B) s b s' :
  bind c k s = (Ok b, s') ->
  exists a s1, c s = (Ok a, s1) /\ k a s1 = (Ok b, s').
Proof.
  unfold bind. destruct (c s) as [[a|e] s1]; intros H; [|discriminate].
  exists a, s1. now split.
Qed.

Lemma bind_run_ok {A B : Type} (c : M A) (k : A -> M B) s a s1 :
  c s = (Ok a, s1) -> bind c k s = k a s1.
Proof. unfold bind. now intros ->. Qed.

Lemma bind_run_raise {A B : Type} (c : M A) (k : A -> M B) s e s1 :
  c s = (Raise e, s1) -> bind c k s = (Raise e, s1).
Proof. unfold bind. now intros ->. Qed.

Lemma try_except_ok {A : Type} (c : M A) (h : exn -> M A) s a s' :
  try_except c h s = (Ok a, s') ->
  c s = (Ok a, s')
  \/ exists e s1, c s = (Raise e, s1) /\ h e s1 = (Ok a, s').
Proof.
  unfold try_except. destruct (c s) as [[x|e] s1]; intros H.
  - now left.
  - right. now exists e, s1.
Qed.

Lemma try_import_ok {A : Type} (c : M A) (h : exn -> M A) s a s' :
  try_import c h s = (Ok a, s') ->
  c s = (Ok a, s')
  \/ exists e s1, c s = (Raise e, s1) /\ h e s1 = (Ok a, s').
Proof.
  unfold try_import. intros H. apply try_except_ok in H.
  destruct H as [H | (e & s1 & Hc & Hh)]; [now left|].
  right. exists e, s1. split; [assumption|].
  destruct (is_import_error e); [assumption | discriminate].
Qed.

Lemma ret_ok {A : Type} (a b : A) s s' : ret a s = (Ok b, s') -> a = b /\ s = s'.
Proof. unfold ret. intros H; injection H as -> ->. now split. Qed.

Lemma lift_ok {A : Type} (r : result A) (a : A) s s' :
  lift r s = (Ok a, s') -> r = Ok a /\ s = s'.
Proof. unfold lift. intros H; injection H as -> ->. now split. Qed.

Lemma for_each_ok {A B : Type} (body : Z -> A -> M B) (P : Z -> B -> Prop) :
  (forall i x s y s', body i x s = (Ok y, s') -> P i y) ->
  forall l i s ys s', for_each body i l s = (Ok ys, s') -> indexed P i ys.
Proof.
  intros Hbody. induction l as [|x l IH]; intros i s ys s' H; cbn [for_each] in H.
  - apply ret_ok in H as [<- _]. exact I.
  - apply bind_ok in H as (y & s1 & Hy & H).
    apply bind_ok in H as (rest & s2 & Hrest & H).
    apply ret_ok in H as [<- _]. split; [eapply Hbody | eapply IH]; eassumption.
Qed.

End RunFacts.

(* ====================================================================== *)
(** ** The parser: page classification and scan detection *)
(* ====================================================================== *)

Module ClassifierProps.
Import PyStr PyStrFacts Py Model Env Parsers Notions RunFacts.
Local Open Scope py_scope.

(** The float comparison of [_is_scanned_pdf] on the counts a sample of
    one to five pages can give is the comparison of the fractions. *)
Lemma ratio_exceeds (c k : Z) :
  1 <= k <= 5 -> 0 <= c <= k ->
  true_div c k = Ok (PrimFloat.div (float_of_int c) (float_of_int k))
  /\ PrimFloat.ltb point_seven (PrimFloat.div (float_of_int c) (float_of_int k))
     = (7 * k <? 10 * c).
Proof.
  intros Hk Hc.
  assert (Ek : k = 1 \/ k = 2 \/ k = 3 \/ k = 4 \/ k = 5) by lia.
  assert (Ec : c = 0 \/ c = 1 \/ c = 2 \/ c = 3 \/ c = 4 \/ c = 5) by lia.
  destruct Ek as [-> | [-> | [-> | [-> | ->]]]];
    destruct Ec as [-> | [-> | [-> | [-> | [-> | ->]]]]];
    try lia; split; vm_compute; reflexivity.
Qed.

Lemma sample_is_first_five {A : Type} (doc : list A) :
  firstn (Z.to_nat (Z.min 5 (Z.of_nat (List.length doc)))) doc = firstn 5 doc.
Proof.
  destruct (Nat.le_gt_cases 5 (List.length doc)) as [H | H].
  - f_equal. lia.
  - rewrite (firstn_all2 (n := 5)) by lia.
    apply firstn_all2. lia.
Qed.

Lemma textless_test (raw : string) :
  negb (truthy (strip raw)) || (len (strip raw) <? 50) = textless raw.
Proof.
  unfold textless. destruct (strip raw); [reflexivity|].
  reflexivity.
Qed.

Lemma count_without_text_reads (sample : list FitzPage) :
  forall texts acc s,
    map get_text sample = map Ok texts ->
    count_without_text sample acc s = (Ok (acc + count_if textless texts), s).
Proof.
  induction sample as [|page rest IH]; intros [|t texts] acc s H;
    try discriminate; cbn [count_without_text].
  - unfold count_if. simpl. unfold ret. do 2 f_equal. lia.
  - cbn [map] in H. injection H as Ht Hrest.
    rewrite (bind_run_ok _ _ s t s) by (unfold lift; now rewrite Ht).
    rewrite textless_test. unfold count_if in *. cbn [filter].
    destruct (textless t); rewrite (IH texts) by assumption;
      do 2 f_equal; cbn [List.length]; lia.
Qed.

Lemma count_without_text_raises (sample : list FitzPage) (page : FitzPage) (e : exn) :
  In page sample -> get_text page = Raise e ->
  forall acc s, exists e', count_without_text sample acc s = (Raise e', s).
Proof.
  intros Hin He. induction sample as [|p rest IH]; [contradiction|].
  intros acc s. cbn [count_without_text].
  destruct (get_text p) as [t|e0] eqn:Ep.
  - rewrite (bind_run_ok _ _ s t s) by reflexivity.
    destruct Hin as [-> | Hin]; [congruence|].
    destruct (negb (truthy (strip t)) || (len (strip t) <? 50)); now apply IH.
  - exists e0. apply bind_run_raise. reflexivity.
Qed.

Lemma count_if_bounds (f : string -> bool) (l : list string) :
  0 <= count_if f l <= Z.of_nat (List.length l).
Proof.
  unfold count_if. pose proof (filter_length_le f l). lia.
Qed.

(** C2.  [_is_scanned_pdf] always returns a boolean.  When fitz opens the
    document, it has at least one page and the texts of its first five
    pages (all of them if fewer) are read, the answer is true exactly when
    the pages of that sample with fewer than 50 characters of trimmed text,
    divided by the size of the sample, exceed 7/10.  When fitz is missing,
    the document does not open, has no page, or a page of the sample cannot
    be read, the answer is false. *)
Theorem is_scanned_pdf_decides (w : World) (pdf_path : string) (s : list event) :
  (exists b s', _is_scanned_pdf w pdf_path s = (Ok b, s'))
  /\ (forall doc texts,
         has_module w "fitz" = true ->
         fitz_open w pdf_path = Ok doc ->
         doc <> [] ->
         map get_text (firstn 5 doc) = map Ok texts ->
         _is_scanned_pdf w pdf_path s
         = (Ok (7 * Z.min 5 (Z.of_nat (List.length doc))
                  <? 10 * count_if textless texts), s))
  /\ (has_module w "fitz" = false
      \/ (exists e, fitz_open w pdf_path = Raise e)
      \/ fitz_open w pdf_path = Ok []
      \/ (exists doc page e,
             fitz_open w pdf_path = Ok doc
             /\ In page (firstn 5 doc) /\ get_text page = Raise e) ->
      exists s', _is_scanned_pdf w pdf_path s = (Ok false, s')).
Proof.
  split; [|split].
  - unfold _is_scanned_pdf, try_except.
    destruct (_is_scanned_pdf_try w pdf_path s) as [[b|e] s1].
    + now exists b, s1.
    + eexists; eexists; reflexivity.
  - intros doc texts Hmod Hopen Hdoc Htexts.
    unfold _is_scanned_pdf, try_except, _is_scanned_pdf_try, import_.
    rewrite Hmod.
    rewrite (bind_run_ok _ _ s tt s) by reflexivity.
    rewrite (bind_run_ok _ _ s doc s) by (unfold lift; now rewrite Hopen).
    rewrite sample_is_first_five.
    rewrite (bind_run_ok _ _ s _ s
               (count_without_text_reads _ texts 0 s Htexts)).
    pose proof (count_if_bounds textless texts) as Hc.
    assert (Hlen : List.length texts = List.length (firstn 5 doc)).
    { rewrite <- (length_map Ok texts), <- Htexts. apply length_map. }
    rewrite length_firstn in Hlen.
    assert (Hn : (0 < List.length doc)%nat)
      by (destruct doc; [congruence | simpl; lia]).
    destruct (ratio_exceeds (0 + count_if textless texts)
                            (Z.min 5 (Z.of_nat (List.length doc)))
                            ltac:(lia) ltac:(lia)) as [Hdiv Hcmp].
    rewrite (bind_run_ok _ _ s _ s) by (unfold lift; now rewrite Hdiv).
    unfold ret. rewrite Hcmp. reflexivity.
  - intros Hfail.
    assert (Hraise : exists e s1, _is_scanned_pdf_try w pdf_path s = (Raise e, s1)).
    { unfold _is_scanned_pdf_try, import_.
      destruct (has_module w "fitz") eqn:Hmod;
        [|eexists; eexists; reflexivity].
      rewrite (bind_run_ok _ _ s tt s) by reflexivity.
      destruct Hfail as [Hm | [[e He] | [He | (doc & page & e & Hopen & Hin & Hp)]]].
      - discriminate.
      - exists e, s. apply bind_run_raise. unfold lift. now rewrite He.
      - rewrite (bind_run_ok _ _ s [] s) by (unfold lift; now rewrite He).
        eexists; eexists; reflexivity.
      - rewrite (bind_run_ok _ _ s doc s) by (unfold lift; now rewrite Hopen).
        rewrite sample_is_first_five.
        destruct (count_without_text_raises _ page e Hin Hp 0 s) as [e' He'].
        exists e', s. now apply bind_run_raise. }
    destruct Hraise as (e & s1 & Hr).
    unfold _is_scanned_pdf, try_except. rewrite Hr.
    eexists; reflexivity.
Qed.

(** The theorem on a two-page document of short texts: both sampled pages
    count, and 2/2 exceeds 7/10. *)
Lemma is_scanned_pdf_decides_witness :
  _is_scanned_pdf Samples.short_pdf "scan.pdf" [] = (Ok true, []).
Proof.
  exact (proj1 (proj2 (is_scanned_pdf_decides Samples.short_pdf "scan.pdf" []))
               [Samples.fitz_page "hello" []; Samples.fitz_page "world" [7]]
               ["hello"; "world"]
               eq_refl eq_refl ltac:(discriminate) eq_refl).
Defined.

(** The synthetic samples of the specification: four pages of five
    without text give true, three of five give false. *)
Example four_of_five_is_scanned :
  let long := Notions.times 500 "x" in
  _is_scanned_pdf
    (Samples.world_with
       [Samples.fitz_page "" []; Samples.fitz_page "a" []; Samples.fitz_page "b" [];
        Samples.fitz_page "c" []; Samples.fitz_page long []] [] [] "")
    "five.pdf" [] = (Ok true, [])
  /\ _is_scanned_pdf
       (Samples.world_with
          [Samples.fitz_page "" []; Samples.fitz_page "a" []; Samples.fitz_page "b" [];
           Samples.fitz_page long []; Samples.fitz_page long []] [] [] "")
       "five.pdf" [] = (Ok false, []).
Proof. split; vm_compute; reflexivity. Qed.

Lemma analyze_pages_reads (doc : list FitzPage) :
  forall reads i acc s,
    map get_text doc = map (fun r => Ok (fst r)) reads ->
    map get_images doc = map (fun r => Ok (snd r)) reads ->
    analyze_pages doc i acc s = (Ok (classify_all i reads acc), s).
Proof.
  induction doc as [|page rest IH]; intros [|r reads] i acc s Ht Hi;
    try discriminate; cbn [analyze_pages classify_all]; [reflexivity|].
  cbn [map] in Ht, Hi. injection Ht as Ht Hts. injection Hi as Hi His.
  rewrite (bind_run_ok _ _ s (fst r) s) by (unfold lift; now rewrite Ht).
  rewrite (bind_run_ok _ _ s (snd r) s) by (unfold lift; now rewrite Hi).
  now apply IH.
Qed.

Lemma classify_page_listed (r : string * list Z) (i : Z) (acc : PageLists) :
  if listed r
  then Permutation (all_lists (classify_page (strip (fst r)) (snd r) i acc))
                   (all_lists acc ++ [i + 1])
  else classify_page (strip (fst r)) (snd r) i acc = acc.
Proof.
  unfold listed, classify_page. destruct acc as [[sc hy] di].
  destruct (50 <? len (strip (fst r)));
    destruct (0 <? Z.of_nat (List.length (snd r)));
    cbn [negb andb orb all_lists]; try reflexivity.
  - rewrite <- !app_assoc. do 2 apply Permutation_app_head.
    apply (Permutation_app_comm [i + 1] di).
  - now rewrite !app_assoc.
  - rewrite <- !app_assoc. apply Permutation_app_head.
    rewrite (app_assoc hy di). apply (Permutation_app_comm [i + 1] (hy ++ di)).
Qed.

Lemma classify_all_listed (reads : list (string * list Z)) :
  forall i acc,
    Permutation (all_lists (classify_all i reads acc))
                (all_lists acc ++ listed_numbers i reads).
Proof.
  induction reads as [|r reads IH]; intros i acc; cbn [classify_all listed_numbers].
  - now rewrite app_nil_r.
  - rewrite IH. pose proof (classify_page_listed r i acc) as H.
    destruct (listed r).
    + rewrite H, <- app_assoc. reflexivity.
    + now rewrite H.
Qed.

Lemma listed_numbers_range (reads : list (string * list Z)) :
  forall i x, In x (listed_numbers i reads) ->
              i < x <= i + Z.of_nat (List.length reads).
Proof.
  induction reads as [|r reads IH]; intros i x H; cbn [listed_numbers] in H;
    [contradiction|].
  cbn [List.length].
  destruct (listed r); [destruct H as [<- | H]; [lia|]|];
    specialize (IH _ _ H); lia.
Qed.

Lemma listed_numbers_nodup (reads : list (string * list Z)) :
  forall i, NoDup (listed_numbers i reads).
Proof.
  induction reads as [|r reads IH]; intros i; cbn [listed_numbers];
    [constructor|].
  destruct (listed r); [|apply IH].
  constructor; [|apply IH].
  intros H. apply listed_numbers_range in H. lia.
Qed.

(** What does hold of the three lists when every page is read: together
    they hold, once each, the numbers of the pages that have more than 50
    characters of trimmed text or at least one image, and no other
    number.  A page with neither is in none of them. *)
Lemma analysis_lists_hold_listed_pages (w : World) (pdf_path : string)
      (s : list event) (doc : list FitzPage) (reads : list (string * list Z)) :
  has_module w "fitz" = true ->
  fitz_open w pdf_path = Ok doc ->
  map get_text doc = map (fun r => Ok (fst r)) reads ->
  map get_images doc = map (fun r => Ok (snd r)) reads ->
  exists a,
    _analyze_pdf w pdf_path s = (Ok (FullAnalysis a), s)
    /\ total_pages a = Z.of_nat (List.length doc)
    /\ Permutation (scanned_pages a ++ hybrid_pages a ++ digital_pages a)
                   (listed_numbers 0 reads)
    /\ NoDup (scanned_pages a ++ hybrid_pages a ++ digital_pages a).
Proof.
  intros Hmod Hopen Ht Hi.
  unfold _analyze_pdf, try_except, _analyze_pdf_try, import_. rewrite Hmod.
  rewrite (bind_run_ok _ _ s tt s) by reflexivity.
  rewrite (bind_run_ok _ _ s doc s) by (unfold lift; now rewrite Hopen).
  rewrite (bind_run_ok _ _ s _ s (analyze_pages_reads doc reads 0 _ s Ht Hi)).
  pose proof (classify_all_listed reads 0 ([], [], [])) as P.
  destruct (classify_all 0 reads ([], [], [])) as [[sc hy] di].
  cbn [all_lists app] in P.
  eexists. split; [reflexivity|]. cbn.
  repeat split; [exact P|].
  eapply Permutation_NoDup; [symmetry; exact P | apply listed_numbers_nodup].
Qed.

(** C1 (the code at the failing input).  On a one-page PDF whose page has
    no text and no image, [_analyze_pdf] counts one page and lists it
    nowhere: the three lists are empty, and the document is typed
    ["Hybrid"] with [has_text] false. *)
Theorem blank_page_is_listed_nowhere :
  _analyze_pdf Samples.blank_pdf "blank.pdf" []
  = (Ok (FullAnalysis {| pdf_type := "Hybrid";
                         total_pages := 1;
                         scanned_pages := [];
                         hybrid_pages := [];
                         digital_pages := [];
                         has_text := false |}), []).
Proof. vm_compute. reflexivity. Qed.

End ClassifierProps.

(* ====================================================================== *)
(** ** The parser: engines and selection *)
(* ====================================================================== *)

Module EngineProps.
Import PyStr PyStrFacts Py Model Env Parsers Notions RunFacts.
Local Open Scope py_scope.

(** Takes a successful run apart, bind by bind. *)
Ltac run_inv H :=
  repeat (let a := fresh "a" in
          let s := fresh "s" in
          let Ha := fresh "Hrun" in
          cbv zeta in H; apply bind_ok in H; destruct H as (a & s & Ha & H));
  cbv zeta in H.

Ltac solve_body :=
  let Hb := fresh "Hb" in
  intros ? ? ? ? ? Hb;
  repeat (cbv zeta in Hb; apply bind_ok in Hb; destruct Hb as (? & ? & _ & Hb));
  cbv zeta in Hb; apply ret_ok in Hb; destruct Hb as [<- _]; split; reflexivity.

Lemma items_paged (heading : string) (items : list (Page * string)) :
  forall i,
    indexed (page_and_block heading) i items ->
    numbered_from (i + 1) (map fst items)
    /\ map snd items = map (rendered heading) (map fst items).
Proof.
  induction items as [|y items IH]; intros i H; cbn in *; [now split|].
  destruct H as [[Hn Hb] Hrest]. destruct (IH _ Hrest) as [IH1 IH2].
  repeat split; [assumption | assumption | now rewrite Hb, IH2].
Qed.

Lemma loop_paged {A : Type} (heading : string) (body : Z -> A -> M (Page * string))
      (l : list A) (s s' : list event) (items : list (Page * string)) :
  for_each body 0 l s = (Ok items, s') ->
  (forall i x s y s', body i x s = (Ok y, s') -> page_and_block heading i y) ->
  numbered_from 1 (map fst items)
  /\ map snd items = map (rendered heading) (map fst items).
Proof.
  intros H Hbody.
  apply (items_paged heading items 0).
  eapply for_each_ok; eassumption.
Qed.

(** Reads the layout of the pages off the run of the loop that made them. *)
Ltac use_loop heading :=
  match goal with
  | Hf : for_each _ _ _ _ = _ |- _ =>
      apply (loop_paged heading) in Hf; [destruct Hf as [? ?] | ]
  end.

Lemma pymupdf_paged (w : World) (self : DocumentParser) (path : string)
      (s s' : list event) (d : Document) :
  _parse_with_pymupdf w self path s = (Ok d, s') ->
  paged "Page" d /\ tool_used d = "PyMuPDF".
Proof.
  intros H. unfold _parse_with_pymupdf in H. run_inv H.
  apply ret_ok in H as [<- _]. split; [|reflexivity].
  unfold paged; cbn [pages content].
  use_loop "Page"; [|solve_body].
  match goal with
  | Hn : numbered_from _ _, Hc : map snd _ = _ |- _ =>
      split; [exact Hn | now rewrite Hc]
  end.
Qed.

Lemma pdfplumber_paged (w : World) (self : DocumentParser) (path : string)
      (s s' : list event) (d : Document) :
  _parse_with_pdfplumber w self path s = (Ok d, s') -> paged "Page" d.
Proof.
  intros H. unfold _parse_with_pdfplumber in H.
  apply bind_ok in H as (? & ? & _ & H).
  apply try_import_ok in H as [H | (e & s1 & _ & H)].
  - run_inv H. apply ret_ok in H as [<- _].
    unfold paged; cbn [pages content].
    use_loop "Page"; [|solve_body].
    match goal with
    | Hn : numbered_from _ _, Hc : map snd _ = _ |- _ =>
        split; [exact Hn | now rewrite Hc]
    end.
  - apply bind_ok in H as (? & ? & _ & H).
    now apply pymupdf_paged in H.
Qed.

Lemma tesseract_paged (w : World) (self : DocumentParser) (path : string)
      (s s' : list event) (d : Document) :
  _parse_with_tesseract w self path s = (Ok d, s') -> paged "Page" d.
Proof.
  intros H. unfold _parse_with_tesseract in H.
  apply bind_ok in H as (? & ? & _ & H).
  apply try_import_ok in H as [H | (e & s1 & _ & H)]; [|discriminate].
  run_inv H. apply ret_ok in H as [<- _].
  unfold paged; cbn [pages content].
  use_loop "Page"; [|solve_body].
  match goal with
  | Hn : numbered_from _ _, Hc : map snd _ = _ |- _ =>
      split; [exact Hn | now rewrite Hc]
  end.
Qed.

Lemma easyocr_paged (w : World) (self : DocumentParser) (path : string)
      (s s' : list event) (d : Document) :
  _parse_with_easyocr w self path s = (Ok d, s') -> paged "Page" d.
Proof.
  intros H. unfold _parse_with_easyocr in H.
  apply bind_ok in H as (? & ? & _ & H).
  apply try_import_ok in H as [H | (e & s1 & _ & H)]; [|discriminate].
  run_inv H. apply ret_ok in H as [<- _].
  unfold paged; cbn [pages content].
  use_loop "Page"; [|solve_body].
  match goal with
  | Hn : numbered_from _ _, Hc : map snd _ = _ |- _ =>
      split; [exact Hn | now rewrite Hc]
  end.
Qed.

Lemma powerpoint_paged (w : World) (path : string)
      (s s' : list event) (d : Document) :
  _parse_powerpoint w path s = (Ok d, s') -> paged "Slide" d.
Proof.
  intros H. unfold _parse_powerpoint in H.
  apply bind_ok in H as (? & ? & _ & H).
  apply try_import_ok in H as [H | (e & s1 & _ & H)]; [|discriminate].
  run_inv H. apply ret_ok in H as [<- _].
  unfold paged; cbn [pages content].
  use_loop "Slide"; [|solve_body].
  match goal with
  | Hn : numbered_from _ _, Hc : map snd _ = _ |- _ =>
      split; [exact Hn | now rewrite Hc]
  end.
Qed.

Lemma word_single_page (w : World) (path : string)
      (s s' : list event) (d : Document) :
  _parse_word w path s = (Ok d, s') -> single_page d.
Proof.
  intros H. unfold _parse_word in H.
  apply bind_ok in H as (? & ? & _ & H).
  apply try_import_ok in H as [H | (e & s1 & _ & H)]; [|discriminate].
  run_inv H. apply ret_ok in H as [<- _].
  eexists; repeat split.
Qed.

Lemma text_single_page (w : World) (path : string)
      (s s' : list event) (d : Document) :
  _parse_text w path s = (Ok d, s') -> single_page d.
Proof.
  intros H. unfold _parse_text in H. run_inv H.
  apply ret_ok in H as [<- _]. eexists; repeat split.
Qed.

(** C5 (counterexample).  The PowerPoint engine, on a deck of one slide
    that says Hi, and the text engine, on a file that says Hi, return a
    non-empty list of pages and a content that is not laid out under
    [## Page N] headings: [## Slide 1] heads the first, nothing the
    second. *)
Lemma slide_and_text_content_have_no_page_heading :
  (exists d s',
      invoke Samples.deck (Samples.parser_with None false) M_powerpoint
             "deck.pptx" [] = (Ok d, s')
      /\ pages d <> []
      /\ content d = "## Slide 1" ++ nlnl ++ "Hi" ++ nl
      /\ ~ paged "Page" d)
  /\ (exists d s',
         invoke Samples.deck (Samples.parser_with None false) M_text
                "notes.txt" [] = (Ok d, s')
         /\ pages d <> []
         /\ content d = "Hi"
         /\ ~ paged "Page" d).
Proof.
  split; eexists; eexists; (split; [vm_compute; reflexivity|]);
    (split; [discriminate|]); (split; [reflexivity|]);
    intros [_ H]; vm_compute in H; discriminate.
Qed.

(** C5 (amended).  Whenever the PyMuPDF, pdfplumber, Tesseract or EasyOCR
    engine returns a document, its pages are numbered 1, 2, ... and its
    content is the blocks [## Page N], blank line, page content, newline
    of its pages in order, joined by a newline (so a blank line separates
    two pages); the PowerPoint engine lays its slides out the same way
    under [## Slide N]; the Word and text engines return one page, numbered
    1, that holds the whole content without a heading. *)
Theorem paged_engines_layout (w : World) (self : DocumentParser) (path : string)
        (s s' : list event) (d : Document) :
  (forall m, In m [M_pymupdf; M_pdfplumber; M_tesseract; M_easyocr] ->
             invoke w self m path s = (Ok d, s') -> paged "Page" d)
  /\ (invoke w self M_powerpoint path s = (Ok d, s') -> paged "Slide" d)
  /\ (forall m, In m [M_word; M_text] ->
                invoke w self m path s = (Ok d, s') -> single_page d).
Proof.
  split; [|split].
  - intros m [<- | [<- | [<- | [<- | []]]]] H; cbn [invoke] in H.
    + now apply pymupdf_paged in H.
    + now apply pdfplumber_paged in H.
    + now apply tesseract_paged in H.
    + now apply easyocr_paged in H.
  - cbn [invoke]. apply powerpoint_paged.
  - intros m [<- | [<- | []]] H; cbn [invoke] in H.
    + now apply word_single_page in H.
    + now apply text_single_page in H.
Qed.

(** The theorem on the PyMuPDF run over a two-page document. *)
Lemma paged_engines_layout_witness :
  exists d s',
    invoke Samples.short_pdf (Samples.parser_with None false) M_pymupdf
           "short.pdf" [] = (Ok d, s')
    /\ paged "Page" d.
Proof.
  destruct (invoke Samples.short_pdf (Samples.parser_with None false) M_pymupdf
                   "short.pdf" []) as [[d|e] s'] eqn:E;
    [|vm_compute in E; discriminate].
  exists d, s'. split; [reflexivity|].
  exact (proj1 (paged_engines_layout Samples.short_pdf
                  (Samples.parser_with None false) "short.pdf" [] s' d)
               M_pymupdf (or_introl eq_refl) E).
Defined.

(** C9 (the code at the failing input).  The header row of [gap_table]
    prints its [None] cell as ["None"], while the data row prints its
    [None] cell as the empty string; the pdfplumber engine writes the
    table that way into the page text. *)
Theorem header_none_cell_prints_None :
  table_markdown 0 Samples.gap_table
  = nl ++ "**Table 1:**" ++ nlnl
       ++ "| None | Name |" ++ nl
       ++ "|---|---|" ++ nl
       ++ "| 1 |  |" ++ nl
       ++ nl
  /\ exists d s',
      _parse_with_pdfplumber Samples.table_pdf (Samples.parser_with None false)
                             "table.pdf" [] = (Ok d, s')
      /\ map page_content (pages d)
         = ["Totals" ++ nl ++ table_markdown 0 Samples.gap_table].
Proof.
  split; [reflexivity|].
  eexists. eexists. split; vm_compute; reflexivity.
Qed.

End EngineProps.

Module SelectorProps.
Import PyStr PyStrFacts Py Model Env Parsers Notions RunFacts.
Local Open Scope py_scope.

(** The first two steps of [parse] write nothing to the log and enter no
    engine. *)
Lemma locate_keeps_log (w : World) (path : string) (s s1 : list event)
      (r : result string) :
  locate w path s = (r, s1) -> s1 = s.
Proof.
  unfold locate, bind, _download_from_url, try_except, bind, lift, raise, ret.
  destruct (startswith path "http://" || startswith path "https://").
  - destruct (http_get w path) as [body|e].
    + destruct (write_temp w _ body) as [p|e].
      * destruct (negb (path_exists w p)); intros H; now injection H.
      * intros H; now injection H.
    + intros H; now injection H.
  - destruct (negb (path_exists w path)); intros H; now injection H.
Qed.

Lemma parse_after_locate (w : World) (self : DocumentParser)
      (document_path p : string) (s s1 : list event) :
  locate w document_path s = (Ok p, s1) ->
  parse w self document_path s
  = (parser_method <- select_parser w self (doc_type_of p) p ;;
     emit (Info ("Parsing " ++ p ++ " using " ++ method_name parser_method)) ;;
     results <- invoke w self parser_method p ;;
     ret (add_file_metadata w p (doc_type_of p) results)) s1.
Proof. intros H. unfold parse. now rewrite (bind_run_ok _ _ _ _ _ H). Qed.

Lemma parse_with_method (w : World) (self : DocumentParser)
      (document_path p : string) (s s1 : list event) (m : parser_method) :
  locate w document_path s = (Ok p, s1) ->
  select_parser w self (doc_type_of p) p s1 = (Ok m, s1) ->
  parse w self document_path s
  = completed w p
      (invoke w self m p
              (s1 ++ [Info ("Parsing " ++ p ++ " using " ++ method_name m)])%list).
Proof.
  intros Hloc Hsel. rewrite (parse_after_locate _ _ _ _ _ _ Hloc).
  rewrite (bind_run_ok _ _ _ _ _ Hsel).
  unfold bind at 1, emit at 1. unfold bind, completed, ret.
  destruct (invoke w self m p _) as [[d|e] l]; reflexivity.
Qed.

Lemma invoke_enters (w : World) (self : DocumentParser) (m : parser_method)
      (p : string) :
  exists body, invoke w self m p = bind (emit (Enter (method_name m) p)) body.
Proof. destruct m; eexists; reflexivity. Qed.

(** C3, as it is written, fails on a document that does not exist: the
    file is looked for before the tool is.  With an identifier that is not
    registered [parse] raises [FileNotFoundError], not the error of the
    unknown tool; with ["pdfplumber"] it raises the same and the log is
    empty: no engine was selected or entered.  And the empty identifier,
    which is not registered, counts as no identifier: a text file is parsed
    by the method chosen for its type. *)
Theorem missing_document_precedes_the_tool :
  parse MoreSamples.nowhere (Samples.parser_with (Some "no-such-tool") true)
        "missing.pdf" []
  = (Raise (FileNotFoundError "Document not found: missing.pdf"), [])
  /\ (forall s',
         parse MoreSamples.nowhere (Samples.parser_with (Some "no-such-tool") true)
               "missing.pdf" []
         <> (Raise (ValueError "Unknown tool: no-such-tool"), s'))
  /\ parse MoreSamples.nowhere (Samples.parser_with (Some "pdfplumber") true)
           "missing.pdf" []
     = (Raise (FileNotFoundError "Document not found: missing.pdf"), [])
  /\ dict_get method_map "" = None
  /\ exists d,
      parse Samples.deck (Samples.parser_with (Some "") true) "notes.txt" []
      = (Ok d, [Info "Parsing notes.txt using _parse_text";
                Enter "_parse_text" "notes.txt"])
      /\ tool_used d = "Built-in".
Proof.
  assert (H : parse MoreSamples.nowhere
                    (Samples.parser_with (Some "no-such-tool") true)
                    "missing.pdf" []
              = (Raise (FileNotFoundError "Document not found: missing.pdf"), []))
    by reflexivity.
  split; [exact H|]. split; [|split; [reflexivity|split; [reflexivity|]]].
  - intros s' H'. rewrite H in H'. discriminate.
  - eexists. split; [cbv; reflexivity | reflexivity].
Qed.

(** C3.  Take a parse call whose parser has an explicit tool identifier
    [t] (a non-empty string) and whose document is found at [p].  If [t] is
    a key of [method_map], its method [m] is the one selected, for every
    document type and without the scan detection being run (the log is
    untouched); [parse] logs its name, enters it on [p], and its outcome is
    the outcome of that method, completed with the file keys.  Key by key:
    the outcome of [parse] is that of the method [method_map] has in the
    source for [t], run on [p] after the record that names it.  If [t] is
    not a key, [parse] raises [ValueError "Unknown tool: t"] with the log
    as it was at the call: no engine was entered.  ["pdfplumber"] is a key,
    for the pdfplumber method. *)
Theorem explicit_tool_is_obeyed (w : World) (self : DocumentParser)
        (t document_path p : string) (s s1 : list event) :
  tool self = Some t -> truthy t = true ->
  locate w document_path s = (Ok p, s1) ->
  s1 = s
  /\ (forall m,
         dict_get method_map t = Some m ->
         (forall doc_type, select_parser w self doc_type p s1 = (Ok m, s1))
         /\ parse w self document_path s
            = completed w p
                (invoke w self m p
                   (s1 ++ [Info ("Parsing " ++ p ++ " using " ++ method_name m)])%list)
         /\ exists body,
             invoke w self m p = bind (emit (Enter (method_name m) p)) body)
  /\ (forall name engine,
         In (t, name, engine)
            [ ("pymupdf", "_parse_with_pymupdf", _parse_with_pymupdf w self);
              ("pymupdf4llm", "_parse_with_pymupdf4llm",
               _parse_with_pymupdf4llm w self);
              ("docling", "_parse_with_docling", _parse_with_docling w self);
              ("unstructured", "_parse_with_unstructured",
               _parse_with_unstructured w self);
              ("pdfplumber", "_parse_with_pdfplumber",
               _parse_with_pdfplumber w self);
              ("python-docx", "_parse_word", _parse_word w);
              ("python-pptx", "_parse_powerpoint", _parse_powerpoint w);
              ("openpyxl", "_parse_excel", _parse_excel w);
              ("tesseract_ocr", "_parse_with_tesseract",
               _parse_with_tesseract w self);
              ("easyocr", "_parse_with_easyocr", _parse_with_easyocr w self) ] ->
         parse w self document_path s
         = completed w p
             (engine p (s ++ [Info ("Parsing " ++ p ++ " using " ++ name)])%list))
  /\ (dict_get method_map t = None ->
      parse w self document_path s
      = (Raise (ValueError ("Unknown tool: " ++ t)), s))
  /\ dict_get method_map "pdfplumber" = Some M_pdfplumber.
Proof.
  intros Htool Ht Hloc.
  pose proof (locate_keeps_log _ _ _ _ _ Hloc) as Hs.
  assert (Hsel : forall m doc_type,
             dict_get method_map t = Some m ->
             select_parser w self doc_type p s1 = (Ok m, s1)).
  { intros m doc_type Hm. unfold select_parser, _get_parser_method.
    now rewrite Htool, Ht, Hm. }
  split; [assumption|]. split; [|split; [|split; [|reflexivity]]].
  - intros m Hm. split; [intros doc_type; now apply Hsel|].
    split; [|apply invoke_enters].
    apply parse_with_method; [assumption | now apply Hsel].
  - intros name engine Hin. subst s1.
    assert (Hrun : forall m,
               dict_get method_map t = Some m ->
               parse w self document_path s
               = completed w p
                   (invoke w self m p
                      (s ++ [Info ("Parsing " ++ p ++ " using " ++ method_name m)])%list))
      by (intros m Hm; apply parse_with_method; [exact Hloc | now apply Hsel]).
    destruct Hin as [Hin | Hin]; [injection Hin as <- <- <-; exact (Hrun M_pymupdf eq_refl)|].
    destruct Hin as [Hin | Hin]; [injection Hin as <- <- <-; exact (Hrun M_pymupdf4llm eq_refl)|].
    destruct Hin as [Hin | Hin]; [injection Hin as <- <- <-; exact (Hrun M_docling eq_refl)|].
    destruct Hin as [Hin | Hin]; [injection Hin as <- <- <-; exact (Hrun M_unstructured eq_refl)|].
    destruct Hin as [Hin | Hin]; [injection Hin as <- <- <-; exact (Hrun M_pdfplumber eq_refl)|].
    destruct Hin as [Hin | Hin]; [injection Hin as <- <- <-; exact (Hrun M_word eq_refl)|].
    destruct Hin as [Hin | Hin]; [injection Hin as <- <- <-; exact (Hrun M_powerpoint eq_refl)|].
    destruct Hin as [Hin | Hin]; [injection Hin as <- <- <-; exact (Hrun M_excel eq_refl)|].
    destruct Hin as [Hin | Hin]; [injection Hin as <- <- <-; exact (Hrun M_tesseract eq_refl)|].
    destruct Hin as [Hin | Hin]; [injection Hin as <- <- <-; exact (Hrun M_easyocr eq_refl)|].
    destruct Hin.
  - intros Hnone. rewrite (parse_after_locate _ _ _ _ _ _ Hloc).
    apply bind_run_raise. unfold select_parser, _get_parser_method.
    now rewrite Htool, Ht, Hnone, Hs.
Qed.

(** The theorem on a parser told to use pdfplumber, on a PDF whose pages
    the scan detection would call scanned: the pdfplumber method runs. *)
Lemma explicit_tool_is_obeyed_witness :
  parse Samples.short_pdf (Samples.parser_with (Some "pdfplumber") true)
        "short.pdf" []
  = completed Samples.short_pdf "short.pdf"
      (_parse_with_pdfplumber Samples.short_pdf
         (Samples.parser_with (Some "pdfplumber") true) "short.pdf"
         [Info "Parsing short.pdf using _parse_with_pdfplumber"]).
Proof.
  refine (proj1 (proj2 (proj2
            (explicit_tool_is_obeyed Samples.short_pdf
               (Samples.parser_with (Some "pdfplumber") true)
               "pdfplumber" "short.pdf" "short.pdf" [] []
               eq_refl eq_refl eq_refl)))
            "_parse_with_pdfplumber" _ _).
  do 4 right. left. reflexivity.
Defined.

(** C4, as it is written, fails when the fallback fails too: nothing
    catches what the PyMuPDF engine raises.  Here docling raises during
    the conversion and fitz cannot open the file: [parse] logs the failure
    of docling, enters the PyMuPDF engine and raises its exception; no
    document is returned. *)
Theorem failed_fallback_is_raised :
  parse (MoreSamples.crashing_docling
           (Raise (OtherError "cannot open broken document")))
        (Samples.parser_with (Some "docling") false) "broken.pdf" []
  = (Raise (OtherError "cannot open broken document"),
     [Info "Parsing broken.pdf using _parse_with_docling";
      Enter "_parse_with_docling" "broken.pdf";
      Error "Docling failed, falling back to PyMuPDF";
      Enter "_parse_with_pymupdf" "broken.pdf"]).
Proof. reflexivity. Qed.

(** C4.  Take a parse call whose tool is ["docling"] and whose document is
    found at [p], and suppose the [try] block of the Docling engine raises
    an exception [e].  Then [parse] does not raise [e]: a record is logged
    and the PyMuPDF engine is run on [p], and the outcome of [parse] is the
    outcome of that run.  When it is a document, [parse] returns it, with
    the same content and pages and with [tool_used] equal to ["PyMuPDF"];
    when the PyMuPDF engine raises, [parse] raises the same exception. *)
Theorem docling_failure_falls_back (w : World) (self : DocumentParser)
        (document_path p : string) (s s1 s2 : list event) (e : exn) :
  tool self = Some "docling" ->
  locate w document_path s = (Ok p, s1) ->
  _parse_with_docling_try w p
    (s1 ++ [Info ("Parsing " ++ p ++ " using _parse_with_docling")]
        ++ [Enter "_parse_with_docling" p])%list = (Raise e, s2) ->
  let record := if is_import_error e
                then Warning "Docling not available, falling back to PyMuPDF"
                else Error "Docling failed, falling back to PyMuPDF" in
  let fallback := _parse_with_pymupdf w self p (s2 ++ [record])%list in
  parse w self document_path s = completed w p fallback
  /\ (forall d l,
         fallback = (Ok d, l) ->
         exists d',
           parse w self document_path s = (Ok d', l)
           /\ tool_used d' = "PyMuPDF"
           /\ content d' = content d
           /\ pages d' = pages d)
  /\ (forall e' l,
         fallback = (Raise e', l) ->
         parse w self document_path s = (Raise e', l)).
Proof.
  intros Htool Hloc Htry record fallback.
  assert (Hparse : parse w self document_path s = completed w p fallback).
  { rewrite (parse_with_method w self document_path p s s1 M_docling Hloc)
      by (unfold select_parser; now rewrite Htool).
    f_equal. cbn [invoke method_name]. unfold _parse_with_docling.
    unfold bind at 1, emit at 1. rewrite <- app_assoc.
    change (" using " ++ "_parse_with_docling") with " using _parse_with_docling".
    unfold try_except. rewrite Htry.
    unfold fallback, record.
    destruct (is_import_error e); unfold bind at 1, emit at 1; reflexivity. }
  split; [exact Hparse|]. split.
  - intros d l Hd. rewrite Hparse, Hd. cbn [completed].
    eexists; split; [reflexivity|].
    unfold fallback in Hd. apply EngineProps.pymupdf_paged in Hd as [_ Htu].
    cbn [add_file_metadata tool_used content pages]. now repeat split.
  - intros e' l He. rewrite Hparse, He. reflexivity.
Qed.

(** The theorem on a machine where docling raises during the conversion
    and fitz opens the file: the failure is logged as an error and the
    document of PyMuPDF comes back. *)
Lemma docling_failure_falls_back_witness :
  exists d',
    parse (MoreSamples.crashing_docling (Ok [Samples.fitz_page "hello" []]))
          (Samples.parser_with (Some "docling") false) "short.pdf" []
    = (Ok d',
       [Info "Parsing short.pdf using _parse_with_docling";
        Enter "_parse_with_docling" "short.pdf";
        Error "Docling failed, falling back to PyMuPDF";
        Enter "_parse_with_pymupdf" "short.pdf"])
    /\ tool_used d' = "PyMuPDF".
Proof.
  destruct (docling_failure_falls_back
              (MoreSamples.crashing_docling (Ok [Samples.fitz_page "hello" []]))
              (Samples.parser_with (Some "docling") false)
              "short.pdf" "short.pdf" [] []
              [Info "Parsing short.pdf using _parse_with_docling";
               Enter "_parse_with_docling" "short.pdf"]
              (OtherError "tensor padding error")
              eq_refl eq_refl eq_refl) as (_ & H & _).
  destruct (H _ _ eq_refl) as (d' & Hp & Htu & _).
  exists d'. split; [exact Hp | exact Htu].
Defined.

End SelectorProps.

(* ====================================================================== *)
(** ** Further properties of text cleaning and chunking *)
(* ====================================================================== *)

Module CleanTextProps.
Import PyStr PyStrFacts App Notions TextNotions.

Lemma runs_below_lt (cls : ascii -> bool) (k : nat) (s : string) :
  forall r, runs_below cls k r s -> (r < k)%nat.
Proof.
  induction s as [|c s IH]; intros r H; cbn [runs_below] in H; [exact H|].
  destruct (cls c); [apply IH in H; lia | tauto].
Qed.

Lemma runs_below_anti (cls : ascii -> bool) (k : nat) (s : string) :
  forall r r', (r' <= r)%nat -> runs_below cls k r s -> runs_below cls k r' s.
Proof.
  induction s as [|c s IH]; intros r r' Hr H; cbn [runs_below] in *; [lia|].
  destruct (cls c).
  - apply (IH (S r)); [lia | exact H].
  - split; [lia | tauto].
Qed.

Lemma str_all_append (P : ascii -> bool) (a b : string) :
  str_all P (a ++ b) = str_all P a && str_all P b.
Proof.
  induction a as [|c a IH]; cbn [append str_all]; [reflexivity|].
  now rewrite IH, andb_assoc.
Qed.

(** A string whose runs are short is left alone by the substitution. *)
Lemma re_sub_run_fixed (cls : ascii -> bool) (k : nat) (repl : string) (s : string) :
  forall run,
    runs_below cls k (String.length run) s ->
    re_sub_run cls k repl run s = run ++ s.
Proof.
  induction s as [|c s IH]; intros run H; cbn [re_sub_run runs_below] in *.
  - unfold emit_run. rewrite append_empty_r.
    destruct (k <=? String.length run)%nat eqn:E; [apply Nat.leb_le in E; lia|].
    reflexivity.
  - destruct (cls c).
    + rewrite IH; [now rewrite append_assoc|].
      rewrite length_append. cbn. now rewrite Nat.add_1_r.
    + destruct H as [Hr H]. unfold emit_run.
      destruct (k <=? String.length run)%nat eqn:E; [apply Nat.leb_le in E; lia|].
      now rewrite (IH "" H).
Qed.

Lemma runs_below_after_class (cls : ascii -> bool) (k : nat) (e x : string) :
  forall r,
    str_all cls e = true -> (r + String.length e < k)%nat ->
    fresh_start cls k x ->
    runs_below cls k r (e ++ x).
Proof.
  induction e as [|c e IH]; intros r He Hlen Hx; cbn [append].
  - destruct x as [|c x]; cbn [runs_below]; [simpl in Hlen; lia|].
    destruct Hx as [-> Hx]. split; [simpl in Hlen; lia | exact Hx].
  - cbn [str_all] in He. apply andb_true_iff in He as [Hc He].
    cbn [runs_below]. rewrite Hc. apply IH; [assumption | simpl in Hlen; lia | assumption].
Qed.

Lemma emit_run_short (cls : ascii -> bool) (k : nat) (repl run : string) :
  str_all cls repl = true -> (String.length repl < k)%nat ->
  str_all cls run = true ->
  str_all cls (emit_run k repl run) = true
  /\ (String.length (emit_run k repl run) < k)%nat.
Proof.
  intros Hrepl Hlen Hrun. unfold emit_run.
  destruct (k <=? String.length run)%nat eqn:E; [now split|].
  apply Nat.leb_gt in E. now split.
Qed.

(** What the substitution returns has only short runs. *)
Lemma re_sub_run_short_runs (cls : ascii -> bool) (k : nat) (repl : string)
      (s : string) :
  str_all cls repl = true -> (String.length repl < k)%nat ->
  forall run,
    str_all cls run = true ->
    runs_below cls k 0 (re_sub_run cls k repl run s).
Proof.
  intros Hrepl Hlen. induction s as [|c s IH]; intros run Hrun; cbn [re_sub_run].
  - destruct (emit_run_short cls k repl run Hrepl Hlen Hrun) as [Ha Hl].
    rewrite <- (append_empty_r (emit_run k repl run)).
    apply runs_below_after_class; [assumption | lia | exact I].
  - destruct (cls c) eqn:Hc.
    + apply IH. rewrite str_all_append, Hrun. cbn. now rewrite Hc.
    + destruct (emit_run_short cls k repl run Hrepl Hlen Hrun) as [Ha Hl].
      apply runs_below_after_class; [assumption | lia |].
      split; [exact Hc | now apply IH].
Qed.

(** In front of a string, a non-empty stretch outside the class only asks
    that the run so far be short. *)
Lemma runs_below_skip (cls : ascii -> bool) (k : nat) (e x : string) :
  forall r,
    e <> "" -> str_all (fun c => negb (cls c)) e = true ->
    (runs_below cls k r (e ++ x) <-> (r < k)%nat /\ runs_below cls k 0 x).
Proof.
  induction e as [|c e IH]; intros r Hne He; [congruence|].
  cbn [str_all] in He. apply andb_true_iff in He as [Hc He].
  apply negb_true_iff in Hc. cbn [append runs_below]. rewrite Hc.
  destruct e as [|d e].
  - cbn [append]. tauto.
  - rewrite (IH 0%nat ltac:(discriminate) He). split.
    + intros (Hr & _ & H). now split.
    + intros (Hr & H). repeat split; [assumption | lia | assumption].
Qed.

(** A substitution on one class keeps the runs of a disjoint class short. *)
Lemma re_sub_run_keeps_other (cls other : ascii -> bool) (k ko : nat)
      (repl : string) (s : string) :
  (forall c, cls c = true -> other c = false) ->
  repl <> "" -> str_all (fun c => negb (other c)) repl = true ->
  (1 <= k)%nat ->
  forall run r,
    str_all cls run = true ->
    runs_below other ko r (run ++ s) ->
    runs_below other ko r (re_sub_run cls k repl run s).
Proof.
  intros Hdis Hne Hrepl Hk.
  assert (Hout : forall run, str_all cls run = true ->
                             str_all (fun c => negb (other c)) run = true).
  { induction run as [|c run IH]; cbn [str_all]; [reflexivity|].
    intros H. apply andb_true_iff in H as [Hc H].
    now rewrite (Hdis c Hc), IH. }
  assert (Hemit : forall run x r,
             str_all cls run = true ->
             runs_below other ko r (run ++ x) ->
             runs_below other ko r (emit_run k repl run ++ x)).
  { intros run x r Hrun H. unfold emit_run.
    destruct (k <=? String.length run)%nat eqn:E; [|exact H].
    apply Nat.leb_le in E.
    assert (run <> "") by (destruct run; [simpl in E; lia | discriminate]).
    apply (runs_below_skip other ko run x r) in H; [|assumption | now apply Hout].
    now apply runs_below_skip. }
  induction s as [|c s IH]; intros run r Hrun H; cbn [re_sub_run].
  - rewrite <- (append_empty_r (emit_run k repl run)). now apply Hemit.
  - destruct (cls c) eqn:Hc.
    + apply IH; [rewrite str_all_append, Hrun; cbn; now rewrite Hc|].
      now rewrite append_assoc.
    + apply Hemit; [assumption|].
      destruct run as [|d run].
      * cbn [append runs_below] in *.
        destruct (other c); [now apply (IH "") | split; [tauto | now apply (IH "")]].
      * apply (runs_below_skip other ko (String d run) (String c s) r) in H;
          [|discriminate | now apply Hout].
        apply runs_below_skip; [discriminate | now apply Hout|].
        destruct H as [Hr H]. split; [assumption|].
        cbn [runs_below] in *.
        destruct (other c); [now apply (IH "") | split; [tauto | now apply (IH "")]].
Qed.

Lemma lstrip_short_runs (cls : ascii -> bool) (k : nat) (s : string) :
  runs_below cls k 0 s -> runs_below cls k 0 (lstrip s).
Proof.
  induction s as [|c s IH]; intros H; cbn [lstrip]; [exact H|].
  destruct (is_space c); [|exact H].
  apply IH. cbn [runs_below] in H.
  destruct (cls c); [apply (runs_below_anti cls k s 1 0); [lia | exact H] | tauto].
Qed.

Lemma rstrip_short_runs (cls : ascii -> bool) (k : nat) (s : string) :
  forall r, runs_below cls k r s -> runs_below cls k r (rstrip s).
Proof.
  induction s as [|c s IH]; intros r H; cbn [rstrip]; [exact H|].
  cbn [runs_below] in H.
  destruct (rstrip s) as [|d t] eqn:E.
  - destruct (is_space c); cbn [runs_below].
    + destruct (cls c); [apply runs_below_lt in H; lia | tauto].
    + destruct (cls c); [apply (IH (S r)) in H; exact H | split; [tauto|]].
      apply (IH 0%nat). tauto.
  - cbn [runs_below]. destruct (cls c); [now apply IH | split; [tauto | apply IH; tauto]].
Qed.

Lemma lstrip_all (P : ascii -> bool) (s : string) :
  str_all P s = true -> str_all P (lstrip s) = true.
Proof.
  induction s as [|c s IH]; intros H; cbn [lstrip]; [exact H|].
  destruct (is_space c); [|exact H].
  cbn [str_all] in H. apply andb_true_iff in H as [_ H]. now apply IH.
Qed.

Lemma rstrip_all (P : ascii -> bool) (s : string) :
  str_all P s = true -> str_all P (rstrip s) = true.
Proof.
  induction s as [|c s IH]; intros H; cbn [rstrip]; [exact H|].
  cbn [str_all] in H. apply andb_true_iff in H as [Hc H]. specialize (IH H).
  destruct (rstrip s); [destruct (is_space c)|]; cbn [str_all] in *;
    try reflexivity; now rewrite Hc.
Qed.

Lemma re_sub_run_all (P cls : ascii -> bool) (k : nat) (repl : string) (s : string) :
  str_all P repl = true ->
  forall run, str_all P run = true -> str_all P s = true ->
              str_all P (re_sub_run cls k repl run s) = true.
Proof.
  intros Hrepl. induction s as [|c s IH]; intros run Hrun Hs; cbn [re_sub_run].
  - unfold emit_run. now destruct (k <=? String.length run)%nat.
  - cbn [str_all] in Hs. apply andb_true_iff in Hs as [Hc Hs].
    destruct (cls c).
    + apply IH; [|assumption]. rewrite str_all_append, Hrun. cbn. now rewrite Hc.
    + rewrite str_all_append. cbn [str_all]. rewrite Hc, (IH "" eq_refl Hs).
      unfold emit_run. destruct (k <=? String.length run)%nat;
        [now rewrite Hrepl | now rewrite Hrun].
Qed.

Lemma replace_cr_all (s : string) : str_all not_cr (replace_char CR LF s) = true.
Proof.
  induction s as [|c s IH]; cbn [replace_char str_all]; [reflexivity|].
  rewrite IH, andb_true_r. unfold not_cr.
  destruct (Ascii.eqb c CR) eqn:E; [reflexivity | now rewrite E].
Qed.

Lemma replace_cr_fixed (s : string) :
  str_all not_cr s = true -> replace_char CR LF s = s.
Proof.
  induction s as [|c s IH]; cbn [replace_char str_all]; [reflexivity|].
  intros H. apply andb_true_iff in H as [Hc H]. rewrite (IH H).
  unfold not_cr in Hc. apply negb_true_iff in Hc. now rewrite Hc.
Qed.

(** The four marks of a cleaned text. *)
Lemma clean_text_marks (s : string) :
  str_all not_cr (_clean_text s) = true
  /\ runs_below is_newline 3 0 (_clean_text s)
  /\ runs_below is_blank 2 0 (_clean_text s)
  /\ strip (_clean_text s) = _clean_text s.
Proof.
  assert (Hdis : forall c, is_blank c = true -> is_newline c = false).
  { intros c. unfold is_blank, is_newline. intros H.
    apply orb_true_iff in H as [H | H]; apply Ascii.eqb_eq in H; now subst. }
  unfold _clean_text, strip. repeat split.
  - apply rstrip_all, lstrip_all.
    apply re_sub_run_all; [reflexivity | reflexivity|].
    apply re_sub_run_all; [reflexivity | reflexivity | apply replace_cr_all].
  - apply rstrip_short_runs, lstrip_short_runs.
    apply (re_sub_run_keeps_other is_blank is_newline 2 3 " ");
      [exact Hdis | discriminate | reflexivity | lia | reflexivity|].
    cbn [append]. apply re_sub_run_short_runs; [reflexivity | simpl; lia | reflexivity].
  - apply rstrip_short_runs, lstrip_short_runs.
    apply re_sub_run_short_runs; [reflexivity | simpl; lia | reflexivity].
  - apply strip_idempotent.
Qed.

Lemma runs_below_no_run (cls : ascii -> bool) (k : nat) (e b : string) (a : string) :
  str_all cls e = true -> (k <= String.length e)%nat ->
  forall r, ~ runs_below cls k r (a ++ e ++ b).
Proof.
  intros He Hk.
  assert (Hrun : forall e r b, str_all cls e = true ->
                               runs_below cls k r (e ++ b) ->
                               (r + String.length e < k)%nat).
  { clear. induction e as [|c e IH]; intros r b He H; cbn [append] in H.
    - apply runs_below_lt in H. simpl. lia.
    - cbn [str_all] in He. apply andb_true_iff in He as [Hc He].
      cbn [runs_below] in H. rewrite Hc in H. apply IH in H; [|assumption].
      simpl. lia. }
  induction a as [|c a IH]; intros r H; cbn [append] in H.
  - apply Hrun in H; [lia | assumption].
  - cbn [runs_below] in H. destruct (cls c); [now apply IH in H|].
    destruct H as [_ H]. now apply IH in H.
Qed.

Lemma str_all_no_char (P : ascii -> bool) (c : ascii) (a b : string) :
  P c = false -> str_all P (a ++ String c b) = false.
Proof.
  intros Hc. rewrite str_all_append. cbn [str_all]. rewrite Hc.
  now rewrite andb_false_r.
Qed.

(** X1.  A cleaned text has no white space at either end, no carriage
    return, no three newlines in a row and no two blanks (spaces or
    tabs) in a row. *)
Theorem clean_text_normal_form (s : string) :
  strip (_clean_text s) = _clean_text s
  /\ (forall a b, _clean_text s <> a ++ String CR b)
  /\ (forall a b, _clean_text s <> a ++ nl ++ nl ++ nl ++ b)
  /\ (forall a b c1 c2,
         is_blank c1 = true -> is_blank c2 = true ->
         _clean_text s <> a ++ String c1 (String c2 b)).
Proof.
  destruct (clean_text_marks s) as (Hcr & Hnl & Hbl & Hst).
  split; [exact Hst|]. split; [|split].
  - intros a b E. rewrite E in Hcr.
    rewrite (str_all_no_char not_cr CR a b eq_refl) in Hcr. discriminate.
  - intros a b E. rewrite E in Hnl.
    apply (runs_below_no_run is_newline 3 (nl ++ nl ++ nl) b a eq_refl
                             ltac:(simpl; lia) 0%nat).
    now rewrite !append_assoc in *.
  - intros a b c1 c2 H1 H2 E. rewrite E in Hbl.
    apply (runs_below_no_run is_blank 2 (String c1 (String c2 "")) b a
                             ltac:(cbn; now rewrite H1, H2) ltac:(simpl; lia) 0%nat).
    exact Hbl.
Qed.

(** A text with the four marks is its own cleaning. *)
Lemma marked_text_is_clean (t : string) :
  str_all not_cr t = true ->
  runs_below is_newline 3 0 t ->
  runs_below is_blank 2 0 t ->
  strip t = t ->
  _clean_text t = t.
Proof.
  intros Hcr Hnl Hbl Hst.
  unfold _clean_text. rewrite (replace_cr_fixed t Hcr).
  unfold re_sub_class.
  rewrite (re_sub_run_fixed is_newline 3 nlnl t "" Hnl). cbn [append].
  rewrite (re_sub_run_fixed is_blank 2 " " t "" Hbl). cbn [append].
  exact Hst.
Qed.

(** X2.  Cleaning a cleaned text changes nothing: the second cleaning that
    [chunk_text] gives the page texts [build_rag_json] has cleaned is
    harmless. *)
Theorem clean_text_idempotent (s : string) :
  _clean_text (_clean_text s) = _clean_text s.
Proof.
  destruct (clean_text_marks s) as (Hcr & Hnl & Hbl & Hst).
  now apply marked_text_is_clean.
Qed.

End CleanTextProps.

Module ChunkMoreProps.
Import PyStr PyStrFacts App Notions TextNotions ChunkerProps CleanTextProps.

Lemma len_slice_le (s : string) (a b : Z) :
  0 <= a -> 0 <= b -> len (slice s a b) <= Z.max 0 (b - a).
Proof.
  intros Ha Hb. unfold slice, slice_bound.
  destruct (a <? 0) eqn:Ea; [apply Z.ltb_lt in Ea; lia|].
  destruct (b <? 0) eqn:Eb; [apply Z.ltb_lt in Eb; lia|].
  unfold len. rewrite length_take, length_drop. lia.
Qed.

(** Where a pass ends when [max_chars] is not negative: at most
    [max_chars] characters after its start. *)
Lemma chunk_body_within (t : string) (mc start : Z) :
  0 <= mc -> 0 <= start < len t ->
  0 <= fst (chunk_body t mc start) <= start + mc
  /\ fst (chunk_body t mc start) <= len t.
Proof.
  intros Hmc Hs. unfold chunk_body.
  destruct (Z.min (len t) (start + mc) <? len t) eqn:E.
  - apply Z.ltb_lt in E.
    assert (Hend : Z.min (len t) (start + mc) = start + mc) by lia.
    rewrite Hend in *.
    pose proof (rfind_le (slice t start (start + mc)) nlnl) as Hcut.
    rewrite len_slice in Hcut by lia.
    destruct (mc <? 2 * rfind (slice t start (start + mc)) nlnl) eqn:C; cbn [fst].
    + apply Z.ltb_lt in C. lia.
    + lia.
  - apply Z.ltb_ge in E. cbn [fst]. lia.
Qed.

Lemma windows_within (t : string) (mc ov : Z) :
  0 <= mc ->
  forall (fuel : nat) (start : Z) (wins : list (Z * Z)),
    0 <= start ->
    chunk_windows fuel t mc ov start = Some wins ->
    Forall (fun win => 0 <= fst win /\ 0 <= snd win /\ snd win - fst win <= mc) wins.
Proof.
  intros Hmc. induction fuel as [|fuel IH]; intros start wins Hs H; [discriminate|].
  cbn [chunk_windows] in H.
  destruct (start <? len t) eqn:E; [|injection H as <-; constructor].
  apply Z.ltb_lt in E.
  destruct (chunk_body_within t mc start Hmc ltac:(lia)) as [He _].
  destruct (fst (chunk_body t mc start) =? len t).
  - injection H as <-. constructor; [cbn; lia | constructor].
  - destruct (chunk_windows fuel t mc ov _) as [rest|] eqn:R; [|discriminate].
    injection H as <-. constructor; [cbn; lia|].
    eapply IH; [|exact R]. lia.
Qed.

(** X3.  For [max_chars >= 0], every chunk [chunk_text] returns is not
    empty, has no white space at either end and is at most [max_chars]
    characters long. *)
Theorem chunks_are_bounded (text : string) (mc ov : Z) (fuel : nat)
        (chunks : list string) :
  0 <= mc ->
  chunk_text fuel text mc ov = Some chunks ->
  forall c, In c chunks -> c <> "" /\ strip c = c /\ len c <= mc.
Proof.
  intros Hmc H c Hc. unfold chunk_text in H.
  destruct (negb (truthy (_clean_text text))); [injection H as <-; contradiction|].
  rewrite chunk_loop_windows in H.
  destruct (chunk_windows fuel (_clean_text text) mc ov 0) as [wins|] eqn:W;
    [|discriminate].
  cbn [option_map app] in H. injection H as <-.
  apply filter_In in Hc as [Hc Ht]. apply truthy_true in Ht.
  apply in_map_iff in Hc as (win & <- & Hw).
  pose proof (proj1 (Forall_forall _ _)
                    (windows_within _ mc ov Hmc fuel 0 wins ltac:(lia) W) win Hw)
    as (Ha & Hb & Hab).
  unfold window_chunk in *. repeat split; [assumption | apply strip_idempotent|].
  pose proof (length_strip (slice (_clean_text text) (fst win) (snd win))) as L.
  pose proof (len_slice_le (_clean_text text) (fst win) (snd win) Ha Hb) as S.
  unfold len in *. lia.
Qed.

(** The theorem on a short text cut in pieces of ten characters. *)
Lemma chunks_are_bounded_witness :
  chunk_text 10 "hello world foo bar" 10 2 = Some ["hello worl"; "rld foo ba"; "bar"]
  /\ Forall (fun c => c <> "" /\ strip c = c /\ len c <= 10)
            ["hello worl"; "rld foo ba"; "bar"].
Proof.
  split; [reflexivity|]. apply Forall_forall.
  exact (chunks_are_bounded "hello world foo bar" 10 2 10
           ["hello worl"; "rld foo ba"; "bar"] ltac:(lia) eq_refl).
Defined.

(** X4.  When [overlap] is at least [max_chars > 0] and the cleaned text is
    longer than [max_chars], every pass of the loop starts again at 0:
    [chunk_text] returns for no number of passes. *)
Theorem overlap_not_below_max_chars_never_returns (text : string) (mc ov : Z) :
  0 < mc <= ov -> mc < len (_clean_text text) ->
  forall fuel, chunk_text fuel text mc ov = None.
Proof.
  intros Hmc Hlen fuel. unfold chunk_text.
  assert (T : truthy (_clean_text text) = true).
  { destruct (_clean_text text); [unfold len in Hlen; simpl in Hlen; lia | reflexivity]. }
  rewrite T. cbn [negb].
  assert (Hloop : forall acc, chunk_loop fuel (_clean_text text) mc ov 0 acc = None).
  { induction fuel as [|fuel IH]; intros acc; [reflexivity|].
    cbn [chunk_loop].
    assert (E : (0 <? len (_clean_text text)) = true) by (apply Z.ltb_lt; lia).
    rewrite E.
    pose proof (chunk_body_within (_clean_text text) mc 0 ltac:(lia) ltac:(lia))
      as [He _].
    destruct (chunk_body (_clean_text text) mc 0) as [e c]. cbn [fst] in He.
    assert (N : (e =? len (_clean_text text)) = false) by (apply Z.eqb_neq; lia).
    rewrite N.
    assert (Z0 : Z.max 0 (e - ov) = 0) by lia. rewrite Z0. apply IH. }
  now rewrite Hloop.
Qed.

(** The theorem on a text of three words, with both parameters 5. *)
Lemma overlap_not_below_max_chars_never_returns_witness :
  chunk_text 1000 "hello world foo" 5 5 = None.
Proof.
  exact (overlap_not_below_max_chars_never_returns "hello world foo" 5 5
           ltac:(lia) ltac:(vm_compute; reflexivity) 1000%nat).
Defined.

Lemma hex_digit_is_hex (d : Z) : 0 <= d < 16 -> is_hex_lower (Sha1.hex_digit d) = true.
Proof.
  intros H.
  assert (E : d = 0 \/ d = 1 \/ d = 2 \/ d = 3 \/ d = 4 \/ d = 5 \/ d = 6 \/ d = 7
              \/ d = 8 \/ d = 9 \/ d = 10 \/ d = 11 \/ d = 12 \/ d = 13
              \/ d = 14 \/ d = 15) by lia.
  repeat (destruct E as [-> | E]; [reflexivity|]). now subst.
Qed.

Lemma hex_of_is_hex (k : nat) :
  forall x acc, str_all is_hex_lower acc = true ->
                str_all is_hex_lower (Sha1.hex_of k x acc) = true.
Proof.
  induction k as [|k IH]; intros x acc H; cbn [Sha1.hex_of]; [exact H|].
  apply IH. cbn [str_all]. rewrite H, andb_true_r.
  apply hex_digit_is_hex. apply Z.mod_pos_bound. lia.
Qed.

Lemma take_all_chars (P : ascii -> bool) (n : nat) :
  forall s, str_all P s = true -> str_all P (take n s) = true.
Proof.
  induction n as [|n IH]; intros [|c s] H; cbn [take str_all] in *; try reflexivity.
  apply andb_true_iff in H as [Hc H]. now rewrite Hc, IH.
Qed.

(** X5.  For parts made of code points below 256, as every string here
    is (they always encode to UTF-8, so the call returns), [_stable_id]
    returns 16 characters, each a decimal digit or a letter from a to
    f. *)
Theorem stable_id_is_sixteen_hex_digits (parts : list string) :
  String.length (_stable_id parts) = 16%nat
  /\ str_all is_hex_lower (_stable_id parts) = true.
Proof.
  unfold _stable_id. split.
  - rewrite length_take, RagProps.length_hexdigest. reflexivity.
  - apply take_all_chars. unfold Sha1.hexdigest.
    destruct (Sha1.blocks _ _ _) as [[[[h0 h1] h2] h3] h4].
    repeat apply hex_of_is_hex. reflexivity.
Qed.

(** X6.  [_stable_id] sees its parts only through their join: a vertical
    bar inside a part is not told from the bar between two parts, so
    [a, b, ...] and [a|b, ...] get the same id. *)
Theorem stable_id_joins_parts (a b : string) (rest : list string) :
  _stable_id (a :: b :: rest) = _stable_id ((a ++ "|" ++ b) :: rest).
Proof.
  unfold _stable_id. do 3 f_equal.
  destruct rest as [|c rest]; cbn [join]; [reflexivity|].
  now rewrite !append_assoc.
Qed.

Lemma chunk_text_of_clean (fuel : nat) (x : string) (cs ov : Z) :
  chunk_text fuel (_clean_text x) cs ov = chunk_text fuel x cs ov.
Proof.
  unfold chunk_text.
  destruct (clean_text_marks x) as (Hcr & Hnl & Hbl & Hst).
  now rewrite (marked_text_is_clean _ Hcr Hnl Hbl Hst).
Qed.

Lemma page_entries_views (fuel : nat) (fn ft tu : string) (cs ov : Z)
      (p : Model.Page) (entries : list Chunk) :
  page_entries fuel fn ft tu cs ov p = Some entries ->
  exists chs,
    chunk_text fuel (Model.page_content p) cs ov = Some chs
    /\ map chunk_view entries = views_of (Some (Model.page_number p)) chs.
Proof.
  unfold page_entries. rewrite chunk_text_of_clean.
  destruct (negb (truthy (_clean_text (Model.page_content p)))) eqn:T.
  - intros H; injection H as <-. exists []. split; [|reflexivity].
    unfold chunk_text. now rewrite T.
  - destruct (chunk_text fuel (Model.page_content p) cs ov) as [chs|]; [|discriminate].
    intros H; injection H as <-. exists chs. split; [reflexivity|].
    unfold views_of. rewrite map_map. apply map_ext. now intros [i ch].
Qed.

Lemma pages_entries_views (fuel : nat) (fn ft tu : string) (cs ov : Z)
      (ps : list Model.Page) :
  forall entries,
    pages_entries fuel fn ft tu cs ov ps = Some entries ->
    exists per_page,
      Forall2 (fun p chs => chunk_text fuel (Model.page_content p) cs ov = Some chs)
              ps per_page
      /\ map chunk_view entries = pages_views ps per_page.
Proof.
  induction ps as [|p ps IH]; intros entries H; cbn [pages_entries] in H.
  - injection H as <-. exists []. split; [constructor | reflexivity].
  - destruct (page_entries fuel fn ft tu cs ov p) as [here|] eqn:E; [|discriminate].
    destruct (pages_entries fuel fn ft tu cs ov ps) as [rest|]; [|discriminate].
    injection H as <-.
    destruct (page_entries_views _ _ _ _ _ _ _ _ E) as (chs & Hc & Hv).
    destruct (IH rest eq_refl) as (per_page & Hall & Hrest).
    exists (chs :: per_page). split; [now constructor|].
    cbn [pages_views]. now rewrite map_app, Hv, Hrest.
Qed.

(** X7.  The chunks of the export are the chunks of [chunk_text].  When the
    document has pages they are, page after page and whatever [content]
    holds, the chunks of each page's content, tagged with its page number
    and numbered from 0 within the page; a page whose text cleans to
    nothing adds none.  When it has no page they are the chunks of
    [content], numbered from 0, with no page. *)
Theorem rag_chunks_are_chunk_text (fuel : nat) (now : string)
        (results : Model.Document) (path : string) (cs ov : Z) (rag : Rag) :
  build_rag_json fuel now results path cs ov = Some rag ->
  match Model.pages results with
  | [] =>
      exists chs,
        chunk_text fuel (Model.content results) cs ov = Some chs
        /\ map chunk_view (rag_chunks rag) = views_of None chs
  | _ :: _ =>
      exists per_page,
        Forall2 (fun p chs => chunk_text fuel (Model.page_content p) cs ov = Some chs)
                (Model.pages results) per_page
        /\ map chunk_view (rag_chunks rag)
           = pages_views (Model.pages results) per_page
  end.
Proof.
  unfold build_rag_json.
  set (fn := or_else _ _).
  set (ft := match Model.file_type results with Some t => t | None => _ end).
  destruct (Model.pages results) as [|p ps] eqn:P.
  - unfold doc_entries. rewrite chunk_text_of_clean.
    destruct (chunk_text fuel (Model.content results) cs ov) as [chs|]; [|discriminate].
    intros H; injection H as <-. exists chs. split; [reflexivity|].
    cbn [rag_chunks]. unfold views_of. rewrite map_map. apply map_ext. now intros [i ch].
  - destruct (pages_entries fuel fn ft _ cs ov (p :: ps)) as [entries|] eqn:E;
      [|discriminate].
    intros H; injection H as <-. cbn [rag_chunks].
    now apply pages_entries_views in E.
Qed.

(** The theorem on the two-page sample document. *)
Lemma rag_chunks_are_chunk_text_witness :
  exists rag,
    build_rag_json 5 "2024-05-01T10:00:00" Samples.two_pages "" 900 120 = Some rag
    /\ map chunk_view (rag_chunks rag)
       = [(Some 1, 0, "first page"); (Some 2, 0, "second page")].
Proof.
  destruct (build_rag_json 5 "2024-05-01T10:00:00" Samples.two_pages "" 900 120)
    as [rag|] eqn:E; [|vm_compute in E; discriminate].
  exists rag. split; [reflexivity|].
  destruct (rag_chunks_are_chunk_text _ _ _ _ _ _ _ E) as (per_page & Hall & Hv).
  rewrite Hv. cbn [Samples.two_pages Model.pages] in *.
  inversion Hall as [|p1 c1 l1 l1' H1 Hall1]; subst.
  inversion Hall1 as [|p2 c2 l2 l2' H2 Hall2]; subst.
  inversion Hall2; subst.
  vm_compute in H1. vm_compute in H2.
  injection H1 as <-. injection H2 as <-. reflexivity.
Defined.

End ChunkMoreProps.

(* ====================================================================== *)
(** ** Further properties of the parser *)
(* ====================================================================== *)

Module ParseProps.
Import PyStr PyStrFacts Py Model Env Parsers Notions RunFacts ParserNotions
       SelectorProps EngineProps.
Local Open Scope py_scope.

(** X8.  For a path that is not a URL and does not exist, [parse] raises
    [FileNotFoundError] at once: whatever the tool asked for, known or
    not, nothing is logged and no engine is entered. *)
Theorem missing_file_is_reported_first (w : World) (self : DocumentParser)
        (path : string) (s : list event) :
  is_url path = false -> path_exists w path = false ->
  parse w self path s
  = (Raise (FileNotFoundError ("Document not found: " ++ path)), s).
Proof.
  intros Hurl Hex. unfold parse. apply bind_run_raise.
  unfold locate. unfold is_url in Hurl. rewrite Hurl.
  rewrite (bind_run_ok _ _ s path s) by reflexivity.
  now rewrite Hex.
Qed.

(** The theorem on a parser told to use a tool that does not exist. *)
Lemma missing_file_is_reported_first_witness :
  parse MoreSamples.nowhere (Samples.parser_with (Some "no-such-tool") true)
        "report.pdf" []
  = (Raise (FileNotFoundError "Document not found: report.pdf"), []).
Proof.
  exact (missing_file_is_reported_first MoreSamples.nowhere
           (Samples.parser_with (Some "no-such-tool") true) "report.pdf" []
           eq_refl eq_refl).
Defined.

Lemma locate_url (w : World) (url : string) (s : list event) :
  is_url url = true ->
  locate w url s
  = match http_get w url with
    | Raise e =>
        (Raise (OtherError ("Failed to download from URL: " ++ exn_str e)), s)
    | Ok body =>
        match write_temp w (temp_suffix url) body with
        | Raise e =>
            (Raise (OtherError ("Failed to download from URL: " ++ exn_str e)), s)
        | Ok tmp =>
            if negb (path_exists w tmp)
            then (Raise (FileNotFoundError ("Document not found: " ++ tmp)), s)
            else (Ok tmp, s)
        end
    end.
Proof.
  intros Hurl. unfold locate, is_url in *. rewrite Hurl.
  unfold bind, _download_from_url, try_except, bind, lift, temp_suffix.
  destruct (http_get w url) as [body|e]; [|reflexivity].
  destruct (write_temp w _ body) as [tmp|e]; [|reflexivity].
  destruct (negb (path_exists w tmp)); reflexivity.
Qed.

(** X9.  A URL is downloaded before anything else.  A failure of the
    request or of the temporary file is raised as an exception whose
    message is [Failed to download from URL: ] followed by the message of
    the cause; the file system is not asked about the URL.  When the
    download succeeds, into a temporary file whose suffix is that of the
    URL, or [.pdf] when the URL has none, [parse] goes on as if called on
    that file. *)
Theorem url_is_downloaded_first (w : World) (self : DocumentParser)
        (url : string) (s : list event) :
  is_url url = true ->
  (forall e,
      http_get w url = Raise e ->
      parse w self url s
      = (Raise (OtherError ("Failed to download from URL: " ++ exn_str e)), s))
  /\ (forall body e,
         http_get w url = Ok body ->
         write_temp w (temp_suffix url) body = Raise e ->
         parse w self url s
         = (Raise (OtherError ("Failed to download from URL: " ++ exn_str e)), s))
  /\ (forall body tmp,
         http_get w url = Ok body ->
         write_temp w (temp_suffix url) body = Ok tmp ->
         is_url tmp = false ->
         parse w self url s = parse w self tmp s).
Proof.
  intros Hurl. pose proof (locate_url w url s Hurl) as L.
  split; [|split].
  - intros e He. rewrite He in L. unfold parse. now apply bind_run_raise.
  - intros body e Hb He. rewrite Hb, He in L. unfold parse. now apply bind_run_raise.
  - intros body tmp Hb Ht Htmp. rewrite Hb, Ht in L.
    assert (L' : locate w tmp s
                 = if negb (path_exists w tmp)
                   then (Raise (FileNotFoundError ("Document not found: " ++ tmp)), s)
                   else (Ok tmp, s)).
    { unfold locate, is_url in *. rewrite Htmp.
      rewrite (bind_run_ok _ _ s tmp s) by reflexivity.
      destruct (negb (path_exists w tmp)); reflexivity. }
    unfold parse.
    match goal with
    | |- bind _ ?k s = _ => generalize k; intros cont
    end.
    unfold bind. now rewrite L, L'.
Qed.

(** The theorem on a machine without network. *)
Lemma url_is_downloaded_first_witness :
  parse MoreSamples.nowhere (Samples.parser_with None true)
        "https://example.org/report" []
  = (Raise (OtherError "Failed to download from URL: connection refused"), []).
Proof.
  exact (proj1 (url_is_downloaded_first MoreSamples.nowhere
                  (Samples.parser_with None true) "https://example.org/report" []
                  eq_refl)
               (OtherError "connection refused") eq_refl).
Defined.

Lemma document_type_values (ext : string) :
  In (_get_document_type ext) ("unknown" :: known_types).
Proof.
  unfold _get_document_type, SUPPORTED_EXTENSIONS. cbn [_get_document_type_in].
  repeat match goal with
         | |- context [if ?b then _ else _] => destruct b
         end; cbn; tauto.
Qed.

Lemma is_scanned_pdf_returns (w : World) (path : string) (s : list event) :
  exists b s', _is_scanned_pdf w path s = (Ok b, s').
Proof.
  unfold _is_scanned_pdf, try_except.
  destruct (_is_scanned_pdf_try w path s) as [[b|e] s1].
  - now exists b, s1.
  - eexists; eexists; reflexivity.
Qed.

(** The selection made without a tool, for a document type. *)
Lemma auto_select_cases (w : World) (self : DocumentParser)
      (doc_type path : string) (s : list event) :
  (In doc_type known_types ->
   exists m s', _auto_select_parser w self doc_type path s = (Ok m, s'))
  /\ (~ In doc_type known_types ->
      _auto_select_parser w self doc_type path s
      = (Raise (ValueError ("Unsupported document type: " ++ doc_type)), s)).
Proof.
  unfold _auto_select_parser, known_types. split.
  - intros [<- | [<- | [<- | [<- | [<- | []]]]]]; cbn;
      try (eexists; eexists; reflexivity).
    destruct (detect_scanned self); [|eexists; eexists; reflexivity].
    destruct (is_scanned_pdf_returns w path s) as (b & s' & Hb).
    rewrite (bind_run_ok _ _ _ _ _ Hb).
    destruct b; eexists; eexists; reflexivity.
  - intros Hn.
    repeat match goal with
           | |- context [String.eqb doc_type ?k] =>
               destruct (String.eqb_spec doc_type k);
               [exfalso; apply Hn; subst; cbn; tauto|]
           end.
    reflexivity.
Qed.

(** X10.  Without a tool ([None] or the empty string), [parse] of a located
    document whose extension is none of the thirteen supported ones raises
    [ValueError "Unsupported document type: unknown"], nothing logged, no
    engine entered; and a document it does return has for [file_type] one of
    [pdf], [word], [powerpoint], [excel], [text], never [unknown]. *)
Theorem auto_parse_needs_known_type (w : World) (self : DocumentParser)
        (path p : string) (s s1 : list event) :
  tool self = None \/ tool self = Some "" ->
  locate w path s = (Ok p, s1) ->
  (doc_type_of p = "unknown" ->
   parse w self path s
   = (Raise (ValueError "Unsupported document type: unknown"), s))
  /\ (forall d s',
         parse w self path s = (Ok d, s') ->
         file_type d = Some (doc_type_of p) /\ In (doc_type_of p) known_types).
Proof.
  intros Htool Hloc.
  pose proof (locate_keeps_log _ _ _ _ _ Hloc) as ->.
  assert (Hsel : select_parser w self (doc_type_of p) p s
                 = _auto_select_parser w self (doc_type_of p) p s).
  { unfold select_parser. destruct Htool as [-> | ->]; reflexivity. }
  rewrite (parse_after_locate _ _ _ _ _ _ Hloc). split.
  - intros Hu. apply bind_run_raise. rewrite Hsel, Hu.
    apply (proj2 (auto_select_cases w self "unknown" p s)).
    cbn. intuition discriminate.
  - intros d s' H.
    apply bind_ok in H as (m & s2 & Hm & H).
    apply bind_ok in H as (? & ? & _ & H).
    apply bind_ok in H as (r & s3 & _ & H).
    apply ret_ok in H as [<- _]. split; [reflexivity|].
    destruct (document_type_values
                (lstrip_char "." (lower (PyPath.suffix p)))) as [Hu | Hk];
      [|exact Hk].
    fold (doc_type_of p) in Hu. rewrite Hsel in Hm.
    rewrite (proj2 (auto_select_cases w self (doc_type_of p) p s)) in Hm;
      [discriminate|].
    rewrite <- Hu. cbn. intuition discriminate.
Qed.

(** The theorem on a file with an extension [parse] does not know. *)
Lemma auto_parse_needs_known_type_witness :
  parse Samples.deck (Samples.parser_with None true) "archive.zip" []
  = (Raise (ValueError "Unsupported document type: unknown"), []).
Proof.
  exact (proj1 (auto_parse_needs_known_type Samples.deck
                  (Samples.parser_with None true) "archive.zip" "archive.zip" [] []
                  (or_introl eq_refl) eq_refl) eq_refl).
Defined.

(** X11.  The three engines that catch [ImportError] only.  When its
    library is missing, the PyMuPDF4LLM, pdfplumber or Unstructured engine
    logs a warning and its outcome is that of the PyMuPDF engine; when the
    library is there and its first call raises an exception that is not an
    [ImportError], that exception is raised, with no warning and no other
    engine entered. *)
Theorem import_error_alone_falls_back (w : World) (self : DocumentParser)
        (p : string) (s : list event) :
  (has_module w "pymupdf4llm" = false ->
   _parse_with_pymupdf4llm w self p s
   = _parse_with_pymupdf w self p
       (s ++ [Enter "_parse_with_pymupdf4llm" p;
              Warning "pymupdf4llm not available, falling back to PyMuPDF"])%list)
  /\ (has_module w "pdfplumber" = false ->
      _parse_with_pdfplumber w self p s
      = _parse_with_pymupdf w self p
          (s ++ [Enter "_parse_with_pdfplumber" p;
                 Warning "pdfplumber not available, falling back to PyMuPDF"])%list)
  /\ (has_module w "unstructured" = false ->
      _parse_with_unstructured w self p s
      = _parse_with_pymupdf w self p
          (s ++ [Enter "_parse_with_unstructured" p;
                 Warning "Unstructured not available, falling back to PyMuPDF"])%list)
  /\ (forall e,
         is_import_error e = false ->
         (has_module w "pymupdf4llm" = true -> to_markdown w p = Raise e ->
          _parse_with_pymupdf4llm w self p s
          = (Raise e, (s ++ [Enter "_parse_with_pymupdf4llm" p])%list))
         /\ (has_module w "pdfplumber" = true -> pdfplumber_open w p = Raise e ->
             _parse_with_pdfplumber w self p s
             = (Raise e, (s ++ [Enter "_parse_with_pdfplumber" p])%list))
         /\ (has_module w "unstructured" = true -> partition w p = Raise e ->
             _parse_with_unstructured w self p s
             = (Raise e, (s ++ [Enter "_parse_with_unstructured" p])%list))).
Proof.
  assert (Hassoc : forall (a b : event), (s ++ [a; b] = (s ++ [a]) ++ [b])%list)
    by (intros; now rewrite <- app_assoc).
  repeat split.
  - intros Hm. unfold _parse_with_pymupdf4llm, try_import, try_except, import_.
    rewrite Hm, Hassoc. reflexivity.
  - intros Hm. unfold _parse_with_pdfplumber, try_import, try_except, import_.
    rewrite Hm, Hassoc. reflexivity.
  - intros Hm. unfold _parse_with_unstructured, try_import, try_except, import_.
    rewrite Hm, Hassoc. reflexivity.
  - intros Hm He. unfold _parse_with_pymupdf4llm, try_import, try_except, import_.
    rewrite Hm. cbn. unfold lift. rewrite He. now rewrite H.
  - intros Hm He. unfold _parse_with_pdfplumber, try_import, try_except, import_.
    rewrite Hm. cbn. unfold lift. rewrite He. now rewrite H.
  - intros Hm He. unfold _parse_with_unstructured, try_import, try_except, import_.
    rewrite Hm. cbn. unfold lift. rewrite He. now rewrite H.
Qed.

(** The theorem on a machine that has fitz and not pymupdf4llm. *)
Lemma import_error_alone_falls_back_witness :
  _parse_with_pymupdf4llm Samples.short_pdf (Samples.parser_with None false)
                          "short.pdf" []
  = _parse_with_pymupdf Samples.short_pdf (Samples.parser_with None false)
      "short.pdf"
      [Enter "_parse_with_pymupdf4llm" "short.pdf";
       Warning "pymupdf4llm not available, falling back to PyMuPDF"].
Proof.
  exact (proj1 (import_error_alone_falls_back Samples.short_pdf
                  (Samples.parser_with None false) "short.pdf" []) eq_refl).
Defined.

End ParseProps.

Module EngineMoreProps.
Import PyStr PyStrFacts Py Model Env Parsers Notions RunFacts ParserNotions
       SelectorProps EngineProps.
Local Open Scope py_scope.

Lemma indexed_numbered (ps : list Page) :
  forall i, indexed page_numbered i ps -> numbered_from (i + 1) ps.
Proof.
  induction ps as [|p ps IH]; intros i H; cbn in *; [exact I|].
  destruct H as [Hp H]. split; [exact Hp | now apply IH].
Qed.

Lemma loop_numbered {A : Type} (body : Z -> A -> M Page) (l : list A)
      (s s' : list event) (ps : list Page) :
  for_each body 0 l s = (Ok ps, s') ->
  (forall i x s y s', body i x s = (Ok y, s') -> page_numbered i y) ->
  numbered_from 1 ps.
Proof.
  intros H Hbody. apply (indexed_numbered ps 0).
  eapply for_each_ok; eassumption.
Qed.

(** Closes the goal on the pages of a loop of pages and blocks. *)
Ltac pages_of_items heading :=
  use_loop heading; [assumption | solve_body].

(** Closes the goal on the pages of a loop of pages. *)
Ltac pages_of_loop :=
  match goal with
  | Hf : for_each _ _ _ _ = _ |- _ =>
      apply loop_numbered in Hf; [exact Hf|];
      let Hb := fresh "Hb" in
      intros ? ? ? ? ? Hb;
      repeat (cbv zeta in Hb; apply bind_ok in Hb; destruct Hb as (? & ? & _ & Hb));
      cbv zeta in Hb; apply ret_ok in Hb; destruct Hb as [<- _]; reflexivity
  end.

Lemma pymupdf_shaped (w : World) (self : DocumentParser) (p : string)
      (s s' : list event) (d : Document) (m : parser_method) :
  falls_back m = true \/ m = M_pymupdf ->
  _parse_with_pymupdf w self p s = (Ok d, s') -> shaped m d.
Proof.
  intros Hm H. apply pymupdf_paged in H as [[Hn _] Ht]. split; [|exact Hn].
  destruct Hm as [Hm | ->]; [right; now split | now left].
Qed.

Lemma engine_shaped (w : World) (self : DocumentParser) (m : parser_method)
      (p : string) (s s' : list event) (d : Document) :
  invoke w self m p s = (Ok d, s') -> shaped m d.
Proof.
  intros H. destruct m; cbn [invoke] in H.
  - eapply pymupdf_shaped; [now right | eassumption].
  - unfold _parse_with_pymupdf4llm in H.
    apply bind_ok in H as (? & ? & _ & H).
    apply try_import_ok in H as [H | (e & s1 & _ & H)].
    + run_inv H. apply ret_ok in H as [<- _].
      split; [now left | cbn [pages]; pages_of_loop].
    + apply bind_ok in H as (? & ? & _ & H).
      eapply pymupdf_shaped; [now left | eassumption].
  - unfold _parse_with_docling in H.
    apply bind_ok in H as (? & ? & _ & H).
    apply try_except_ok in H as [H | (e & s1 & _ & H)].
    + unfold _parse_with_docling_try in H.
      apply bind_ok in H as (? & ? & _ & H).
      apply bind_ok in H as (res & ? & _ & H).
      destruct (match dl_status res with
                | Some st => endswith st "FAILURE"
                | None => false
                end).
      * apply ret_ok in H as [<- _]. split; [now left | exact I].
      * run_inv H. apply ret_ok in H as [<- _].
        split; [now left | cbn [pages]; pages_of_loop].
    + destruct (is_import_error e);
        apply bind_ok in H as (? & ? & _ & H);
        (eapply pymupdf_shaped; [now left | eassumption]).
  - unfold _parse_with_unstructured in H.
    apply bind_ok in H as (? & ? & _ & H).
    apply try_import_ok in H as [H | (e & s1 & _ & H)].
    + run_inv H. apply ret_ok in H as [<- _]. split; [now left | exact I].
    + apply bind_ok in H as (? & ? & _ & H).
      eapply pymupdf_shaped; [now left | eassumption].
  - unfold _parse_with_pdfplumber in H.
    apply bind_ok in H as (? & ? & _ & H).
    apply try_import_ok in H as [H | (e & s1 & _ & H)].
    + run_inv H. apply ret_ok in H as [<- _].
      split; [now left | cbn [pages]; pages_of_items "Page"].
    + apply bind_ok in H as (? & ? & _ & H).
      eapply pymupdf_shaped; [now left | eassumption].
  - unfold _parse_word in H.
    apply bind_ok in H as (? & ? & _ & H).
    apply try_import_ok in H as [H | (e & s1 & _ & H)]; [|discriminate].
    run_inv H. apply ret_ok in H as [<- _]. split; [now left | now cbn].
  - unfold _parse_powerpoint in H.
    apply bind_ok in H as (? & ? & _ & H).
    apply try_import_ok in H as [H | (e & s1 & _ & H)]; [|discriminate].
    run_inv H. apply ret_ok in H as [<- _].
    split; [now left | cbn [pages]; pages_of_items "Slide"].
  - unfold _parse_excel in H.
    apply bind_ok in H as (? & ? & _ & H).
    apply try_import_ok in H as [H | (e & s1 & _ & H)]; [|discriminate].
    run_inv H. apply ret_ok in H as [<- _]. split; [now left | exact I].
  - unfold _parse_with_tesseract in H.
    apply bind_ok in H as (? & ? & _ & H).
    apply try_import_ok in H as [H | (e & s1 & _ & H)]; [|discriminate].
    run_inv H. apply ret_ok in H as [<- _].
    split; [now left | cbn [pages]; pages_of_items "Page"].
  - unfold _parse_with_easyocr in H.
    apply bind_ok in H as (? & ? & _ & H).
    apply try_import_ok in H as [H | (e & s1 & _ & H)]; [|discriminate].
    run_inv H. apply ret_ok in H as [<- _].
    split; [now left | cbn [pages]; pages_of_items "Page"].
  - unfold _parse_text in H. run_inv H. apply ret_ok in H as [<- _].
    split; [now left | now cbn].
Qed.

(** X12.  A document returned by a parser method has its pages numbered
    1, 2, 3, ... in order, and its [tool_used] is the name that method
    writes, or ["PyMuPDF"] when the method is one of the four that hand
    over to the PyMuPDF engine (PyMuPDF4LLM, Docling, Unstructured,
    pdfplumber): the Word, PowerPoint, Excel, OCR and text methods never
    return another engine's document.  So a document returned by [parse]
    has pages numbered from 1 and one of eleven values of [tool_used]. *)
Theorem engine_documents_are_shaped (w : World) (self : DocumentParser) :
  (forall m p s s' d,
      invoke w self m p s = (Ok d, s') ->
      (tool_used d = own_tool_name m
       \/ (falls_back m = true /\ tool_used d = "PyMuPDF"))
      /\ numbered_from 1 (pages d))
  /\ (forall path s s' d,
         parse w self path s = (Ok d, s') ->
         numbered_from 1 (pages d)
         /\ In (tool_used d) (map own_tool_name all_methods)).
Proof.
  split.
  - intros m p s s' d H. exact (engine_shaped w self m p s s' d H).
  - intros path s s' d H. unfold parse in H.
    apply bind_ok in H as (p & s1 & _ & H).
    apply bind_ok in H as (m & s2 & _ & H).
    apply bind_ok in H as (? & ? & _ & H).
    apply bind_ok in H as (r & s3 & Hr & H).
    apply ret_ok in H as [<- _].
    apply engine_shaped in Hr as [Ht Hn].
    cbn [add_file_metadata pages tool_used]. split; [exact Hn|].
    destruct Ht as [-> | [_ ->]]; [destruct m|]; cbn; tauto.
Qed.

(** The theorem on the text engine. *)
Lemma engine_documents_are_shaped_witness :
  exists d s',
    invoke Samples.deck (Samples.parser_with None false) M_text "notes.txt" []
    = (Ok d, s')
    /\ tool_used d = "Built-in" /\ numbered_from 1 (pages d).
Proof.
  destruct (invoke Samples.deck (Samples.parser_with None false) M_text
                   "notes.txt" []) as [[d|e] s'] eqn:E;
    [|vm_compute in E; discriminate].
  exists d, s'. split; [reflexivity|].
  destruct (proj1 (engine_documents_are_shaped Samples.deck
                     (Samples.parser_with None false)) _ _ _ _ _ E)
    as [[Ht | [Hf _]] Hn]; [now split | discriminate].
Defined.

End EngineMoreProps.

Module FailureProps.
Import PyStr PyStrFacts Py Model Env Parsers Notions RunFacts ParserNotions
       SelectorProps EngineProps.
Local Open Scope py_scope.

(** X13.  The engines with no fallback.  When its library is missing, the
    Word, PowerPoint or Excel engine raises [ImportError] with its own
    fixed message, and the Tesseract or EasyOCR engine raises
    [ImportError] with its own prefix before the message of the failed
    import; only the entry into the engine is recorded, and the PyMuPDF
    engine is not run. *)
Theorem missing_library_is_an_import_error (w : World) (self : DocumentParser)
        (p : string) (s : list event) :
  (has_module w "docx" = false ->
   _parse_word w p s
   = (Raise (ImportError "python-docx not available"),
      (s ++ [Enter "_parse_word" p])%list))
  /\ (has_module w "pptx" = false ->
      _parse_powerpoint w p s
      = (Raise (ImportError "python-pptx not available"),
         (s ++ [Enter "_parse_powerpoint" p])%list))
  /\ (has_module w "openpyxl" = false ->
      _parse_excel w p s
      = (Raise (ImportError "openpyxl not available"),
         (s ++ [Enter "_parse_excel" p])%list))
  /\ (has_module w "pytesseract" = false ->
      _parse_with_tesseract w self p s
      = (Raise (ImportError
                  "Tesseract OCR dependencies not available: No module named 'pytesseract'"),
         (s ++ [Enter "_parse_with_tesseract" p])%list))
  /\ (has_module w "easyocr" = false ->
      _parse_with_easyocr w self p s
      = (Raise (ImportError
                  "EasyOCR dependencies not available: No module named 'easyocr'"),
         (s ++ [Enter "_parse_with_easyocr" p])%list)).
Proof.
  repeat split; intros Hm.
  - unfold _parse_word, try_import, try_except, import_. now rewrite Hm.
  - unfold _parse_powerpoint, try_import, try_except, import_. now rewrite Hm.
  - unfold _parse_excel, try_import, try_except, import_. now rewrite Hm.
  - unfold _parse_with_tesseract, try_import, try_except, import_. now rewrite Hm.
  - unfold _parse_with_easyocr, try_import, try_except, import_. now rewrite Hm.
Qed.

(** The theorem on a machine without python-docx. *)
Lemma missing_library_is_an_import_error_witness :
  _parse_word Samples.deck "letter.docx" []
  = (Raise (ImportError "python-docx not available"),
     [Enter "_parse_word" "letter.docx"]).
Proof.
  exact (proj1 (missing_library_is_an_import_error Samples.deck
                  (Samples.parser_with None false) "letter.docx" []) eq_refl).
Defined.

Lemma classify_all_numbers (reads : list (string * list Z)) :
  forall i sc hy di,
    classify_all i reads (sc, hy, di)
    = ((sc ++ numbers_where scanned_kind i reads)%list,
       (hy ++ numbers_where hybrid_kind i reads)%list,
       (di ++ numbers_where digital_kind i reads)%list).
Proof.
  induction reads as [|r reads IH]; intros i sc hy di;
    cbn [classify_all numbers_where]; [now rewrite !app_nil_r|].
  unfold classify_page, scanned_kind, hybrid_kind, digital_kind,
    with_text, with_images.
  destruct (50 <? len (strip (fst r)));
    destruct (0 <? Z.of_nat (List.length (snd r)));
    cbn [negb andb]; rewrite IH; now rewrite <- ?app_assoc.
Qed.

Lemma length_numbers_where (kind : string * list Z -> bool)
      (reads : list (string * list Z)) :
  forall i, List.length (numbers_where kind i reads) = List.length (filter kind reads).
Proof.
  induction reads as [|r reads IH]; intros i; cbn [numbers_where filter];
    [reflexivity|].
  destruct (kind r); cbn [List.length]; now rewrite IH.
Qed.

Lemma all_pass_by_count {A : Type} (f : A -> bool) (l : list A) :
  (Z.of_nat (List.length (filter f l)) =? Z.of_nat (List.length l)) = forallb f l.
Proof.
  induction l as [|x l IH]; cbn [filter forallb List.length]; [reflexivity|].
  pose proof (filter_length_le f l) as L.
  destruct (f x); cbn [List.length andb].
  - rewrite <- IH. destruct (Z.eqb_spec (Z.of_nat (List.length (filter f l)))
                                        (Z.of_nat (List.length l)));
      [apply Z.eqb_eq | apply Z.eqb_neq]; lia.
  - apply Z.eqb_neq. lia.
Qed.

Lemma some_pass_by_count {A : Type} (f : A -> bool) (l : list A) :
  (0 <? Z.of_nat (List.length (filter f l))) = existsb f l.
Proof.
  induction l as [|x l IH]; cbn [filter existsb List.length]; [reflexivity|].
  destruct (f x); cbn [List.length orb]; [|exact IH].
  apply Z.ltb_lt. lia.
Qed.

Lemma with_text_kinds (reads : list (string * list Z)) :
  existsb digital_kind reads || existsb hybrid_kind reads = existsb with_text reads.
Proof.
  induction reads as [|r reads IH]; cbn [existsb]; [reflexivity|].
  rewrite <- IH.
  generalize (existsb digital_kind reads), (existsb hybrid_kind reads).
  intros a b. unfold digital_kind, hybrid_kind.
  destruct (with_text r), (with_images r), a, b; reflexivity.
Qed.

(** X14.  When fitz opens the document and every page is read,
    [_analyze_pdf] returns, with nothing logged: [scanned_pages] are, in
    increasing order, the pages with an image and at most 50 characters of
    trimmed text, [hybrid_pages] those with an image and more text,
    [digital_pages] those with more text and no image; the type is
    ["Scanned"] when every page is of the first kind (also when there is no
    page), else ["Digital"] when every page is of the third kind, else
    ["Hybrid"]; and [has_text] tells whether some page has more than 50
    characters. *)
Theorem analysis_classifies_pages (w : World) (pdf_path : string)
        (s : list event) (doc : list FitzPage) (reads : list (string * list Z)) :
  has_module w "fitz" = true ->
  fitz_open w pdf_path = Ok doc ->
  map get_text doc = map (fun r => Ok (fst r)) reads ->
  map get_images doc = map (fun r => Ok (snd r)) reads ->
  _analyze_pdf w pdf_path s
  = (Ok (FullAnalysis
           {| pdf_type :=
                if forallb scanned_kind reads then "Scanned"
                else if forallb digital_kind reads then "Digital"
                else "Hybrid";
              total_pages := Z.of_nat (List.length reads);
              scanned_pages := numbers_where scanned_kind 0 reads;
              hybrid_pages := numbers_where hybrid_kind 0 reads;
              digital_pages := numbers_where digital_kind 0 reads;
              has_text := existsb with_text reads |}), s).
Proof.
  intros Hmod Hopen Ht Hi.
  assert (Hlen : List.length doc = List.length reads).
  { rewrite <- (length_map get_text doc), Ht. apply length_map. }
  unfold _analyze_pdf, try_except, _analyze_pdf_try, import_. rewrite Hmod.
  rewrite (bind_run_ok _ _ s tt s) by reflexivity.
  rewrite (bind_run_ok _ _ s doc s) by (unfold lift; now rewrite Hopen).
  rewrite (bind_run_ok _ _ s _ s
             (ClassifierProps.analyze_pages_reads doc reads 0 _ s Ht Hi)).
  rewrite classify_all_numbers. cbn [app]. unfold ret.
  rewrite !length_numbers_where, Hlen, !all_pass_by_count, !some_pass_by_count.
  now rewrite with_text_kinds.
Qed.

(** The theorem on the two-page PDF of short texts: page 2 has an image
    and is scanned, page 1 has none and is in no list. *)
Lemma analysis_classifies_pages_witness :
  _analyze_pdf Samples.short_pdf "short.pdf" []
  = (Ok (FullAnalysis
           {| pdf_type := "Hybrid";
              total_pages := 2;
              scanned_pages := [2];
              hybrid_pages := [];
              digital_pages := [];
              has_text := false |}), []).
Proof.
  exact (analysis_classifies_pages Samples.short_pdf "short.pdf" []
           [Samples.fitz_page "hello" []; Samples.fitz_page "world" [7]]
           [("hello", []); ("world", [7])]
           eq_refl eq_refl eq_refl eq_refl).
Defined.

Lemma in_numbers_where (kind : string * list Z -> bool)
      (reads : list (string * list Z)) :
  forall i x,
    In x (numbers_where kind i reads)
    <-> exists j r, nth_error reads j = Some r /\ kind r = true
                    /\ x = i + Z.of_nat j + 1.
Proof.
  induction reads as [|r reads IH]; intros i x; cbn [numbers_where].
  - split; [intros [] | intros (j & r & H & _)]. now destruct j.
  - assert (Hrest : In x (numbers_where kind (i + 1) reads)
                    <-> exists j r', nth_error reads j = Some r' /\ kind r' = true
                                     /\ x = i + Z.of_nat (S j) + 1).
    { rewrite IH. split; intros (j & r' & H1 & H2 & H3); exists j, r';
        repeat split; try assumption; lia. }
    destruct (kind r) eqn:K; cbn [In]; rewrite Hrest; split.
    + intros [<- | (j & r' & H1 & H2 & H3)].
      * exists 0%nat, r. repeat split; [assumption | simpl; lia].
      * exists (S j), r'. now repeat split.
    + intros ([|j] & r' & H1 & H2 & H3).
      * left. simpl in H3. lia.
      * right. exists j, r'. now repeat split.
    + intros (j & r' & H1 & H2 & H3). exists (S j), r'. now repeat split.
    + intros ([|j] & r' & H1 & H2 & H3).
      * cbn in H1. injection H1 as <-. congruence.
      * exists j, r'. now repeat split.
Qed.

(** X15.  When fitz opens the document and every page is read, no page
    number is in two of the three lists of [_analyze_pdf], and a number is
    in one of them exactly when it is the 1-based number of a page that has
    more than 50 characters of trimmed text or at least one image: the
    pages with neither are the ones in no list. *)
Theorem analysis_lists_are_disjoint (w : World) (pdf_path : string)
        (s : list event) (doc : list FitzPage) (reads : list (string * list Z)) :
  has_module w "fitz" = true ->
  fitz_open w pdf_path = Ok doc ->
  map get_text doc = map (fun r => Ok (fst r)) reads ->
  map get_images doc = map (fun r => Ok (snd r)) reads ->
  exists a,
    _analyze_pdf w pdf_path s = (Ok (FullAnalysis a), s)
    /\ (forall n, ~ (In n (scanned_pages a) /\ In n (hybrid_pages a)))
    /\ (forall n, ~ (In n (scanned_pages a) /\ In n (digital_pages a)))
    /\ (forall n, ~ (In n (hybrid_pages a) /\ In n (digital_pages a)))
    /\ (forall n,
           In n (scanned_pages a) \/ In n (hybrid_pages a) \/ In n (digital_pages a)
           <-> exists j r,
               nth_error reads j = Some r /\ n = Z.of_nat j + 1
               /\ with_text r || with_images r = true).
Proof.
  intros Hmod Hopen Ht Hi.
  unfold _analyze_pdf, try_except, _analyze_pdf_try, import_. rewrite Hmod.
  rewrite (bind_run_ok _ _ s tt s) by reflexivity.
  rewrite (bind_run_ok _ _ s doc s) by (unfold lift; now rewrite Hopen).
  rewrite (bind_run_ok _ _ s _ s
             (ClassifierProps.analyze_pages_reads doc reads 0 _ s Ht Hi)).
  rewrite classify_all_numbers. cbn [app]. unfold ret.
  eexists. split; [reflexivity|].
  cbn [scanned_pages hybrid_pages digital_pages].
  assert (Hsame : forall k1 k2 n,
             In n (numbers_where k1 0 reads) -> In n (numbers_where k2 0 reads) ->
             exists r, k1 r = true /\ k2 r = true).
  { intros k1 k2 n H1 H2.
    apply in_numbers_where in H1 as (j1 & r1 & N1 & K1 & E1).
    apply in_numbers_where in H2 as (j2 & r2 & N2 & K2 & E2).
    assert (j1 = j2) by lia. subst j2. rewrite N1 in N2. injection N2 as <-.
    now exists r1. }
  repeat split.
  - intros n [H1 H2]. destruct (Hsame _ _ n H1 H2) as (r & K1 & K2).
    unfold scanned_kind, hybrid_kind in *.
    destruct (with_text r), (with_images r); discriminate.
  - intros n [H1 H2]. destruct (Hsame _ _ n H1 H2) as (r & K1 & K2).
    unfold scanned_kind, digital_kind in *.
    destruct (with_text r), (with_images r); discriminate.
  - intros n [H1 H2]. destruct (Hsame _ _ n H1 H2) as (r & K1 & K2).
    unfold hybrid_kind, digital_kind in *.
    destruct (with_text r), (with_images r); discriminate.
  - intros [H | [H | H]]; apply in_numbers_where in H as (j & r & N & K & E);
      exists j, r; (repeat split; [assumption | lia |]);
      unfold scanned_kind, hybrid_kind, digital_kind in K;
      destruct (with_text r), (with_images r); try discriminate; reflexivity.
  - intros (j & r & N & E & K).
    destruct (with_text r) eqn:T, (with_images r) eqn:I; try discriminate.
    + right; left. apply in_numbers_where. exists j, r.
      repeat split; [assumption | unfold hybrid_kind; now rewrite T, I | lia].
    + right; right. apply in_numbers_where. exists j, r.
      repeat split; [assumption | unfold digital_kind; now rewrite T, I | lia].
    + left. apply in_numbers_where. exists j, r.
      repeat split; [assumption | unfold scanned_kind; now rewrite T, I | lia].
Qed.

(** The theorem on the two-page PDF of short texts. *)
Lemma analysis_lists_are_disjoint_witness :
  exists a,
    _analyze_pdf Samples.short_pdf "short.pdf" [] = (Ok (FullAnalysis a), [])
    /\ forall n, ~ (In n (scanned_pages a) /\ In n (hybrid_pages a)).
Proof.
  destruct (analysis_lists_are_disjoint Samples.short_pdf "short.pdf" []
              [Samples.fitz_page "hello" []; Samples.fitz_page "world" [7]]
              [("hello", []); ("world", [7])]
              eq_refl eq_refl eq_refl eq_refl) as (a & H & H1 & _).
  exists a. now split.
Defined.

(** X16.  When docling converts without raising and reports a status that
    ends in [FAILURE], the Docling engine returns, with no warning and
    without running PyMuPDF, a document of no page and empty content that
    carries the reported errors; the export of that document has no
    chunk. *)
Theorem docling_reported_failure_is_returned (w : World) (self : DocumentParser)
        (p : string) (s : list event) (res : DoclingResult) (st : string) :
  has_module w "docling" = true ->
  docling_convert w p = Ok res ->
  dl_status res = Some st -> endswith st "FAILURE" = true ->
  exists d,
    _parse_with_docling w self p s
    = (Ok d, (s ++ [Enter "_parse_with_docling" p])%list)
    /\ tool_used d = "Docling" /\ content d = "" /\ pages d = []
    /\ errors d = Some (dl_errors res)
    /\ forall fuel now path cs ov,
        exists rag,
          App.build_rag_json fuel now d path cs ov = Some rag
          /\ App.rag_chunks rag = [].
Proof.
  intros Hmod Hconv Hst Hfail.
  eexists. split.
  - unfold _parse_with_docling, try_except, _parse_with_docling_try, import_.
    rewrite Hmod. cbn. unfold lift. rewrite Hconv, Hst, Hfail. reflexivity.
  - repeat split. intros fuel now path cs ov. eexists. split; reflexivity.
Qed.

(** The theorem on a machine whose docling reports a failure. *)
Lemma docling_reported_failure_is_returned_witness :
  exists d,
    _parse_with_docling MoreSamples.failing_docling
                        (Samples.parser_with (Some "docling") false) "bad.pdf" []
    = (Ok d, [Enter "_parse_with_docling" "bad.pdf"])
    /\ tool_used d = "Docling" /\ errors d = Some ["bad xref table"].
Proof.
  destruct (docling_reported_failure_is_returned MoreSamples.failing_docling
              (Samples.parser_with (Some "docling") false) "bad.pdf" []
              _ "ConversionStatus.FAILURE" eq_refl eq_refl eq_refl eq_refl)
    as (d & Hrun & Ht & _ & _ & He & _).
  exists d. now repeat split.
Defined.

(** X17.  Without a tool, [parse] of a located file whose extension is
    [txt], [md], [html] or [htm] in any case, and that reads as [c],
    returns one page numbered 1 whose content is [c], the same [c] as
    content, [tool_used] ["Built-in"] and [file_type] ["text"], after
    logging the method and entering it. *)
Theorem text_file_end_to_end (w : World) (self : DocumentParser)
        (path p : string) (s s1 : list event) (c : string) :
  tool self = None \/ tool self = Some "" ->
  locate w path s = (Ok p, s1) ->
  doc_type_of p = "text" ->
  read_text w p = Ok c ->
  parse w self path s
  = (Ok {| tool_used := "Built-in";
           content := c;
           pages := [ {| page_number := 1; page_content := c;
                         bboxes := None; page_metadata := None |} ];
           images := [];
           metadata :=
             [("lines", MInt (Z.of_nat (List.length (split_char LF c))))];
           pdf_analysis := None;
           errors := None;
           file_name := Some (PyPath.name p);
           file_type := Some "text";
           file_size := Some (getsize w p) |},
     (s ++ [Info ("Parsing " ++ p ++ " using _parse_text");
            Enter "_parse_text" p])%list).
Proof.
  intros Htool Hloc Hty Hread.
  pose proof (locate_keeps_log _ _ _ _ _ Hloc) as ->.
  rewrite (parse_with_method w self path p s s M_text Hloc).
  - cbn [invoke method_name]. unfold _parse_text, completed.
    unfold bind at 1, emit at 1. unfold bind, lift. rewrite Hread.
    unfold ret. rewrite Hty. rewrite <- app_assoc. reflexivity.
  - unfold select_parser, _auto_select_parser. rewrite Hty.
    destruct Htool as [-> | ->]; reflexivity.
Qed.

(** The theorem on a file named in upper case. *)
Lemma text_file_end_to_end_witness :
  exists d s',
    parse Samples.deck (Samples.parser_with None true) "NOTES.TXT" [] = (Ok d, s')
    /\ tool_used d = "Built-in" /\ file_type d = Some "text" /\ content d = "Hi".
Proof.
  eexists; eexists. split.
  - exact (text_file_end_to_end Samples.deck (Samples.parser_with None true)
             "NOTES.TXT" "NOTES.TXT" [] [] "Hi"
             (or_introl eq_refl) eq_refl eq_refl eq_refl).
  - now repeat split.
Defined.

Lemma block_bboxes_types
      (blocks : list (option Z * (MetaVal * MetaVal * MetaVal * MetaVal))) :
  Forall (fun b => bbox_type b = "text" \/ bbox_type b = "image")
         (block_bboxes blocks)
  /\ (List.length (block_bboxes blocks) <= List.length blocks)%nat.
Proof.
  induction blocks as [|[ty box] blocks [IH1 IH2]]; cbn [block_bboxes List.length];
    [split; [constructor | lia]|].
  destruct ty as [[|[| |]|]|]; cbn [List.length];
    (split; [try constructor; auto | lia]).
Qed.

(** X18.  A document written by the PyMuPDF4LLM engine itself has for
    content the markdown [pymupdf4llm.to_markdown] returned, and every page
    of it carries a list of bounding boxes whose types are [text] or
    [image] only; a document of the PyMuPDF engine, to which it hands over
    when a library is missing, carries none. *)
Theorem pymupdf4llm_reports_boxes (w : World) (self : DocumentParser)
        (p : string) (s s' : list event) (d : Document) :
  _parse_with_pymupdf4llm w self p s = (Ok d, s') ->
  (tool_used d = "PyMuPDF4LLM"
   /\ to_markdown w p = Ok (content d)
   /\ Forall (fun pg => exists bs,
                  bboxes pg = Some bs
                  /\ Forall (fun b => bbox_type b = "text" \/ bbox_type b = "image") bs)
             (pages d))
  \/ (tool_used d = "PyMuPDF" /\ Forall (fun pg => bboxes pg = None) (pages d)).
Proof.
  intros H. unfold _parse_with_pymupdf4llm in H.
  apply bind_ok in H as (? & ? & _ & H).
  apply try_import_ok in H as [H | (e & s1 & _ & H)].
  - left. run_inv H. apply ret_ok in H as [<- _]. cbn [tool_used content pages].
    split; [reflexivity|]. split.
    + match goal with
      | Hm : lift (to_markdown w p) _ = _ |- _ => now apply lift_ok in Hm as [-> _]
      end.
    + match goal with
      | Hf : for_each _ _ _ _ = (Ok ?ps, _) |- _ =>
          apply (for_each_ok _
                   (fun _ pg => exists bs,
                        bboxes pg = Some bs
                        /\ Forall (fun b => bbox_type b = "text"
                                            \/ bbox_type b = "image") bs)) in Hf
      end.
      * match goal with
        | Hf : indexed _ 0 ?ps |- Forall _ ?ps =>
            revert Hf; generalize 0; induction ps as [|pg ps IH]; intros i Hf;
            [constructor | destruct Hf as [Hp Hf]; constructor; [exact Hp | eapply IH; exact Hf]]
        end.
      * intros ? ? ? ? ? Hb.
        repeat (cbv zeta in Hb; apply bind_ok in Hb; destruct Hb as (? & ? & _ & Hb)).
        apply ret_ok in Hb as [<- _]. eexists. split; [reflexivity|].
        apply block_bboxes_types.
  - right. apply bind_ok in H as (? & ? & _ & H).
    unfold _parse_with_pymupdf in H. run_inv H. apply ret_ok in H as [<- _].
    cbn [tool_used pages]. split; [reflexivity|].
    match goal with
    | Hf : for_each _ _ _ _ = (Ok ?items, _) |- _ =>
        apply (for_each_ok _ (fun _ (y : Page * string) => bboxes (fst y) = None)) in Hf
    end.
    + match goal with
      | Hf : indexed _ 0 ?items |- Forall _ (map fst ?items) =>
          revert Hf; generalize 0; induction items as [|y items IH]; intros i Hf;
          [constructor | destruct Hf as [Hp Hf]; constructor; [exact Hp | eapply IH; exact Hf]]
      end.
    + intros ? ? ? ? ? Hb.
      repeat (cbv zeta in Hb; apply bind_ok in Hb; destruct Hb as (? & ? & _ & Hb)).
      apply ret_ok in Hb as [<- _]. reflexivity.
Qed.

(** The theorem on a machine without pymupdf4llm. *)
Lemma pymupdf4llm_reports_boxes_witness :
  exists d s',
    _parse_with_pymupdf4llm Samples.short_pdf (Samples.parser_with None false)
                            "short.pdf" [] = (Ok d, s')
    /\ tool_used d = "PyMuPDF" /\ Forall (fun pg => bboxes pg = None) (pages d).
Proof.
  destruct (_parse_with_pymupdf4llm Samples.short_pdf
              (Samples.parser_with None false) "short.pdf" [])
    as [[d|e] s'] eqn:E; [|vm_compute in E; discriminate].
  exists d, s'. split; [reflexivity|].
  destruct (pymupdf4llm_reports_boxes _ _ _ _ _ _ E) as [[Ht _] | H];
    [|exact H].
  vm_compute in E. injection E as <- _. discriminate.
Defined.

End FailureProps.

(* ====================================================================== *)
(** ** Properties of the extraction of images *)
(* ====================================================================== *)

Module ImagesProps.
Import PyStr Py Model Env RunFacts Images ImageNotions.
Local Open Scope py_scope.








End ImagesProps.

(* ====================================================================== *)
(** ** Properties of the grid of page images *)
(* ====================================================================== *)

Module VisualizerProps.
Import PyStr Py Model Env RunFacts Visualizer.
Local Open Scope py_scope.

Lemma max_of_bounds (xs : list Z) :
  forall x, x <= max_of x xs /\ Forall (fun y => y <= max_of x xs) xs.
Proof.
  induction xs as [|y xs IH]; intros x; cbn [max_of]; [split; [lia | constructor]|].
  destruct (IH (Z.max x y)) as [H1 H2]. split; [lia|].
  constructor; [lia | exact H2].
Qed.

Lemma cell_of_index (cols n idx : Z) :
  1 <= cols -> 0 <= idx < n ->
  0 <= idx mod cols < cols
  /\ 0 <= idx / cols
  /\ idx / cols + 1 <= (n + cols - 1) / cols.
Proof.
  intros Hc Hi. split; [apply Z.mod_pos_bound; lia|].
  split; [apply Z.div_pos; lia|].
  replace (n + cols - 1) with ((n - 1) + 1 * cols) by lia.
  rewrite Z.div_add by lia.
  pose proof (Z.div_le_mono idx (n - 1) cols ltac:(lia) ltac:(lia)). lia.
Qed.

Lemma paste_all_nth (cols mw mh : Z) (images : list (Z * Z)) :
  forall idx k p,
    nth_error (paste_all cols mw mh idx images) k = Some p ->
    exists img,
      nth_error images k = Some img
      /\ p = {| at_x := (idx + Z.of_nat k) mod cols * mw;
                at_y := (idx + Z.of_nat k) / cols * mh;
                img_width := fst img; img_height := snd img |}.
Proof.
  induction images as [|img rest IH]; intros idx k p H; cbn [paste_all] in H.
  - destruct k; discriminate.
  - destruct k as [|k]; cbn [nth_error] in *.
    + injection H as <-. exists img. split; [reflexivity|].
      now rewrite Z.add_0_r.
    + destruct (IH _ _ _ H) as (img' & Hn & ->). exists img'.
      split; [exact Hn|]. do 2 f_equal; f_equal; lia.
Qed.

Lemma length_paste_all (cols mw mh : Z) (images : list (Z * Z)) :
  forall idx, List.length (paste_all cols mw mh idx images) = List.length images.
Proof.
  induction images as [|img rest IH]; intros idx; cbn [paste_all List.length];
    [reflexivity | now rewrite IH].
Qed.

Lemma paste_all_sizes (cols mw mh : Z) (images : list (Z * Z)) :
  forall idx,
    map (fun p => (img_width p, img_height p)) (paste_all cols mw mh idx images)
    = images.
Proof.
  induction images as [|[a b] rest IH]; intros idx; cbn [paste_all map];
    [reflexivity|].
  cbn [img_width img_height fst snd]. now rewrite IH.
Qed.

(** [draw_bboxes] never raises; it logs nothing when it returns an image
    and one error when it returns [None]. *)
Lemma draw_bboxes_runs (w : World)
      (render : string -> Z -> list BBox -> result (Z * Z))
      (pdf_path : string) (page_num : Z) (bboxes : list BBox) (s : list event) :
  exists r l,
    draw_bboxes w render pdf_path page_num bboxes s = (Ok r, (s ++ l)%list)
    /\ match r with
       | Some _ => l = []
       | None => exists msg, l = [Error msg]
       end.
Proof.
  unfold draw_bboxes, try_except, bind, Parsers.import_, lift, emit, ret, raise.
  destruct (has_module w "fitz").
  - destruct (fitz_open w pdf_path) as [doc|e].
    + destruct (Z.of_nat (List.length doc) <=? page_num).
      * exists None. eexists. split; [reflexivity|]. eexists; reflexivity.
      * destruct (render pdf_path page_num bboxes) as [img|e].
        -- exists (Some img), []. now rewrite app_nil_r.
        -- exists None. eexists. split; [reflexivity|]. eexists; reflexivity.
    + exists None. eexists. split; [reflexivity|]. eexists; reflexivity.
  - exists None. eexists. split; [reflexivity|]. eexists; reflexivity.
Qed.

(** The first loop never raises: it appends the images drawn, in page
    order, and the log gains one error for each page that gave none. *)
Lemma drawn_images_runs (w : World)
      (render : string -> Z -> list BBox -> result (Z * Z))
      (pdf_path : string) (bboxes_per_page : list (Z * list BBox))
      (pages : list Z) :
  forall images s,
  exists more l,
    drawn_images w render pdf_path bboxes_per_page pages images s
    = (Ok (images ++ more)%list, (s ++ l)%list)
    /\ Forall is_error l
    /\ (List.length more + List.length l = List.length pages)%nat.
Proof.
  induction pages as [|page_num rest IH]; intros images s; cbn [drawn_images].
  - exists [], []. rewrite !app_nil_r. repeat split. constructor.
  - destruct (draw_bboxes_runs w render pdf_path page_num
                (boxes_of bboxes_per_page page_num) s) as (r & l & Hd & Hr).
    rewrite (bind_run_ok _ _ _ _ _ Hd).
    destruct r as [img|].
    + subst l. destruct (IH (images ++ [img])%list (s ++ [])%list)
        as (more & l & H & Hl & Hn).
      exists (img :: more), l. rewrite H, !app_nil_r, <- app_assoc.
      repeat split; [exact Hl | cbn [List.length]; lia].
    + destruct Hr as [msg ->].
      destruct (IH images (s ++ [Error msg])%list) as (more & l & H & Hl & Hn).
      exists more, (Error msg :: l). rewrite H, <- app_assoc.
      repeat split.
      * constructor; [now exists msg | exact Hl].
      * cbn [List.length]. lia.
Qed.

(** X20.  With at least one column, when the first loop has drawn at least
    one image and the sizes of the images are not negative,
    [create_visualization_grid] returns a grid.  The log gains the errors
    of [draw_bboxes], one for each page that could not be drawn, and
    nothing else.  The grid holds the images drawn, in order, one per page
    that could be drawn; every image lies inside the grid, and two
    different images share no pixel. *)
Theorem grid_holds_every_image_apart (w : World)
        (render : string -> Z -> list BBox -> result (Z * Z))
        (pdf_path : string) (pages : list Z)
        (bboxes_per_page : list (Z * list BBox)) (cols : Z)
        (s s1 : list event) (images : list (Z * Z)) :
  1 <= cols ->
  drawn_images w render pdf_path bboxes_per_page pages [] s = (Ok images, s1) ->
  images <> [] ->
  Forall (fun img => 0 <= fst img /\ 0 <= snd img) images ->
  exists g l,
    create_visualization_grid w render pdf_path pages bboxes_per_page cols s
    = (Ok (Some g), s1)
    /\ s1 = (s ++ l)%list /\ Forall is_error l
    /\ (List.length images + List.length l = List.length pages)%nat
    /\ map (fun p => (img_width p, img_height p)) (pasted g) = images
    /\ Forall (inside g) (pasted g)
    /\ forall i j p q,
        i <> j ->
        nth_error (pasted g) i = Some p -> nth_error (pasted g) j = Some q ->
        apart p q.
Proof.
  intros Hc Hrun Hne Hpos.
  destruct (drawn_images_runs w render pdf_path bboxes_per_page pages [] s)
    as (more & l & Hrun' & Hl & Hlen).
  rewrite Hrun in Hrun'. cbn [app] in Hrun'. injection Hrun' as -> ->.
  unfold create_visualization_grid, try_except.
  rewrite (bind_run_ok _ _ _ _ _ Hrun). unfold lift, lay_out.
  destruct more as [|first others]; [congruence|].
  assert (E0 : (cols =? 0) = false) by (apply Z.eqb_neq; lia). rewrite E0.
  set (images := first :: others) in *.
  set (n := Z.of_nat (List.length images)).
  set (mw := max_of (fst first) (map fst others)).
  set (mh := max_of (snd first) (map snd others)).
  assert (Hn : 1 <= n) by (unfold n, images; cbn [List.length]; lia).
  assert (Hw : forall img, In img images -> 0 <= fst img <= mw).
  { intros img Hin. pose proof (proj1 (Forall_forall _ _) Hpos img Hin) as [H0 _].
    destruct (max_of_bounds (map fst others) (fst first)) as [H1 H2].
    unfold mw. destruct Hin as [<- | Hin]; [lia|].
    pose proof (proj1 (Forall_forall _ _) H2 (fst img) (in_map fst _ _ Hin)) as H3.
    cbv beta in H3. lia. }
  assert (Hh : forall img, In img images -> 0 <= snd img <= mh).
  { intros img Hin. pose proof (proj1 (Forall_forall _ _) Hpos img Hin) as [_ H0].
    destruct (max_of_bounds (map snd others) (snd first)) as [H1 H2].
    unfold mh. destruct Hin as [<- | Hin]; [lia|].
    pose proof (proj1 (Forall_forall _ _) H2 (snd img) (in_map snd _ _ Hin)) as H3.
    cbv beta in H3. lia. }
  assert (Hmw : 0 <= mw) by (specialize (Hw first (or_introl eq_refl)); lia).
  assert (Hmh : 0 <= mh) by (specialize (Hh first (or_introl eq_refl)); lia).
  assert (Hrows : 1 <= (n + cols - 1) / cols).
  { destruct (cell_of_index cols n 0 Hc ltac:(lia)) as (_ & H1 & H2). lia. }
  unfold image_new.
  assert (E1 : ((mw * cols <? 0) || (mh * ((n + cols - 1) / cols) <? 0)) = false).
  { apply orb_false_iff. split; apply Z.ltb_ge; nia. }
  rewrite E1. eexists. exists l. split; [reflexivity|].
  split; [reflexivity|]. split; [exact Hl|]. split; [exact Hlen|].
  cbn [pasted grid_width grid_height].
  assert (Hcell : forall k p,
             nth_error (paste_all cols mw mh 0 images) k = Some p ->
             exists img,
               In img images /\ 0 <= Z.of_nat k < n
               /\ p = {| at_x := Z.of_nat k mod cols * mw;
                         at_y := Z.of_nat k / cols * mh;
                         img_width := fst img; img_height := snd img |}).
  { intros k p H.
    assert (Hk : (k < List.length (paste_all cols mw mh 0 images))%nat)
      by (apply nth_error_Some; congruence).
    rewrite length_paste_all in Hk.
    destruct (paste_all_nth _ _ _ _ _ _ _ H) as (img & Hi & ->).
    exists img. split; [eapply nth_error_In; eassumption|].
    split; [unfold n; lia | reflexivity]. }
  split; [apply paste_all_sizes|]. split.
  - apply Forall_forall. intros p Hp.
    apply In_nth_error in Hp as [k Hk].
    destruct (Hcell k p Hk) as (img & Hin & Hkn & ->).
    destruct (cell_of_index cols n (Z.of_nat k) Hc Hkn) as (Hcol & Hrow & Hlast).
    specialize (Hw img Hin). specialize (Hh img Hin).
    set (col := Z.of_nat k mod cols) in *. set (row := Z.of_nat k / cols) in *.
    assert (Hx : (col + 1) * mw <= cols * mw)
      by (apply Z.mul_le_mono_nonneg_r; lia).
    assert (Hy : (row + 1) * mh <= (n + cols - 1) / cols * mh)
      by (apply Z.mul_le_mono_nonneg_r; lia).
    assert (Hx0 : 0 <= col * mw) by (apply Z.mul_nonneg_nonneg; lia).
    assert (Hy0 : 0 <= row * mh) by (apply Z.mul_nonneg_nonneg; lia).
    unfold inside. cbn [at_x at_y img_width img_height grid_width grid_height].
    repeat split; lia.
  - intros i j p q Hij Hp Hq.
    destruct (Hcell i p Hp) as (a & Ha & Hi & ->).
    destruct (Hcell j q Hq) as (b & Hb & Hj & ->).
    destruct (cell_of_index cols n (Z.of_nat i) Hc Hi) as (Hci & Hri & _).
    destruct (cell_of_index cols n (Z.of_nat j) Hc Hj) as (Hcj & Hrj & _).
    pose proof (Hw a Ha). pose proof (Hw b Hb).
    pose proof (Hh a Ha). pose proof (Hh b Hb).
    pose proof (Z.div_mod (Z.of_nat i) cols ltac:(lia)) as Di.
    pose proof (Z.div_mod (Z.of_nat j) cols ltac:(lia)) as Dj.
    unfold apart. cbn [at_x at_y img_width img_height].
    assert (Hstep : forall u v m, u < v -> 0 <= m -> (u + 1) * m <= v * m)
      by (intros u v m Huv Hm; apply Z.mul_le_mono_nonneg_r; lia).
    destruct (Z.lt_trichotomy (Z.of_nat i mod cols) (Z.of_nat j mod cols))
      as [L | [Eq | L]].
    + left. pose proof (Hstep _ _ mw L Hmw). lia.
    + destruct (Z.lt_trichotomy (Z.of_nat i / cols) (Z.of_nat j / cols))
        as [R | [Er | R]].
      * right; right; left. pose proof (Hstep _ _ mh R Hmh). lia.
      * exfalso. apply Hij. rewrite Eq, Er in Di. lia.
      * right; right; right. pose proof (Hstep _ _ mh R Hmh). lia.
    + right; left. pose proof (Hstep _ _ mw L Hmw). lia.
Qed.

(** The theorem on four pages asked of a PDF of three, in two columns:
    page 1 cannot be rendered and page 7 is out of range, each logging
    its error; the two images stand side by side in a grid of 1200 by
    900. *)
Lemma grid_holds_every_image_apart_witness :
  exists g,
    create_visualization_grid sample_world sample_render "three.pdf"
                              [0; 1; 2; 7] [] 2 []
    = (Ok (Some g),
       [Error "Error drawing bounding boxes: cannot render page";
        Error "Page 7 out of range"])
    /\ grid_width g = 1200 /\ grid_height g = 900
    /\ map (fun p => (img_width p, img_height p)) (pasted g)
       = [(600, 800); (500, 900)]
    /\ Forall (inside g) (pasted g).
Proof.
  destruct (grid_holds_every_image_apart sample_world sample_render "three.pdf"
              [0; 1; 2; 7] [] 2 []
              [Error "Error drawing bounding boxes: cannot render page";
               Error "Page 7 out of range"]
              [(600, 800); (500, 900)]
              ltac:(lia) eq_refl ltac:(discriminate)
              ltac:(repeat constructor; cbn; lia))
    as (g & l & H & _ & _ & _ & Hsz & Hin & _).
  exists g. split; [exact H|].
  split; [|split; [|split; [exact Hsz | exact Hin]]];
    vm_compute in H; injection H as <-; reflexivity.
Defined.

(** X21.  With no column, or a negative number of columns, when the first
    loop has drawn at least one image and the sizes of the images are
    positive, [create_visualization_grid] returns [None]: the division by
    zero, or the negative size of the grid, is caught, and logged as one
    more error after those of [draw_bboxes]. *)
Theorem grid_needs_a_column (w : World)
        (render : string -> Z -> list BBox -> result (Z * Z))
        (pdf_path : string) (pages : list Z)
        (bboxes_per_page : list (Z * list BBox)) (cols : Z)
        (s s1 : list event) (images : list (Z * Z)) :
  cols <= 0 ->
  drawn_images w render pdf_path bboxes_per_page pages [] s = (Ok images, s1) ->
  images <> [] ->
  Forall (fun img => 0 < fst img /\ 0 < snd img) images ->
  exists msg,
    create_visualization_grid w render pdf_path pages bboxes_per_page cols s
    = (Ok None, (s1 ++ [Error ("Error creating visualization grid: " ++ msg)])%list).
Proof.
  intros Hc Hrun Hne Hpos.
  unfold create_visualization_grid, try_except.
  rewrite (bind_run_ok _ _ _ _ _ Hrun). unfold lift, lay_out.
  destruct images as [|first others]; [congruence|].
  destruct (cols =? 0) eqn:E0; [eexists; reflexivity|].
  apply Z.eqb_neq in E0.
  set (mw := max_of (fst first) (map fst others)).
  assert (Hmw : 0 < mw).
  { pose proof (proj1 (max_of_bounds (map fst others) (fst first))) as H1.
    pose proof (Forall_inv Hpos) as H2. cbv beta in H2. unfold mw. lia. }
  unfold image_new.
  assert (E1 : (mw * cols <? 0) = true) by (apply Z.ltb_lt; nia).
  rewrite E1. cbn [orb]. eexists; reflexivity.
Qed.

(** The theorem with no column, on the same four pages: the two errors of
    [draw_bboxes], then the division by zero. *)
Lemma grid_needs_a_column_witness :
  exists msg,
    create_visualization_grid sample_world sample_render "three.pdf"
                              [0; 1; 2; 7] [] 0 []
    = (Ok None,
       [Error "Error drawing bounding boxes: cannot render page";
        Error "Page 7 out of range";
        Error ("Error creating visualization grid: " ++ msg)]).
Proof.
  exact (grid_needs_a_column sample_world sample_render "three.pdf"
           [0; 1; 2; 7] [] 0 []
           [Error "Error drawing bounding boxes: cannot render page";
            Error "Page 7 out of range"]
           [(600, 800); (500, 900)]
           ltac:(lia) eq_refl ltac:(discriminate)
           ltac:(repeat constructor; cbn; lia)).
Defined.

End VisualizerProps.
